(** * socialEngageAI: the engagement-prediction core, embedded in Rocq

    A shallow embedding of the Python sources under [ml/src]:

    - [preprocessing/data_processor.py]   (module [DataProcessor])
    - [features/feature_engineering.py]   (module [FeatureEngineering])
    - [models/engagement_model.py]        (module [EngagementModel])
    - [main.py], the serving adapter      (module [Main])

    Python floats are IEEE binary64 numbers and are modelled by the kernel's
    primitive floats; Python integers are [Z]; text is a list of Unicode code
    points; names (columns, dictionary keys, paths) are [string]s.  Methods
    that raise, log, or mutate [self] run in the small state-and-exception
    monad [Py] over a [World] that holds the two service objects, the model
    directory and the log.  The fitted scikit-learn / XGBoost objects are
    opaque here: a record holding the function the fitted object computes. *)

From Stdlib Require Import ZArith List Floats Lia Bool String Ascii.
From stdpp Require Import base option list gmap strings.
Import ListNotations.

Set Warnings "-inexact-float".
Open Scope string_scope.
Open Scope Z_scope.
Open Scope list_scope.

(* ================================================================= *)
(** ** Python runtime: exceptions, results, floats, text *)

Module Py.

(** The exception classes the modelled code raises or catches. *)
Inductive exn : Type :=
| ValueError (msg : string)
| KeyError (key : string)
| TypeError (msg : string)
| AttributeError (msg : string)
| IndexError (msg : string)
| FileNotFoundError (msg : string)
| OverflowError (msg : string)
| ZeroDivisionError (msg : string)
| UnpicklingError (msg : string).

(** What a call produces: a value, or a raised exception. *)
Inductive outcome (A : Type) : Type :=
| Returned (a : A)
| Raised (e : exn).
Arguments Returned {A} a.
Arguments Raised {A} e.

Definition is_raised {A} (o : outcome A) : bool :=
  match o with Raised _ => true | Returned _ => false end.

(** Sequencing of pure steps that may raise. *)
Definition and_then {A B} (o : outcome A) (k : A -> outcome B) : outcome B :=
  match o with
  | Returned a => k a
  | Raised e => Raised e
  end.

(** [for x in l: s = body(s, x)], stopping at the first exception. *)
Fixpoint for_each {S A} (l : list A) (body : S -> A -> outcome S) (s : S) : outcome S :=
  match l with
  | [] => Returned s
  | x :: r => and_then (body s x) (for_each r body)
  end.

(** [logging] levels and records. *)
Inductive level : Type := INFO | WARNING | ERROR.

Definition log_entry : Type := level * string.

(** *** binary64 arithmetic as Python uses it *)

(** [min(a, b)]: CPython keeps the first argument unless a later one is
    strictly smaller. *)
Definition py_min (a b : float) : float := if (b <? a)%float then b else a.

(** [max(a, b)]: CPython keeps the first argument unless a later one is
    strictly greater. *)
Definition py_max (a b : float) : float := if (a <? b)%float then b else a.

(** [float(n)] for an integer [n], correctly rounded. *)
Definition float_of_Z (n : Z) : float := SF2Prim (binary_normalize prec emax n 0 false).

(** [a / b] on integers (true division): the correctly rounded quotient;
    a zero divisor raises [ZeroDivisionError], a quotient beyond the
    binary64 range raises [OverflowError]. *)
Definition int_truediv (a b : Z) : outcome float :=
  match a, b with
  | _, Z0 => Raised (ZeroDivisionError "division by zero")
  | Z0, _ => Returned (if (b <? 0)%Z then (-0)%float else 0%float)
  | _, _ =>
      let s := xorb (a <? 0)%Z (b <? 0)%Z in
      match SFdiv prec emax (S754_finite s (Z.to_pos (Z.abs a)) 0)
                            (S754_finite false (Z.to_pos (Z.abs b)) 0) with
      | S754_infinity _ => Raised (OverflowError "integer division result too large for a float")
      | q => Returned (SF2Prim q)
      end
  end.

Definition is_nan (x : float) : bool := negb (x =? x)%float.

(** [numpy.sum] of a short 1-D array: the first element, then the others
    added left to right; [0.0] for an empty array. *)
Definition np_sum (l : list float) : float :=
  match l with
  | [] => 0%float
  | x :: r => fold_left (fun acc y => (acc + y)%float) r x
  end.

(** [numpy.mean]: the sum divided by the element count. *)
Definition np_mean (l : list float) : float :=
  (np_sum l / float_of_Z (Z.of_nat (length l)))%float.

(** [numpy.std] (population standard deviation, [ddof = 0]). *)
Definition np_std (l : list float) : float :=
  let m := np_mean l in
  PrimFloat.sqrt (np_mean (map (fun x => ((x - m) * (x - m))%float) l)).

(** *** Text *)

(** A Python [str]: a sequence of Unicode code points. *)
Definition pystr : Type := list N.

(** A literal of ASCII text as a [str]. *)
Definition str (s : string) : pystr := map N_of_ascii (list_ascii_of_string s).

Definition comma : N := 44%N.

(** [c.isspace()], the characters [str.strip()] removes. *)
Definition is_space (c : N) : bool :=
  ((9 <=? c) && (c <=? 13) || (28 <=? c) && (c <=? 32)
   || (c =? 133) || (c =? 160) || (c =? 5760)
   || (8192 <=? c) && (c <=? 8202)
   || (c =? 8232) || (c =? 8233) || (c =? 8239) || (c =? 8287) || (c =? 12288))%N.

Fixpoint lstrip (s : pystr) : pystr :=
  match s with
  | [] => []
  | c :: r => if is_space c then lstrip r else s
  end.

Definition rstrip (s : pystr) : pystr := rev (lstrip (rev s)).

(** [s.strip()] *)
Definition strip (s : pystr) : pystr := rstrip (lstrip s).

(** [s.split(sep)] for a one-character separator: never empty, the empty
    string gives one empty segment. *)
Fixpoint split (sep : N) (s : pystr) : list pystr :=
  match s with
  | [] => [[]]
  | c :: r =>
      if (c =? sep)%N then [] :: split sep r
      else match split sep r with
           | seg :: segs => (c :: seg) :: segs
           | [] => [[c]]
           end
  end.

(** [sep.join(segs)] *)
Fixpoint join (sep : N) (segs : list pystr) : pystr :=
  match segs with
  | [] => []
  | [seg] => seg
  | seg :: rest => seg ++ sep :: join sep rest
  end.

(** [len(s)] *)
Definition len {A} (l : list A) : Z := Z.of_nat (length l).

(** [range(n)] *)
Definition range (n : nat) : list Z := map Z.of_nat (seq 0 n).

(** [l[:n]]: a negative bound counts from the end. *)
Definition slice_to {A} (n : Z) (l : list A) : list A :=
  if (n <? 0)%Z then firstn (Z.to_nat (len l + n)) l else firstn (Z.to_nat n) l.

(** [l.index(x)] on a list of names: the first position, [ValueError] when
    absent. *)
Fixpoint index_of (x : string) (l : list string) : outcome nat :=
  match l with
  | [] => Raised (ValueError "is not in list")
  | y :: r =>
      if String.eqb y x then Returned 0%nat
      else match index_of x r with
           | Returned i => Returned (S i)
           | Raised e => Raised e
           end
  end.

(** [x in l] on a list of names. *)
Definition mem (x : string) (l : list string) : bool :=
  existsb (String.eqb x) l.

End Py.
Export Py.

(* ================================================================= *)
(** ** pandas frames and numpy arrays, as far as the code uses them *)

Module Frame.

(** One cell of a frame. [CNone] stands for a missing value ([None] / NaN in
    an object column). *)
Inductive cell : Type :=
| CNone
| CInt (z : Z)
| CFloat (f : float)
| CStr (s : pystr).

(** A [DataFrame]: the number of rows of its index, and its columns in
    order, each a label with one cell per row. *)
Record t : Type := mk {
  nrows : nat;
  cols : list (string * list cell)
}.

(** [pd.DataFrame()] *)
Definition empty : t := mk 0 [].

(** [df.columns] *)
Definition columns (df : t) : list string := map fst (cols df).

(** [name in df.columns] *)
Definition has_col (name : string) (df : t) : bool := mem name (columns df).

(** [df[name]] for one label: the first column carrying it. *)
Fixpoint lookup_col (name : string) (cs : list (string * list cell)) : option (list cell) :=
  match cs with
  | [] => None
  | (n, v) :: r => if String.eqb n name then Some v else lookup_col name r
  end.

Definition get_col (name : string) (df : t) : option (list cell) :=
  lookup_col name (cols df).

(** [df[name] = values]: every column carrying the label is replaced; a new
    label is appended as the last column. *)
Definition set_col (name : string) (v : list cell) (df : t) : t :=
  if has_col name df
  then mk (nrows df) (map (fun c => if String.eqb (fst c) name then (name, v) else c) (cols df))
  else mk (nrows df) (cols df ++ [(name, v)]).

(** [df[name] = scalar]: the scalar is broadcast over the rows. *)
Definition set_scalar (name : string) (c : cell) (df : t) : t :=
  set_col name (repeat c (nrows df)) df.

(** [df[names]] for a list of labels: the columns carrying each label, in the
    order of [names]; a label carried by no column raises [KeyError]. *)
Definition select (names : list string) (df : t) : outcome t :=
  match List.filter (fun n => negb (has_col n df)) names with
  | [] => Returned (mk (nrows df)
            (flat_map (fun n => List.filter (fun c => String.eqb (fst c) n) (cols df)) names))
  | n :: _ => Raised (KeyError n)
  end.

(** [df.fillna(0)]: a missing value becomes 0, in an object column
    ([None]) as in a float column (NaN). *)
Definition fillna0 (df : t) : t :=
  mk (nrows df)
     (map (fun c => (fst c, map (fun x => match x with
                                          | CNone => CInt 0
                                          | CFloat f => if is_nan f then CFloat 0%float else x
                                          | _ => x
                                          end) (snd c)))
          (cols df)).

(** [df[name].apply(f)] stored back as column [out]. *)
Definition apply_to (name out : string) (f : cell -> cell) (df : t) : t :=
  match get_col name df with
  | Some v => set_col out (map f v) df
  | None => df
  end.

(** A 2-D float [ndarray]: its second dimension and its rows. *)
Record ndarray : Type := mk_array {
  ncols : nat;
  rows : list (list float)
}.

(** [X[:, j] = v]: the column is overwritten in every row; [IndexError]
    when [j] is not a column. *)
Definition set_column (j : nat) (v : float) (X : ndarray) : outcome ndarray :=
  if (j <? ncols X)%nat
  then Returned (mk_array (ncols X) (map (fun r => <[j := v]> r) (rows X)))
  else Raised (IndexError "index is out of bounds for axis 1").

(** Row [i] of a frame, one cell per column. *)
Definition row (i : nat) (df : t) : list cell :=
  map (fun c => nth i (snd c) CNone) (cols df).

(** [df.values]: the rows of the frame. *)
Definition values (df : t) : list (list cell) :=
  map (fun i => row i df) (seq 0 (nrows df)).

(** The rows of a float array, as the cells an estimator receives. *)
Definition array_values (X : ndarray) : list (list cell) :=
  map (map CFloat) (rows X).

(** [pd.DataFrame(matrix, columns=names)]: [ValueError] when the shape does
    not match the labels. *)
Definition of_rows (names : list string) (m : list (list float)) : outcome t :=
  if forallb (fun r => (length r =? length names)%nat) m
  then Returned (mk (length m)
         (imap (fun j n => (n, map (fun r => CFloat (nth j r nan)) m)) names))
  else Raised (ValueError "Shape of passed values does not match the columns").

(** [pd.concat([a, b], axis=1)] for frames over the same default index. *)
Definition concat_columns (a b : t) : t :=
  mk (Nat.max (nrows a) (nrows b)) (cols a ++ cols b).

End Frame.

(* ================================================================= *)
(** ** The objects of the program and the monad its methods run in *)

Module Objects.

(** What a fitted estimator's [predict] returns: a 2-D array (one row per
    sample, one column per target), or a list with one array per target. *)
Inductive predictions : Type :=
| PredArray (samples : list (list float))
| PredList (per_target : list (list float)).

(** A fitted regressor (XGBoost, LightGBM, or a [MultiOutputRegressor]).
    Its trees are opaque: [run_predict] is the function they compute on
    the rows of a frame or array.
    [enable_categorical] is the estimator parameter of that name, [None]
    when the estimator has no such parameter. *)
Record Regressor : Type := {
  enable_categorical : option bool;
  run_predict : list (list Frame.cell) -> outcome predictions
}.

(** One fitted entry of [ColumnTransformer.transformers_]: its name, its
    columns, and (for the one-hot step) the categories seen per column. *)
Record transformer : Type := {
  tr_name : string;
  tr_cols : list string;
  tr_categories : list (list string)
}.

(** A fitted [ColumnTransformer]. *)
Record ColumnTransformer : Type := {
  transformers_ : list transformer;
  ct_transform : Frame.t -> outcome (list (list float))
}.

(** A fitted [TfidfVectorizer]. *)
Record TfidfVectorizer : Type := {
  get_feature_names_out : list string;
  tfidf_transform : list Frame.cell -> outcome (list (list float))
}.

(** The attributes of a [FeatureEngineering] instance. *)
Record FeatureEngineering : Type := {
  preprocessor : option ColumnTransformer;
  tfidf_vectorizer : option TfidfVectorizer;
  numerical_features : list string;
  categorical_features : list string;
  text_feature : string
}.

(** [metrics[split][target][metric]] *)
Abbreviation metrics_t := (gmap string (gmap string (gmap string float))).

(** The metadata dictionary [save] writes next to the weights. A key of a
    dictionary read back from disk may be absent: [None]. *)
Record Metadata : Type := {
  md_model_type : option string;
  md_feature_names : option (option (list string));
  md_target_names : option (list string);
  md_metrics : option metrics_t;
  md_feature_importance : option (list (string * float));
  md_timestamp : option string
}.

(** The dictionary [FeatureEngineering.save] writes; keys may be absent in a
    dictionary read back from disk. *)
Record FeDict : Type := {
  d_preprocessor : option (option ColumnTransformer);
  d_tfidf_vectorizer : option (option TfidfVectorizer);
  d_numerical_features : option (list string);
  d_categorical_features : option (list string);
  d_text_feature : option string
}.

(** The Python objects [joblib] stores and restores here. *)
Inductive pyobj : Type :=
| ObjRegressor (r : Regressor)
| ObjMetadata (m : Metadata)
| ObjFeDict (d : FeDict)
| ObjFeInstance (fe : FeatureEngineering)
| ObjOther.

(** A file: a pickle of an object, or bytes [joblib.load] cannot read. *)
Inductive file : Type :=
| Pickle (o : pyobj)
| Unreadable.

(** The attributes of an [EngagementModel] instance ([shap_values], a
    best-effort diagnostic, is left out). Importance is a [dict] whose
    insertion order matters, hence an association list. *)
Record EngagementModel : Type := {
  model_type : string;
  model_dir : string;
  model : option pyobj;
  feature_names : option (list string);
  target_names : list string;
  metrics : metrics_t;
  feature_importance : list (string * float)
}.

(** The state the methods act on: the serving process's model and pipeline
    objects, the files of the model directory, and the log written so
    far (latest record last). *)
Record World : Type := {
  engagement_model : EngagementModel;
  feature_engineering : FeatureEngineering;
  files : gmap string file;
  logs : list log_entry
}.

(** A Python computation: it may change the world and it returns or
    raises. Mutations made before an exception stay. *)
Definition Py (A : Type) : Type := World -> World * outcome A.

Definition ret {A} (a : A) : Py A := fun w => (w, Returned a).

Definition bind {A B} (m : Py A) (k : A -> Py B) : Py B :=
  fun w => match m w with
           | (w', Returned a) => k a w'
           | (w', Raised e) => (w', Raised e)
           end.

Definition raise {A} (e : exn) : Py A := fun w => (w, Raised e).

(** [try: body  except Exception as e: handler(e)] *)
Definition try_except {A} (body : Py A) (handler : exn -> Py A) : Py A :=
  fun w => match body w with
           | (w', Returned a) => (w', Returned a)
           | (w', Raised e) => handler e w'
           end.

(** Lifting a pure result that may be an exception. *)
Definition lift {A} (o : outcome A) : Py A := fun w => (w, o).

(** [d[key]] where the key may be absent. *)
Definition subscript {A} (key : string) (v : option A) : Py A :=
  match v with
  | Some a => ret a
  | None => raise (KeyError key)
  end.

Definition get_world : Py World := fun w => (w, Returned w).

(** [logger.<level>(msg)] *)
Definition log (l : level) (msg : string) : Py unit :=
  fun w => ({| engagement_model := engagement_model w;
               feature_engineering := feature_engineering w;
               files := files w;
               logs := logs w ++ [(l, msg)] |}, Returned tt).

Definition set_engagement_model (em : EngagementModel) : Py unit :=
  fun w => ({| engagement_model := em;
               feature_engineering := feature_engineering w;
               files := files w;
               logs := logs w |}, Returned tt).

Definition set_feature_engineering (fe : FeatureEngineering) : Py unit :=
  fun w => ({| engagement_model := engagement_model w;
               feature_engineering := fe;
               files := files w;
               logs := logs w |}, Returned tt).

(** [joblib.dump(obj, path)] *)
Definition joblib_dump (o : pyobj) (path : string) : Py unit :=
  fun w => ({| engagement_model := engagement_model w;
               feature_engineering := feature_engineering w;
               files := <[path := Pickle o]> (files w);
               logs := logs w |}, Returned tt).

(** [joblib.load(path)] *)
Definition joblib_load (path : string) : Py pyobj :=
  fun w => match files w !! path with
           | Some (Pickle o) => (w, Returned o)
           | Some Unreadable => (w, Raised (UnpicklingError path))
           | None => (w, Raised (FileNotFoundError path))
           end.

(** [os.path.exists(path)] *)
Definition path_exists (path : string) : Py bool :=
  fun w => (w, Returned (bool_decide (is_Some (files w !! path)))).

(** [os.path.join(dir, name)] *)
Definition path_join (dir name : string) : string :=
  match name with
  | String "/" _ => name
  | _ => if String.eqb dir "" then name
         else if String.eqb (substring (String.length dir - 1) 1 dir) "/" then dir ++ name
         else dir ++ "/" ++ name
  end%string.

End Objects.
Export Objects.

Declare Scope py_scope.
Delimit Scope py_scope with py.
Notation "x <- m ;; k" := (bind m (fun x => k))
  (at level 100, m at next level, right associativity) : py_scope.
Notation "m ;;; k" := (bind m (fun _ => k))
  (at level 100, right associativity) : py_scope.
Notation "x <~ o ;; k" := (and_then o (fun x => k))
  (at level 100, o at next level, right associativity) : py_scope.
Open Scope py_scope.

(* ================================================================= *)
(** ** preprocessing/data_processor.py *)

Module DataProcessor.

(** [lambda x: len(x.split(',')) if isinstance(x, str) and x else 0] *)
Definition hashtag_count (x : Frame.cell) : Z :=
  match x with
  | Frame.CStr ((_ :: _) as s) => len (split comma s)
  | _ => 0
  end.

(** [lambda x: np.mean([len(tag.strip()) for tag in x.split(',')])
              if isinstance(x, str) and x else 0] *)
Definition avg_hashtag_length (x : Frame.cell) : float :=
  match x with
  | Frame.CStr ((_ :: _) as s) =>
      np_mean (map (fun tag => float_of_Z (len (strip tag))) (split comma s))
  | _ => 0%float
  end.

(** [_extract_hashtag_features(df)] *)
Definition _extract_hashtag_features (df : Frame.t) : Py Frame.t :=
  if negb (Frame.has_col "hashtags" df) then
    log WARNING "No hashtags column found for hashtag feature extraction";;;
    ret df
  else
    let df := Frame.apply_to "hashtags" "hashtag_count"
                (fun x => Frame.CInt (hashtag_count x)) df in
    let df := Frame.apply_to "hashtags" "avg_hashtag_length"
                (fun x => Frame.CFloat (avg_hashtag_length x)) df in
    ret df.

(** *** Temporal features ([_extract_temporal_features]) *)

(** [lambda x: 1 if x >= 5 else 0], on the day of the week. *)
Definition is_weekend (x : Z) : Z := if 5 <=? x then 1 else 0.

(** [get_time_category(hour)] *)
Definition get_time_category (hour : Z) : string :=
  if (5 <=? hour) && (hour <? 12) then "morning"
  else if (12 <=? hour) && (hour <? 17) then "afternoon"
  else if (17 <=? hour) && (hour <? 21) then "evening"
  else "night".

(** *** Text features ([_extract_text_features]) *)

(** [x.split()]: the maximal runs of characters that are not white space. *)
Fixpoint words (x : pystr) : list pystr :=
  match x with
  | [] => []
  | c :: r =>
      if is_space c then words r
      else match r with
           | [] => [[c]]
           | c' :: _ =>
               if is_space c' then [c] :: words r
               else match words r with
                    | w :: ws => (c :: w) :: ws
                    | [] => [[c]]
                    end
           end
  end.

(** [x.count(ch)] for a one-character [ch]. *)
Definition count_char (ch : N) (x : pystr) : Z :=
  len (List.filter (fun c => (c =? ch)%N) x).

(** [apply(len)] *)
Definition text_length (x : pystr) : Z := len x.

(** [lambda x: len(x.split())] *)
Definition word_count (x : pystr) : Z := len (words x).

(** [lambda x: np.mean([len(word) for word in x.split()])
              if len(x.split()) > 0 else 0] *)
Definition avg_word_length (x : pystr) : float :=
  if 0 <? len (words x)
  then np_mean (map (fun word => float_of_Z (len word)) (words x))
  else 0%float.

(** [lambda x: x.count('!')] and [lambda x: x.count('?')] *)
Definition exclamation_count (x : pystr) : Z := count_char 33%N x.

Definition question_count (x : pystr) : Z := count_char 63%N x.

(** *** Splitting into features and targets ([split_data]) *)

Definition target_cols : list string := ["likes"; "shares"; "comments"].

Definition non_feature_cols : list string :=
  target_cols ++ ["post_id"; "timestamp"; "post_text"; "hashtags"].

(** The text of a list of plain names inside an f-string:
    [['likes', 'shares']]. (Names here are taken from [target_cols], so no
    quote or escape occurs in them.) *)
Definition repr_names (names : list string) : string :=
  ("[" ++ String.concat ", " (map (fun n => "'" ++ n ++ "'") names) ++ "]")%string.

(** [split_data(df, test_size, random_state)]. scikit-learn's
    [train_test_split], with its size and seed, is the argument
    [train_test_split]: the function from the feature frame and the target
    frame to the four parts. The final log line is kept without the two
    shapes it prints. *)
Definition split_data
    (train_test_split : Frame.t -> Frame.t -> outcome (Frame.t * Frame.t * Frame.t * Frame.t))
    (df : Frame.t) : Py (Frame.t * Frame.t * Frame.t * Frame.t) :=
  let missing_targets := List.filter (fun col => negb (Frame.has_col col df)) target_cols in
  match missing_targets with
  | _ :: _ =>
      log ERROR ("Missing target columns: " ++ repr_names missing_targets)%string;;;
      raise (ValueError ("Missing target columns: " ++ repr_names missing_targets)%string)
  | [] =>
      let feature_cols :=
        List.filter (fun col => negb (mem col non_feature_cols)) (Frame.columns df) in
      X <- lift (Frame.select feature_cols df);;
      y <- lift (Frame.select target_cols df);;
      parts <- lift (train_test_split X y);;
      log INFO "Data split complete.";;;
      ret parts
  end.

End DataProcessor.

(* ================================================================= *)
(** ** features/feature_engineering.py *)

Module FeatureEngineering.

(** [self] of the methods below: the pipeline object of the process. *)
Definition self : Py Objects.FeatureEngineering :=
  fun w => (w, Returned (feature_engineering w)).

(** [__init__] *)
Definition init : Objects.FeatureEngineering := {|
  preprocessor := None;
  tfidf_vectorizer := None;
  numerical_features :=
    ["followers_count"; "following_count"; "account_age";
     "text_length"; "word_count"; "avg_word_length";
     "sentiment_compound"; "sentiment_positive"; "sentiment_negative"; "sentiment_neutral";
     "mention_count"; "url_count"; "exclamation_count"; "question_count";
     "hashtag_count"; "avg_hashtag_length"; "follower_following_ratio";
     "hour_of_day"; "day_of_week"; "month"];
  categorical_features := ["media_type"; "time_category"; "is_weekend"];
  text_feature := "post_text"
|}.

(** [_get_feature_names]: numerical columns keep their names, each
    categorical column contributes one name per category seen. *)
Definition _get_feature_names (fe : Objects.FeatureEngineering) : list string :=
  match preprocessor fe with
  | None => []
  | Some ct =>
      flat_map (fun tr =>
        if String.eqb (tr_name tr) "num" then tr_cols tr
        else if String.eqb (tr_name tr) "cat" then
          concat (imap (fun i col =>
                    map (fun cat => col ++ "_" ++ cat)%string (nth i (tr_categories tr) []))
                  (tr_cols tr))
        else []) (transformers_ ct)
  end.

(** [transform(df)] *)
Definition transform (df : Frame.t) : Py Frame.t :=
  fe <- self;;
  log INFO "Transforming data with feature engineering pipeline";;;
  match preprocessor fe with
  | None =>
      log WARNING "Preprocessor not fitted. Returning empty feature set.";;;
      ret Frame.empty
  | Some ct =>
      transformed_features <- lift (ct_transform ct df);;
      let feature_names := _get_feature_names fe in
      transformed_df <- lift (Frame.of_rows feature_names transformed_features);;
      match tfidf_vectorizer fe, Frame.get_col (text_feature fe) df with
      | Some tv, Some text =>
          log INFO "Transforming text feature with TF-IDF vectorizer";;;
          text_features <- lift (tfidf_transform tv
             (map (fun x => match x with Frame.CNone => Frame.CStr [] | _ => x end) text));;
          let text_feature_names :=
            map (fun f => "tfidf_" ++ f)%string (get_feature_names_out tv) in
          text_df <- lift (Frame.of_rows text_feature_names text_features);;
          let transformed_df := Frame.concat_columns transformed_df text_df in
          log INFO "Data transformation complete.";;;
          ret transformed_df
      | _, _ =>
          log INFO "Data transformation complete.";;;
          ret transformed_df
      end
  end.

(** [save(filepath)] *)
Definition save (filepath : string) : Py unit :=
  fe <- self;;
  joblib_dump (ObjFeDict {|
      d_preprocessor := Some (preprocessor fe);
      d_tfidf_vectorizer := Some (tfidf_vectorizer fe);
      d_numerical_features := Some (numerical_features fe);
      d_categorical_features := Some (categorical_features fe);
      d_text_feature := Some (text_feature fe) |}) filepath;;;
  log INFO "Feature engineering pipeline saved".

(** Attribute assignments of [load], one at a time: an exception between
    two of them leaves the earlier ones in place. *)
Definition set_preprocessor (v : option ColumnTransformer) : Py unit :=
  fe <- self;;
  set_feature_engineering {|
    preprocessor := v; tfidf_vectorizer := tfidf_vectorizer fe;
    numerical_features := numerical_features fe;
    categorical_features := categorical_features fe; text_feature := text_feature fe |}.

Definition set_tfidf_vectorizer (v : option TfidfVectorizer) : Py unit :=
  fe <- self;;
  set_feature_engineering {|
    preprocessor := preprocessor fe; tfidf_vectorizer := v;
    numerical_features := numerical_features fe;
    categorical_features := categorical_features fe; text_feature := text_feature fe |}.

Definition set_numerical_features (v : list string) : Py unit :=
  fe <- self;;
  set_feature_engineering {|
    preprocessor := preprocessor fe; tfidf_vectorizer := tfidf_vectorizer fe;
    numerical_features := v;
    categorical_features := categorical_features fe; text_feature := text_feature fe |}.

Definition set_categorical_features (v : list string) : Py unit :=
  fe <- self;;
  set_feature_engineering {|
    preprocessor := preprocessor fe; tfidf_vectorizer := tfidf_vectorizer fe;
    numerical_features := numerical_features fe;
    categorical_features := v; text_feature := text_feature fe |}.

Definition set_text_feature (v : string) : Py unit :=
  fe <- self;;
  set_feature_engineering {|
    preprocessor := preprocessor fe; tfidf_vectorizer := tfidf_vectorizer fe;
    numerical_features := numerical_features fe;
    categorical_features := categorical_features fe; text_feature := v |}.

(** The body of the [try] block of [load]. *)
Definition load_body (filepath : string) : Py bool :=
  data <- joblib_load filepath;;
  match data with
  | ObjFeDict d =>
      v <- subscript "preprocessor" (d_preprocessor d);; set_preprocessor v;;;
      v <- subscript "tfidf_vectorizer" (d_tfidf_vectorizer d);; set_tfidf_vectorizer v;;;
      v <- subscript "numerical_features" (d_numerical_features d);; set_numerical_features v;;;
      v <- subscript "categorical_features" (d_categorical_features d);; set_categorical_features v;;;
      v <- subscript "text_feature" (d_text_feature d);; set_text_feature v;;;
      log INFO "Feature engineering pipeline loaded";;;
      ret true
  | ObjMetadata _ =>
      (* a dictionary without the key 'preprocessor' *)
      raise (KeyError "preprocessor")
  | ObjFeInstance data =>
      set_preprocessor (preprocessor data);;;
      set_tfidf_vectorizer (tfidf_vectorizer data);;;
      set_numerical_features (numerical_features data);;;
      set_categorical_features (categorical_features data);;;
      set_text_feature (text_feature data);;;
      log INFO "Feature engineering pipeline loaded";;;
      ret true
  | ObjRegressor _ | ObjOther =>
      raise (AttributeError "object has no attribute 'preprocessor'")
  end.

(** [load(filepath)]: the [try] block, and its [except Exception] arm. *)
Definition load (filepath : string) : Py bool :=
  try_except (load_body filepath)
    (fun e => log ERROR "Error loading feature engineering pipeline";;; ret false).

(** [get_feature_names()]: the preprocessor's names, then the TF-IDF names
    when a vectorizer is fitted. *)
Definition get_feature_names (fe : Objects.FeatureEngineering) : list string :=
  _get_feature_names fe
  ++ match tfidf_vectorizer fe with
     | Some tv => map (fun f => "tfidf_" ++ f)%string (get_feature_names_out tv)
     | None => []
     end.

End FeatureEngineering.

(* ================================================================= *)
(** ** models/engagement_model.py *)

Module EngagementModel.

(** [self] of the methods below: the model object of the process. *)
Definition self : Py Objects.EngagementModel :=
  fun w => (w, Returned (engagement_model w)).

(** [__init__(model_type, model_dir)]: the Uninitialized model. *)
Definition init (model_type model_dir : string) : Objects.EngagementModel := {|
  Objects.model_type := model_type;
  Objects.model_dir := model_dir;
  model := None;
  feature_names := None;
  target_names := ["likes"; "shares"; "comments"];
  metrics := ∅;
  feature_importance := []
|}.

(** Attribute assignments. *)
Definition set_model (v : option pyobj) : Py unit :=
  em <- self;;
  set_engagement_model {|
    model_type := model_type em; model_dir := model_dir em; model := v;
    feature_names := feature_names em; target_names := target_names em;
    metrics := metrics em; feature_importance := feature_importance em |}.

Definition set_model_type (v : string) : Py unit :=
  em <- self;;
  set_engagement_model {|
    model_type := v; model_dir := model_dir em; model := model em;
    feature_names := feature_names em; target_names := target_names em;
    metrics := metrics em; feature_importance := feature_importance em |}.

Definition set_feature_names (v : option (list string)) : Py unit :=
  em <- self;;
  set_engagement_model {|
    model_type := model_type em; model_dir := model_dir em; model := model em;
    feature_names := v; target_names := target_names em;
    metrics := metrics em; feature_importance := feature_importance em |}.

Definition set_target_names (v : list string) : Py unit :=
  em <- self;;
  set_engagement_model {|
    model_type := model_type em; model_dir := model_dir em; model := model em;
    feature_names := feature_names em; target_names := v;
    metrics := metrics em; feature_importance := feature_importance em |}.

Definition set_metrics (v : metrics_t) : Py unit :=
  em <- self;;
  set_engagement_model {|
    model_type := model_type em; model_dir := model_dir em; model := model em;
    feature_names := feature_names em; target_names := target_names em;
    metrics := v; feature_importance := feature_importance em |}.

Definition set_feature_importance (v : list (string * float)) : Py unit :=
  em <- self;;
  set_engagement_model {|
    model_type := model_type em; model_dir := model_dir em; model := model em;
    feature_names := feature_names em; target_names := target_names em;
    metrics := metrics em; feature_importance := v |}.

(** [self.model.predict(data)]: [None] and objects that are no estimator
    have no [predict] attribute. *)
Definition model_predict (m : option pyobj) (data : list (list Frame.cell))
  : outcome predictions :=
  match m with
  | Some (ObjRegressor r) => run_predict r data
  | None => Raised (AttributeError "'NoneType' object has no attribute 'predict'")
  | Some _ => Raised (AttributeError "object has no attribute 'predict'")
  end.

(** *** Engagement level *)

Inductive engagement_level : Type := low | medium | high.

Definition bins : list float := [0%float; 50%float; 200%float; infinity].

Definition labels : list engagement_level := [low; medium; high].

(** [bins.searchsorted(x, side='left')] on the sorted [bins]: the number of
    edges strictly below [x]. *)
Definition searchsorted_left (edges : list float) (x : float) : nat :=
  length (List.filter (fun b => (b <? x)%float) edges).

(** [pd.cut(x, bins, labels)] on one value, with the defaults [right=True]
    and [include_lowest=False]: intervals are open on the left and closed
    on the right; a value in no interval, or NaN, gets no label. *)
Definition cut (x : float) : option engagement_level :=
  if is_nan x then None
  else
    let ids := searchsorted_left bins x in
    if (ids =? 0)%nat || (ids =? length bins)%nat then None
    else nth_error labels (ids - 1).

(** One row of [predictions_df.sum(axis=1)]: NaN entries count as zero. *)
Definition row_sum (r : list Frame.cell) : float :=
  np_sum (flat_map (fun c =>
            match c with
            | Frame.CFloat f => [if is_nan f then 0%float else f]
            | Frame.CInt z => [float_of_Z z]
            | _ => []
            end) r).

Definition level_name (l : engagement_level) : pystr :=
  match l with
  | low => str "low"
  | medium => str "medium"
  | high => str "high"
  end.

Definition level_cell (l : option engagement_level) : Frame.cell :=
  match l with
  | Some l => Frame.CStr (level_name l)
  | None => Frame.CNone
  end.

(** The frame built from a list of per-target arrays:
    [predictions_df[target] = predictions[i]] for each target in turn. *)
Fixpoint assign_targets (i : nat) (targets : list string) (per_target : list (list float))
    (df : Frame.t) : outcome Frame.t :=
  match targets with
  | [] => Returned df
  | target :: rest =>
      match per_target !! i with
      | None => Raised (IndexError "list index out of range")
      | Some v =>
          if bool_decide (Frame.cols df = []) || (length v =? Frame.nrows df)%nat
          then assign_targets (S i) rest per_target
                 (Frame.set_col target (map Frame.CFloat v) (Frame.mk (length v) (Frame.cols df)))
          else Raised (ValueError "Length of values does not match length of index")
      end
  end.

(** [predict(X)] *)
Definition predict (X : Frame.t) : Py Frame.t :=
  em <- self;;
  match model em with
  | None => raise (ValueError "Model not trained. Call train() first.")
  | Some _ =>
      predictions <- lift (model_predict (model em) (Frame.values X));;
      predictions_df <- lift (
        match predictions with
        | PredList per_target => assign_targets 0 (target_names em) per_target Frame.empty
        | PredArray samples => Frame.of_rows (target_names em) samples
        end);;
      let total_engagement := map row_sum (Frame.values predictions_df) in
      let engagement_level := map (fun t => level_cell (cut t)) total_engagement in
      ret (Frame.set_col "engagement_level" engagement_level predictions_df)
  end.

(** *** Post-time recommendation *)

(** A naive [datetime]: the proleptic Gregorian ordinal of its date
    ([date.toordinal()]) and its time of day. *)
Record datetime : Type := {
  ordinal : Z;
  hour : Z;
  minute : Z;
  second : Z;
  microsecond : Z
}.

(** [datetime.max.toordinal()] *)
Definition max_ordinal : Z := 3652059.

(** [d.weekday()]: Monday is 0; ordinal 1 is a Monday. *)
Definition weekday (d : datetime) : Z := (ordinal d + 6) mod 7.

(** [a < b] on datetimes: field by field, most significant first. *)
Definition datetime_ltb (a b : datetime) : bool :=
  match (ordinal a ?= ordinal b)%Z with
  | Lt => true | Gt => false
  | Eq =>
    match (hour a ?= hour b)%Z with
    | Lt => true | Gt => false
    | Eq =>
      match (minute a ?= minute b)%Z with
      | Lt => true | Gt => false
      | Eq =>
        match (second a ?= second b)%Z with
        | Lt => true | Gt => false
        | Eq => (microsecond a <? microsecond b)%Z
        end
      end
    end
  end.

(** The local variables of the search loop. *)
Record search : Type := {
  X_copy : Frame.ndarray;
  best_engagement : float;
  best_hour : option Z;
  best_day : option Z
}.

(** The total engagement read off one prediction: the first sample,
    summed over the targets. *)
Definition total_of (p : predictions) : outcome float :=
  match p with
  | PredList per_target =>
      for_each per_target
        (fun acc pred => match pred with
                         | [] => Raised (IndexError "index 0 is out of bounds")
                         | x :: _ => Returned (acc + x)%float
                         end) 0%float
  | PredArray [] => Raised (IndexError "index 0 is out of bounds")
  | PredArray (first :: _) => Returned (np_sum first)
  end.

(** The body of the inner loop, for one [day] and [hour]. *)
Definition grid_step (m : option pyobj) (hour_idx day_idx : nat)
    (st : search) (day hour : Z) : outcome search :=
  X1 <~ Frame.set_column hour_idx (float_of_Z hour) (X_copy st);;
  X2 <~ Frame.set_column day_idx (float_of_Z day) X1;;
  predictions <~ model_predict m (Frame.array_values X2);;
  total_engagement <~ total_of predictions;;
  if (best_engagement st <? total_engagement)%float
  then Returned {| X_copy := X2; best_engagement := total_engagement;
                   best_hour := Some hour; best_day := Some day |}
  else Returned {| X_copy := X2; best_engagement := best_engagement st;
                   best_hour := best_hour st; best_day := best_day st |}.

(** The two nested loops over [range(7)] and [range(24)]. *)
Definition grid_search (m : option pyobj) (hour_idx day_idx : nat) (X : Frame.ndarray)
  : outcome search :=
  for_each (range 7)
    (fun st day =>
       for_each (range 24) (fun st hour => grid_step m hour_idx day_idx st day hour) st)
    {| X_copy := X; best_engagement := (-1)%float; best_hour := None; best_day := None |}.

(** [recommend_post_time(X, feature_cols)]; [now] is what [datetime.now()]
    reads after the search. *)
Definition recommend_post_time (X : Frame.ndarray) (feature_cols : option (list string))
    (now : datetime) : Py (option datetime) :=
  em <- self;;
  match (match feature_cols with Some c => Some c | None => feature_names em end) with
  | None =>
      log WARNING "Cannot recommend post time: feature_names not available";;;
      ret None
  | Some feature_cols =>
      if negb (mem "hour_of_day" feature_cols) || negb (mem "day_of_week" feature_cols)
      then
        log WARNING "Cannot recommend post time: hour_of_day or day_of_week not in features";;;
        ret None
      else
        match index_of "hour_of_day" feature_cols, index_of "day_of_week" feature_cols with
        | Returned hour_idx, Returned day_idx =>
            match grid_search (model em) hour_idx day_idx X with
            | Raised e =>
                log WARNING "Error during post time recommendation";;;
                ret None
            | Returned st =>
                match best_day st, best_hour st with
                | Some best_day, Some best_hour =>
                    let days_ahead := (best_day - weekday now) mod 7 in
                    let days_ahead :=
                      if (days_ahead =? 0) && (best_hour <=? hour now) then 7 else days_ahead in
                    if (max_ordinal <? ordinal now + days_ahead)
                    then raise (OverflowError "date value out of range")
                    else ret (Some {| ordinal := ordinal now + days_ahead;
                                      hour := best_hour;
                                      minute := 0; second := 0; microsecond := 0 |})
                | _, _ =>
                    raise (TypeError "unsupported operand type(s) for -: 'NoneType' and 'int'")
                end
            end
        | _, _ =>
            log WARNING "Error finding feature indices";;;
            ret None
        end
  end.

(** *** Persistence *)

(** [save(filename)]; [stamp] and [iso] are the two renderings of
    [datetime.now()] the method takes. *)
Definition save (filename : option string) (stamp iso : string) : Py (string * string) :=
  em <- self;;
  match model em with
  | None => raise (ValueError "Model not trained. Call train() first.")
  | Some m =>
      let filename :=
        match filename with
        | Some f => f
        | None => (model_type em ++ "_model_" ++ stamp)%string
        end in
      let model_path := path_join (model_dir em) (filename ++ ".joblib")%string in
      let metadata_path := path_join (model_dir em) (filename ++ "_metadata.joblib")%string in
      joblib_dump m model_path;;;
      joblib_dump (ObjMetadata {|
          md_model_type := Some (model_type em);
          md_feature_names := Some (feature_names em);
          md_target_names := Some (target_names em);
          md_metrics := Some (metrics em);
          md_feature_importance := Some (feature_importance em);
          md_timestamp := Some iso |}) metadata_path;;;
      log INFO ("Model saved to " ++ model_path)%string;;;
      log INFO ("Metadata saved to " ++ metadata_path)%string;;;
      ret (model_path, metadata_path)
  end.

(** The XGBoost branch of [load]: switch categorical support on when the
    loaded estimator has that parameter. *)
Definition enable_categorical_support : Py unit :=
  em <- self;;
  match model em with
  | Some (ObjRegressor r) =>
      if String.eqb (model_type em) "xgboost" && bool_decide (is_Some (enable_categorical r))
      then
        set_model (Some (ObjRegressor {| enable_categorical := Some true;
                                         run_predict := run_predict r |}));;;
        log INFO "Enabled categorical feature support for XGBoost model"
      else ret tt
  | _ => ret tt
  end.

(** [load(filename)] *)
Definition load (filename : string) : Py unit :=
  em <- self;;
  let model_path := path_join (model_dir em) (filename ++ ".joblib")%string in
  let metadata_path := path_join (model_dir em) (filename ++ "_metadata.joblib")%string in
  model_exists <- path_exists model_path;;
  if negb model_exists
  then raise (FileNotFoundError ("Model file not found: " ++ model_path)%string)
  else
    metadata_exists <- path_exists metadata_path;;
    if negb metadata_exists
    then raise (FileNotFoundError ("Metadata file not found: " ++ metadata_path)%string)
    else
      m <- joblib_load model_path;;
      set_model (Some m);;;
      enable_categorical_support;;;
      metadata <- joblib_load metadata_path;;
      match metadata with
      | ObjMetadata md =>
          v <- subscript "model_type" (md_model_type md);; set_model_type v;;;
          v <- subscript "feature_names" (md_feature_names md);; set_feature_names v;;;
          v <- subscript "target_names" (md_target_names md);; set_target_names v;;;
          v <- subscript "metrics" (md_metrics md);; set_metrics v;;;
          v <- subscript "feature_importance" (md_feature_importance md);;
          set_feature_importance v;;;
          log INFO ("Model loaded from " ++ model_path)%string;;;
          log INFO ("Metadata loaded from " ++ metadata_path)%string
      | ObjFeDict _ => raise (KeyError "model_type")
      | _ => raise (TypeError "object is not subscriptable")
      end.

(** [get_metrics()] *)
Definition get_metrics : Py metrics_t :=
  em <- self;; ret (metrics em).

(** [get_feature_importance(top_n)] *)
Definition get_feature_importance (top_n : option Z) : Py (list (string * float)) :=
  em <- self;;
  match top_n with
  | Some n => ret (slice_to n (feature_importance em))
  | None => ret (feature_importance em)
  end.

End EngagementModel.

(* ================================================================= *)
(** ** main.py: the serving adapter *)

Module Main.

(** [PostData]: the request body. The three counts are [Optional[int]]. *)
Record PostData : Type := {
  post_text : pystr;
  media_type : pystr;
  hashtags : pystr;
  timestamp : option pystr;
  user_id : option pystr;
  followers_count : option Z;
  following_count : option Z;
  account_age : option Z
}.

(** An [Optional[int]] used in an ordering comparison: [None] does not
    compare with an integer. *)
Definition int_operand (v : option Z) : Py Z :=
  match v with
  | Some n => ret n
  | None => raise (TypeError "'<' not supported between instances of 'NoneType' and 'int'")
  end.

(** *** Feature transformation with fallback (the block "Transform features") *)

Definition transform_features (processed_data : Frame.t) : Py Frame.t :=
  fe <- FeatureEngineering.self;;
  match preprocessor fe with
  | None =>
      log WARNING "Feature engineering pipeline not fitted. Using raw features.";;;
      ret (Frame.fillna0 processed_data)
  | Some _ =>
      try_except (FeatureEngineering.transform processed_data)
        (fun e =>
           log ERROR "Error transforming features";;;
           ret (Frame.fillna0 processed_data))
  end.

(** *** Column reconciliation (the block "Ensure we only use features that
    the model was trained with") *)

Definition reconcile_columns (features : Frame.t) : Py Frame.t :=
  em <- EngagementModel.self;;
  match feature_names em with
  | Some ((_ :: _) as names) =>
      log INFO ("Model feature names: " ++ String.concat ", " names)%string;;;
      let missing_features := List.filter (fun f => negb (Frame.has_col f features)) names in
      let extra_features := List.filter (fun f => negb (mem f names)) (Frame.columns features) in
      features <-
        (match missing_features with
         | [] => ret features
         | _ =>
             log WARNING ("Missing features: " ++ String.concat ", " missing_features)%string;;;
             ret (fold_left (fun df feature => Frame.set_scalar feature (Frame.CInt 0) df)
                            missing_features features)
         end);;
      (match extra_features with
       | [] => ret tt
       | _ => log WARNING ("Extra features that will be dropped: "
                           ++ String.concat ", " extra_features)%string
       end);;;
      lift (Frame.select names features)
  | _ => ret features
  end.

(** *** Confidence score (the block "Calculate confidence score") *)

(** [prediction[name]] on the first row of the predictions, as a float. *)
Definition prediction_value (name : string) (prediction : list (string * Frame.cell))
  : Py float :=
  match List.find (fun c => String.eqb (fst c) name) prediction with
  | None => raise (KeyError name)
  | Some (_, Frame.CFloat f) => ret f
  | Some (_, Frame.CInt z) => ret (float_of_Z z)
  | Some _ => raise (TypeError "unsupported operand type(s)")
  end.

(** 1. Base confidence from model metrics (if available). *)
Definition base_confidence : Py float :=
  em <- EngagementModel.self;;
  match metrics em !! "val" with
  | Some val =>
      match val !! "average" with
      | Some average =>
          r2 <- subscript "r2" (average !! "r2");;
          ret (py_max 0.5 (py_min 0.9 r2))
      | None => ret 0.7%float
      end
  | None => ret 0.7%float
  end.

(** 2. Adjust confidence based on input data quality. *)
Definition data_quality (post : PostData) : Py float :=
  let data_quality_score := 1.0%float in
  let text_length := len (post_text post) in
  let data_quality_score :=
    if text_length <? 10 then (data_quality_score * 0.9)%float
    else if 500 <? text_length then (data_quality_score * 0.95)%float
    else data_quality_score in
  followers <- int_operand (followers_count post);;
  data_quality_score <-
    (if 0 <? followers then
       following <- int_operand (following_count post);;
       if 0 <? following then
         ratio <- lift (int_truediv followers following);;
         if (100 <? ratio)%float then ret (data_quality_score * 0.9)%float
         else if (ratio <? 0.01)%float then ret (data_quality_score * 0.9)%float
         else ret data_quality_score
       else ret data_quality_score
     else ret data_quality_score);;
  age <- int_operand (account_age post);;
  let data_quality_score :=
    if age <? 30 then (data_quality_score * 0.9)%float else data_quality_score in
  let hashtag_count :=
    match hashtags post with
    | [] => 0
    | _ => len (split comma (hashtags post))
    end in
  let data_quality_score :=
    if 10 <? hashtag_count then (data_quality_score * 0.95)%float else data_quality_score in
  ret data_quality_score.

(** 3. Adjust confidence based on prediction values. *)
Definition prediction_confidence (prediction : list (string * Frame.cell)) : Py float :=
  likes <- prediction_value "likes" prediction;;
  shares <- prediction_value "shares" prediction;;
  comments <- prediction_value "comments" prediction;;
  let prediction_values := [likes; shares; comments] in
  let prediction_mean := np_mean prediction_values in
  let prediction_std := np_std prediction_values in
  let prediction_confidence := 1.0%float in
  let prediction_confidence :=
    if (0 <? prediction_mean)%float then
      let cv := (prediction_std / prediction_mean)%float in
      if (1.0 <? cv)%float then (prediction_confidence * 0.9)%float
      else prediction_confidence
    else prediction_confidence in
  let prediction_confidence :=
    if (1000 <? prediction_mean)%float then (prediction_confidence * 0.9)%float
    else if (prediction_mean <? 5)%float then (prediction_confidence * 0.9)%float
    else prediction_confidence in
  ret prediction_confidence.

(** The body of the [try] block; step 4 combines the factors and clamps. *)
Definition confidence_body (post : PostData) (prediction : list (string * Frame.cell))
  : Py float :=
  log INFO "Calculating confidence score for post";;;
  base_confidence <- base_confidence;;
  data_quality_score <- data_quality post;;
  prediction_confidence <- prediction_confidence prediction;;
  let confidence_score :=
    (base_confidence * data_quality_score * prediction_confidence)%float in
  let confidence_score := py_max 0.5 (py_min 0.95 confidence_score) in
  log INFO "Final calculated confidence score";;;
  ret confidence_score.

(** The [try] block with its [except Exception] arm: the fallback score. *)
Definition confidence_score (post : PostData) (prediction : list (string * Frame.cell))
  : Py float :=
  try_except (confidence_body post prediction)
    (fun e =>
       log ERROR "Error calculating confidence score";;;
       ret 0.7%float).

(** *** Indicator features (the blocks "Add media type features", "Add time
    category features", "Add weekend feature", "Fill missing values") *)

Definition required_features : list string :=
  ["followers_count"; "following_count"; "account_age"; "text_length"; "word_count";
   "avg_word_length"; "sentiment_compound"; "sentiment_positive"; "sentiment_negative";
   "sentiment_neutral"; "mention_count"; "url_count"; "exclamation_count";
   "question_count"; "hashtag_count"; "avg_hashtag_length"; "follower_following_ratio";
   "hour_of_day"; "day_of_week"; "month"].

Definition media_types : list string := ["image"; "text"; "video"].

Definition time_categories : list string := ["morning"; "afternoon"; "evening"; "night"].

(** [column.iloc[0]] *)
Definition iloc0 (v : list Frame.cell) : outcome Frame.cell :=
  match v with
  | [] => Raised (IndexError "single positional indexer is out-of-bounds")
  | c :: _ => Returned c
  end.

(** [x < n] and [x >= n] for a cell and an integer literal: a missing
    number (NaN) compares false, text does not compare with a number. *)
Definition cell_lt (x : Frame.cell) (n : Z) : outcome bool :=
  match x with
  | Frame.CInt z => Returned (z <? n)
  | Frame.CFloat f => Returned (f <? float_of_Z n)%float
  | Frame.CNone => Returned false
  | Frame.CStr _ =>
      Raised (TypeError "'<' not supported between instances of 'str' and 'int'")
  end.

Definition cell_ge (x : Frame.cell) (n : Z) : outcome bool :=
  match x with
  | Frame.CInt z => Returned (n <=? z)
  | Frame.CFloat f => Returned (float_of_Z n <=? f)%float
  | Frame.CNone => Returned false
  | Frame.CStr _ =>
      Raised (TypeError "'>=' not supported between instances of 'str' and 'int'")
  end.

(** [lo <= x < hi], evaluated left to right. *)
Definition between (lo : Z) (x : Frame.cell) (hi : Z) : outcome bool :=
  a <~ cell_ge x lo;;
  if a then cell_lt x hi else Returned false.

(** The [if]/[elif] chain on the hour: the category whose indicator is set. *)
Definition serving_time_category (hour : Frame.cell) : outcome string :=
  b <~ between 0 hour 6;;
  if b then Returned "night"
  else
    b <~ between 6 hour 12;;
    if b then Returned "morning"
    else
      b <~ between 12 hour 18;;
      if b then Returned "afternoon" else Returned "evening".

(** The four blocks in sequence, on the preprocessed one-post frame. *)
Definition add_serving_features (processed_data : Frame.t) : outcome Frame.t :=
  let df :=
    fold_left (fun df m => Frame.set_scalar ("media_type_" ++ m)%string (Frame.CInt 0) df)
              media_types processed_data in
  df <~ match Frame.get_col "media_type" df with
        | Some v =>
            media_type <~ iloc0 v;;
            match media_type with
            | Frame.CStr s =>
                match List.find (fun m => bool_decide (s = str m)) media_types with
                | Some m => Returned (Frame.set_scalar ("media_type_" ++ m)%string
                                                       (Frame.CInt 1) df)
                | None => Returned df
                end
            | _ => Returned df
            end
        | None => Returned df
        end;;
  let df :=
    fold_left (fun df c => Frame.set_scalar ("time_category_" ++ c)%string (Frame.CInt 0) df)
              time_categories df in
  hour <~ match Frame.get_col "hour_of_day" df with
          | Some v => iloc0 v
          | None => Returned (Frame.CInt 0)
          end;;
  category <~ serving_time_category hour;;
  let df := Frame.set_scalar ("time_category_" ++ category)%string (Frame.CInt 1) df in
  weekday <~ match Frame.get_col "day_of_week" df with
             | Some v => d <~ iloc0 v;; cell_lt d 5
             | None => Returned false
             end;;
  let df := Frame.set_scalar "is_weekend_0" (Frame.CInt (if weekday then 1 else 0)) df in
  weekend <~ match Frame.get_col "day_of_week" df with
             | Some v => d <~ iloc0 v;; cell_ge d 5
             | None => Returned false
             end;;
  let df := Frame.set_scalar "is_weekend_1" (Frame.CInt (if weekend then 1 else 0)) df in
  Returned (fold_left (fun df feature =>
                         if Frame.has_col feature df then df
                         else Frame.set_scalar feature (Frame.CInt 0) df)
                      required_features df).

(** *** Recommended post time (the block "Try to recommend best post time") *)

(** [isoformat] is [datetime.isoformat]; [features_array] is
    [features.values]; [now] is the clock reading the recommender takes. *)
Definition recommended_post_time (isoformat : EngagementModel.datetime -> string)
    (features_array : Frame.ndarray) (now : EngagementModel.datetime) : Py (option string) :=
  try_except
    (log INFO "Features array type and shape";;;
     em <- EngagementModel.self;;
     log INFO "Feature names";;;
     recommended_time <-
       EngagementModel.recommend_post_time features_array (feature_names em) now;;
     match recommended_time with
     | Some t => ret (Some (isoformat t))
     | None => ret None
     end)
    (fun e =>
       log WARNING "Error recommending post time";;;
       ret None).

(** *** Loading the latest saved model (the [try] block of [get_model]) *)

(** [s.endswith(suffix)]: some tail of [s] is [suffix]. *)
Fixpoint endswith (s suffix : string) : bool :=
  String.eqb s suffix
  || match s with
     | String _ r => endswith r suffix
     | EmptyString => false
     end.

(** [s.startswith(prefix)] *)
Definition startswith (s prefix : string) : bool := String.prefix prefix s.

(** [s.split('.')[0]]: the text before the first dot. *)
Fixpoint before_dot (s : string) : string :=
  match s with
  | EmptyString => EmptyString
  | String c r => if Ascii.eqb c "." then EmptyString else String c (before_dot r)
  end.

(** [names.sort(reverse=True)]: descending in the order of [str], which
    compares code points; names that compare equal keep their order. *)
Fixpoint insert_reverse (x : string) (l : list string) : list string :=
  match l with
  | [] => [x]
  | y :: r => if String.leb y x then x :: l else y :: insert_reverse x r
  end.

Definition sort_reverse (l : list string) : list string :=
  fold_right insert_reverse [] l.

(** The [try] block of [get_model] and its [except Exception] arm, run
    right after the model object is constructed on [model_dir]. [listdir]
    is what [os.listdir(model_dir)] returns; the directory is not written
    between the two calls. *)
Definition load_pretrained (model_dir : string) (listdir : list string) : Py unit :=
  try_except
    (let model_files :=
       List.filter (fun f => endswith f ".joblib" && negb (endswith f "_metadata.joblib"))
                   listdir in
     match sort_reverse model_files with
     | first :: _ =>
         let latest_model := before_dot first in
         EngagementModel.load latest_model;;;
         log INFO ("Loaded pre-trained model: " ++ latest_model)%string;;;
         let fe_files := List.filter (fun f => startswith f "feature_engineering_") listdir in
         match sort_reverse fe_files with
         | first :: _ =>
             let latest_fe := path_join model_dir first in
             FeatureEngineering.load latest_fe;;;
             log INFO ("Loaded feature engineering pipeline: " ++ latest_fe)%string
         | [] => log WARNING "No feature engineering pipeline found."
         end
     | [] => log WARNING "No pre-trained model found. Using default model."
     end)
    (fun e => log ERROR "Error loading model or feature engineering pipeline").

End Main.

(* ================================================================= *)
(** ** Auxiliary definitions used to state the properties *)

Module Spec.

(** The order of two finite binary64 values of the same sign, read off
    exponent and mantissa. *)
Definition fin_cmp (e1 : Z) (m1 : positive) (e2 : Z) (m2 : positive) : comparison :=
  match Z.compare e1 e2 with
  | Lt => Lt
  | Gt => Gt
  | Eq => Pos.compare m1 m2
  end.

(** A freshly started serving process: the Uninitialized model, the
    unfitted pipeline, an empty model directory and an empty log. *)
Definition fresh_world : World := {|
  engagement_model := EngagementModel.init "xgboost" "models";
  feature_engineering := FeatureEngineering.init;
  files := ∅;
  logs := []
|}.

(** The estimator [EngagementModel.load] keeps for a stored object [m]
    when the model type before loading is [model_type]: the object itself,
    with categorical support switched on for an XGBoost estimator that
    has the parameter. *)
Definition restored_model (model_type : string) (m : pyobj) : pyobj :=
  match m with
  | ObjRegressor r =>
      if String.eqb model_type "xgboost" && bool_decide (is_Some (enable_categorical r))
      then ObjRegressor {| enable_categorical := Some true; run_predict := run_predict r |}
      else m
  | _ => m
  end.

(** A one-row frame of raw features, for examples. *)
Definition raw_features : Frame.t :=
  Frame.mk 1 [("hour_of_day", [Frame.CInt 14]);
              ("text_length", [Frame.CInt 51]);
              ("media_type", [Frame.CNone])].

(** A two-row frame of processed training data: identifiers, features and
    the three targets. *)
Definition training_frame : Frame.t :=
  Frame.mk 2 [("post_id", [Frame.CStr (str "a1"); Frame.CStr (str "a2")]);
              ("likes", [Frame.CInt 10; Frame.CInt 250]);
              ("hour_of_day", [Frame.CInt 9; Frame.CInt 20]);
              ("shares", [Frame.CInt 1; Frame.CInt 30]);
              ("follower_count", [Frame.CInt 120; Frame.CInt 5000]);
              ("comments", [Frame.CInt 0; Frame.CInt 12]);
              ("hashtags", [Frame.CStr (str "tech"); Frame.CNone])].

(** A splitter that keeps the first row for training and the rest for
    testing. *)
Definition head_tail_split (X y : Frame.t)
  : outcome (Frame.t * Frame.t * Frame.t * Frame.t) :=
  let part (f : list Frame.cell -> list Frame.cell) (df : Frame.t) : Frame.t :=
    Frame.mk (length (f (repeat Frame.CNone (Frame.nrows df))))
             (map (fun '(n, v) => (n, f v)) (Frame.cols df)) in
  Returned (part (firstn 1) X, part (skipn 1) X, part (firstn 1) y, part (skipn 1) y).

(** A fitted pipeline, for examples: two numerical columns passed through,
    one categorical column with the categories image and video, and a
    vectorizer with the vocabulary ai, tech that counts nothing. *)
Definition fitted_pipeline : Objects.FeatureEngineering :=
  let number (c : Frame.cell) : float :=
    match c with Frame.CInt z => float_of_Z z | Frame.CFloat f => f | _ => nan end in
  let is_cat (cat : string) (c : Frame.cell) : float :=
    match c with
    | Frame.CStr s => if bool_decide (s = str cat) then 1%float else 0%float
    | _ => 0%float
    end in
  {| preprocessor := Some {|
       transformers_ :=
         [ {| tr_name := "num"; tr_cols := ["text_length"; "hour_of_day"];
              tr_categories := [] |};
           {| tr_name := "cat"; tr_cols := ["media_type"];
              tr_categories := [["image"; "video"]] |} ];
       ct_transform := fun df =>
         match Frame.get_col "text_length" df, Frame.get_col "hour_of_day" df,
               Frame.get_col "media_type" df with
         | Some t, Some h, Some m =>
             Returned (map (fun i => [number (nth i t Frame.CNone);
                                      number (nth i h Frame.CNone);
                                      is_cat "image" (nth i m Frame.CNone);
                                      is_cat "video" (nth i m Frame.CNone)])
                           (seq 0 (Frame.nrows df)))
         | _, _, _ => Raised (ValueError "columns are missing")
         end |};
     tfidf_vectorizer := Some {|
       get_feature_names_out := ["ai"; "tech"];
       tfidf_transform := fun text => Returned (map (fun _ => [0%float; 0%float]) text) |};
     numerical_features := ["text_length"; "hour_of_day"];
     categorical_features := ["media_type"];
     text_feature := "post_text" |}.

(** A serving process with the fitted pipeline. *)
Definition fitted_world : World := {|
  engagement_model := EngagementModel.init "xgboost" "models";
  feature_engineering := fitted_pipeline;
  files := ∅;
  logs := []
|}.

(** One processed post with its text. *)
Definition text_frame : Frame.t :=
  Frame.mk 1 [("post_text", [Frame.CStr (str "new ai tech")]);
              ("text_length", [Frame.CInt 11]);
              ("hour_of_day", [Frame.CInt 14]);
              ("media_type", [Frame.CStr (str "video")])].

(** The features of [text_frame] under the fitted pipeline. *)
Definition text_frame_transformed : Frame.t :=
  Frame.mk 1 [("text_length", [Frame.CFloat 11%float]);
              ("hour_of_day", [Frame.CFloat 14%float]);
              ("media_type_image", [Frame.CFloat 0%float]);
              ("media_type_video", [Frame.CFloat 1%float]);
              ("tfidf_ai", [Frame.CFloat 0%float]);
              ("tfidf_tech", [Frame.CFloat 0%float])].

(** An estimator that predicts zero likes, shares and comments for every
    sample. *)
Definition zero_regressor : Regressor := {|
  enable_categorical := None;
  run_predict := fun data => Returned (PredArray (map (fun _ => [0%float; 0%float; 0%float]) data))
|}.

(** A serving process whose model is [zero_regressor], fitted on the three
    features named. *)
Definition zero_world : World := {|
  engagement_model := {|
    model_type := "xgboost"; model_dir := "models";
    model := Some (ObjRegressor zero_regressor);
    feature_names := Some ["text_length"; "hour_of_day"; "day_of_week"];
    target_names := ["likes"; "shares"; "comments"];
    metrics := ∅; feature_importance := [] |};
  feature_engineering := FeatureEngineering.init;
  files := ∅;
  logs := []
|}.

(** What the adapter hands to [predict] for label [n]: the computed column
    when there is one, a column of zeros otherwise. *)
Definition reconciled_value (features : Frame.t) (n : string) : list Frame.cell :=
  match Frame.get_col n features with
  | Some v => v
  | None => repeat (Frame.CInt 0) (Frame.nrows features)
  end.

(** The 168 (day, hour) combinations, in the order the loops visit them. *)
Definition grid : list (Z * Z) :=
  flat_map (fun day => map (pair day) (range 24)) (range 7).

(** The rows of an array with column [hour_idx] set to [h] and then column
    [day_idx] set to [d]. *)
Definition overwrite (hour_idx day_idx : nat) (h d : float) (rows : list (list float))
  : list (list float) :=
  map (fun r => <[day_idx := d]> (<[hour_idx := h]> r)) rows.

(** The total engagement the estimator [m] predicts for the input [X] when
    its hour and day columns are set to [hour] and [day], every other
    feature held fixed. *)
Definition grid_total (m : option pyobj) (hour_idx day_idx : nat) (X : Frame.ndarray)
    (day hour : Z) : outcome float :=
  X1 <~ Frame.set_column hour_idx (float_of_Z hour) X;;
  X2 <~ Frame.set_column day_idx (float_of_Z day) X1;;
  predictions <~ EngagementModel.model_predict m (Frame.array_values X2);;
  EngagementModel.total_of predictions.

(** The search invariant after the combinations [seen]: the working copy
    differs from the input in the two time columns only; every combination
    seen has a predicted total, none of them above the best so far; and
    the best day and hour, once set, are a combination seen whose total is
    the best so far. *)
Definition search_inv (m : option pyobj) (hour_idx day_idx : nat) (X : Frame.ndarray)
    (seen : list (Z * Z)) (st : EngagementModel.search) : Prop :=
  Frame.ncols (EngagementModel.X_copy st) = Frame.ncols X
  /\ (forall h d, overwrite hour_idx day_idx h d (Frame.rows (EngagementModel.X_copy st))
                  = overwrite hour_idx day_idx h d (Frame.rows X))
  /\ (forall day hour, In (day, hour) seen ->
        exists t, grid_total m hour_idx day_idx X day hour = Returned t
                  /\ (EngagementModel.best_engagement st <? t)%float = false)
  /\ (forall day hour,
        EngagementModel.best_day st = Some day ->
        EngagementModel.best_hour st = Some hour ->
        In (day, hour) seen
        /\ grid_total m hour_idx day_idx X day hour
           = Returned (EngagementModel.best_engagement st)).

(** An estimator whose predicted likes peak on Wednesday (day 2) at 18h;
    it reads the hour from column 1 and the day from column 2. *)
Definition peak_regressor : Regressor := {|
  enable_categorical := Some true;
  run_predict := fun data =>
    Returned (PredArray (map (fun r =>
      match r with
      | [_; Frame.CFloat h; Frame.CFloat d] =>
          [if (h =? 18)%float && (d =? 2)%float then 90%float else 40%float;
           5%float; 2.5%float]
      | _ => [0%float; 0%float; 0%float]
      end) data))
|}.

Definition peak_world : World := {|
  engagement_model := {|
    model_type := "xgboost"; model_dir := "models";
    model := Some (ObjRegressor peak_regressor);
    feature_names := Some ["text_length"; "hour_of_day"; "day_of_week"];
    target_names := ["likes"; "shares"; "comments"];
    metrics := ∅; feature_importance := [] |};
  feature_engineering := FeatureEngineering.init;
  files := ∅;
  logs := []
|}.

(** One input row for [peak_world]: text length 51, posted at 14h on a
    Tuesday. *)
Definition example_input : Frame.ndarray :=
  Frame.mk_array 3 [[51%float; 14%float; 1%float]].

(** A Wednesday (weekday 2), 18:45:10. *)
Definition example_now : EngagementModel.datetime := {|
  EngagementModel.ordinal := 739000;
  EngagementModel.hour := 18;
  EngagementModel.minute := 45;
  EngagementModel.second := 10;
  EngagementModel.microsecond := 0
|}.

(** The Wednesday one week later, 18:00:00. *)
Definition example_recommendation : EngagementModel.datetime := {|
  EngagementModel.ordinal := 739007;
  EngagementModel.hour := 18;
  EngagementModel.minute := 0;
  EngagementModel.second := 0;
  EngagementModel.microsecond := 0
|}.

(** Three requests: an edge case (empty text, no hashtags, zero
    followers and following, a new account), one with a missing account
    age, and an established account with a high follower ratio. *)
Definition edge_post : Main.PostData := {|
  Main.post_text := []; Main.media_type := str "text"; Main.hashtags := [];
  Main.timestamp := None; Main.user_id := None;
  Main.followers_count := Some 0; Main.following_count := Some 0;
  Main.account_age := Some 0 |}.

Definition ageless_post : Main.PostData := {|
  Main.post_text := str "Just a quick update on our progress.";
  Main.media_type := str "text"; Main.hashtags := [];
  Main.timestamp := None; Main.user_id := None;
  Main.followers_count := Some 100; Main.following_count := Some 500;
  Main.account_age := None |}.

Definition video_post : Main.PostData := {|
  Main.post_text := str "Exciting news! We've just released our latest product";
  Main.media_type := str "video";
  Main.hashtags := str "newproduct,amazing,technology,innovation,startup";
  Main.timestamp := None; Main.user_id := None;
  Main.followers_count := Some 50000; Main.following_count := Some 200;
  Main.account_age := Some 1095 |}.

(** A prediction row. *)
Definition example_prediction : list (string * Frame.cell) :=
  [("likes", Frame.CFloat 100); ("shares", Frame.CFloat 20);
   ("comments", Frame.CFloat 10); ("engagement_level", Frame.CStr (str "medium"))].

(** A model whose validation R2 is not a number. *)
Definition nan_metrics_world : World := {|
  engagement_model := {|
    model_type := "xgboost"; model_dir := "models";
    model := Some (ObjRegressor zero_regressor);
    feature_names := Some ["text_length"];
    target_names := ["likes"; "shares"; "comments"];
    metrics := {[ "val" := {[ "average" := {[ "r2" := nan ]} ]} ]};
    feature_importance := [] |};
  feature_engineering := FeatureEngineering.init;
  files := ∅;
  logs := []
|}.


(** [name] is read in column [col] of [df] as the constant [v] on every
    row. *)
Definition indicator (df : Frame.t) (col : string) (v : Z) : Prop :=
  Frame.get_col col df = Some (repeat (Frame.CInt v) (Frame.nrows df)).

(** Two posts for [peak_world]: Wednesday 18h and Tuesday 14h. *)
Definition two_posts : Frame.t :=
  Frame.mk 2 [("text_length", [Frame.CFloat 51%float; Frame.CFloat 51%float]);
              ("hour_of_day", [Frame.CFloat 18%float; Frame.CFloat 14%float]);
              ("day_of_week", [Frame.CFloat 2%float; Frame.CFloat 1%float])].

(** The text in the first row of column [col], if the column is there and
    holds text in that row. *)
Definition first_text (col : string) (df : Frame.t) : option pystr :=
  match Frame.get_col col df with
  | Some (Frame.CStr s :: _) => Some s
  | _ => None
  end.

(** The first row of column [col]; [default] when the frame has no such
    column. *)
Definition first_cell (col : string) (default : Frame.cell) (df : Frame.t) : Frame.cell :=
  match Frame.get_col col df with
  | Some (c :: _) => c
  | _ => default
  end.

(** The labels the serving adapter assigns as indicators. *)
Definition indicator_names : list string :=
  map (fun m => "media_type_" ++ m)%string Main.media_types
  ++ map (fun c => "time_category_" ++ c)%string Main.time_categories
  ++ ["is_weekend_0"; "is_weekend_1"].

(** The frame after the three [media_type_*] columns are set to 0. *)
Definition zeroed_media (df : Frame.t) : Frame.t :=
  Frame.set_scalar "media_type_video" (Frame.CInt 0)
    (Frame.set_scalar "media_type_text" (Frame.CInt 0)
       (Frame.set_scalar "media_type_image" (Frame.CInt 0) df)).

(** The frame after the four [time_category_*] columns are set to 0. *)
Definition zeroed_time (df : Frame.t) : Frame.t :=
  Frame.set_scalar "time_category_night" (Frame.CInt 0)
    (Frame.set_scalar "time_category_evening" (Frame.CInt 0)
       (Frame.set_scalar "time_category_afternoon" (Frame.CInt 0)
          (Frame.set_scalar "time_category_morning" (Frame.CInt 0) df))).

(** The media type whose indicator the adapter sets to 1, if any. *)
Definition chosen_media (df : Frame.t) : option string :=
  match first_text "media_type" df with
  | Some s => List.find (fun m => bool_decide (s = str m)) Main.media_types
  | None => None
  end.

Definition with_media (m : option string) (df : Frame.t) : Frame.t :=
  match m with
  | Some m => Frame.set_scalar ("media_type_" ++ m)%string (Frame.CInt 1) df
  | None => df
  end.

(** The frame after all indicator assignments, before the required
    features are filled: media type [m], time category [c], and the two
    weekend flags. *)
Definition serving_frame (df : Frame.t) (m : option string) (c : string) (wd we : bool)
  : Frame.t :=
  Frame.set_scalar "is_weekend_1" (Frame.CInt (if we then 1 else 0))
    (Frame.set_scalar "is_weekend_0" (Frame.CInt (if wd then 1 else 0))
       (Frame.set_scalar ("time_category_" ++ c)%string (Frame.CInt 1)
          (zeroed_time (with_media m (zeroed_media df))))).

(** One preprocessed post: a video posted on a Sunday at 20h. *)
Definition processed_post : Frame.t :=
  Frame.mk 1 [("media_type", [Frame.CStr (str "video")]);
              ("hour_of_day", [Frame.CInt 20]);
              ("day_of_week", [Frame.CInt 6]);
              ("text_length", [Frame.CInt 51])].

(** [processed_post] with the adapter's indicator and required columns. *)
Definition served_post : Frame.t :=
  Eval vm_compute in
    match Main.add_serving_features processed_post with
    | Returned d => d
    | Raised _ => Frame.empty
    end.

(** A name [get_model] takes for a saved model: it ends in [.joblib] but
    not in [_metadata.joblib]. *)
Definition is_model_file (f : string) : bool :=
  Main.endswith f ".joblib" && negb (Main.endswith f "_metadata.joblib").

(** The metadata [save] writes for [zero_world]'s model. *)
Definition zero_metadata : Metadata := {|
  md_model_type := Some "xgboost";
  md_feature_names := Some (Some ["text_length"; "hour_of_day"; "day_of_week"]);
  md_target_names := Some ["likes"; "shares"; "comments"];
  md_metrics := Some ∅;
  md_feature_importance := Some [];
  md_timestamp := Some "2024-01-01T12:00:00"
|}.

(** A freshly started serving process on a model directory as
    [train_model.py] leaves it after one run: the weights, the metadata,
    and the pickled pipeline object. *)
Definition train_model_listing : list string :=
  ["xgboost_20240101_120000.joblib";
   "xgboost_20240101_120000_feature_engineering.joblib";
   "xgboost_20240101_120000_metadata.joblib"].

Definition train_model_world : World := {|
  engagement_model := EngagementModel.init "xgboost" "models";
  feature_engineering := FeatureEngineering.init;
  files :=
    {[ "models/xgboost_20240101_120000.joblib" := Pickle (ObjRegressor zero_regressor);
       "models/xgboost_20240101_120000_metadata.joblib" := Pickle (ObjMetadata zero_metadata);
       "models/xgboost_20240101_120000_feature_engineering.joblib"
         := Pickle (ObjFeInstance fitted_pipeline) ]};
  logs := []
|}.

(** The same on a directory as [run_training_pipeline.py] leaves it. *)
Definition pipeline_listing : list string :=
  ["feature_engineering_20240101_120000.pkl";
   "xgboost_all_20240101_120000_metadata.joblib";
   "xgboost_all_20240101_120000.joblib"].

Definition pipeline_world : World := {|
  engagement_model := EngagementModel.init "xgboost" "models";
  feature_engineering := FeatureEngineering.init;
  files :=
    {[ "models/xgboost_all_20240101_120000.joblib" := Pickle (ObjRegressor zero_regressor);
       "models/xgboost_all_20240101_120000_metadata.joblib"
         := Pickle (ObjMetadata zero_metadata);
       "models/feature_engineering_20240101_120000.pkl"
         := Pickle (ObjFeDict {| d_preprocessor := Some (preprocessor fitted_pipeline);
                                 d_tfidf_vectorizer := Some (tfidf_vectorizer fitted_pipeline);
                                 d_numerical_features := Some ["text_length"; "hour_of_day"];
                                 d_categorical_features := Some ["media_type"];
                                 d_text_feature := Some "post_text" |}) ]};
  logs := []
|}.

(** A missing value: [None] in an object column, NaN in a float column. *)
Definition missing (x : Frame.cell) : bool :=
  match x with
  | Frame.CNone => true
  | Frame.CFloat f => is_nan f
  | _ => false
  end.

(** [t] is [seg] without the white space at its two ends. *)
Definition trimmed (seg t : pystr) : Prop :=
  exists ws1 ws2,
    seg = ws1 ++ t ++ ws2
    /\ forallb is_space ws1 = true /\ forallb is_space ws2 = true
    /\ match t with [] => True | c :: _ => is_space c = false end
    /\ match rev t with [] => True | c :: _ => is_space c = false end.

(** A metadata file [load] can take every key from. *)
Definition complete_metadata (f : file) : bool :=
  match f with
  | Pickle (ObjMetadata md) =>
      bool_decide (is_Some (md_model_type md)) && bool_decide (is_Some (md_feature_names md))
      && bool_decide (is_Some (md_target_names md)) && bool_decide (is_Some (md_metrics md))
      && bool_decide (is_Some (md_feature_importance md))
  | _ => false
  end.

(** A freshly started process that sees the files [fs]. *)
Definition fresh_process (fs : gmap string file) : World := {|
  engagement_model := EngagementModel.init "xgboost" "models";
  feature_engineering := FeatureEngineering.init;
  files := fs;
  logs := []
|}.

(** A model directory whose metadata file is damaged, and one whose
    metadata dictionary stops after the feature names. *)
Definition corrupt_metadata_world : World :=
  fresh_process
    {[ "models/m.joblib" := Pickle (ObjRegressor zero_regressor);
       "models/m_metadata.joblib" := Unreadable ]}.

Definition short_metadata_world : World :=
  fresh_process
    {[ "models/m.joblib" := Pickle (ObjRegressor zero_regressor);
       "models/m_metadata.joblib"
         := Pickle (ObjMetadata {| md_model_type := Some "lightgbm";
                                   md_feature_names := Some (Some ["text_length"]);
                                   md_target_names := None;
                                   md_metrics := None;
                                   md_feature_importance := None;
                                   md_timestamp := None |}) ]}.

(** The engagement level of one sample of predictions: the label of the
    sum of its entries, NaN entries counted as zero. *)
Definition sample_level (sample : list float) : Frame.cell :=
  EngagementModel.level_cell
    (EngagementModel.cut (np_sum (map (fun f => if is_nan f then 0%float else f) sample))).

(** [w'] differs from [w] by log records only. *)
Definition only_logged (w w' : World) : Prop :=
  engagement_model w' = engagement_model w
  /\ feature_engineering w' = feature_engineering w
  /\ files w' = files w
  /\ exists records, logs w' = logs w ++ records.

End Spec.

(* ================================================================= *)
(** * Properties *)

(** ** binary64 order facts *)

Section FloatOrder.

Lemma ltb_leb (x y : float) : (x <? y)%float = true -> (x <=? y)%float = true.
Proof.
  rewrite ltb_spec, leb_spec. unfold SFltb, SFleb.
  destruct (SFcompare _ _) as [[]|]; congruence.
Qed.

Lemma fin_cmp_Lt_trans e1 m1 e2 m2 e3 m3 :
  Spec.fin_cmp e1 m1 e2 m2 = Lt -> Spec.fin_cmp e2 m2 e3 m3 = Lt ->
  Spec.fin_cmp e1 m1 e3 m3 = Lt.
Proof.
  unfold Spec.fin_cmp.
  destruct (Z.compare_spec e1 e2), (Z.compare_spec e2 e3), (Z.compare_spec e1 e3);
    subst; try discriminate; try lia; try reflexivity.
  rewrite !Pos.compare_lt_iff. lia.
Qed.

Lemma fin_cmp_Gt_trans e1 m1 e2 m2 e3 m3 :
  Spec.fin_cmp e1 m1 e2 m2 = Gt -> Spec.fin_cmp e2 m2 e3 m3 = Gt ->
  Spec.fin_cmp e1 m1 e3 m3 = Gt.
Proof.
  unfold Spec.fin_cmp.
  destruct (Z.compare_spec e1 e2), (Z.compare_spec e2 e3), (Z.compare_spec e1 e3);
    subst; try discriminate; try lia; try reflexivity.
  rewrite !Pos.compare_gt_iff. lia.
Qed.

Lemma SFcompare_finite s1 m1 e1 s2 m2 e2 :
  SFcompare (S754_finite s1 m1 e1) (S754_finite s2 m2 e2) =
  Some match s1, s2 with
       | true, false => Lt
       | false, true => Gt
       | false, false => Spec.fin_cmp e1 m1 e2 m2
       | true, true => CompOpp (Spec.fin_cmp e1 m1 e2 m2)
       end.
Proof.
  unfold Spec.fin_cmp. simpl. destruct s1, s2; try reflexivity.
  destruct (e1 ?= e2); reflexivity.
Qed.

Lemma SFcompare_Lt_trans (x y z : spec_float) :
  SFcompare x y = Some Lt -> SFcompare y z = Some Lt -> SFcompare x z = Some Lt.
Proof.
  destruct x as [sx|sx| |sx mx ex], y as [sy|sy| |sy my ey], z as [sz|sz| |sz mz ez];
    rewrite ?SFcompare_finite; try (simpl; discriminate);
    try (destruct sx; simpl; congruence);
    try (destruct sy; simpl; congruence);
    try (destruct sz; simpl; congruence);
    try (destruct sx, sy; simpl; congruence);
    try (destruct sy, sz; simpl; congruence);
    try (destruct sx, sz; simpl; congruence);
    try (destruct sx, sy, sz; simpl; congruence).
  destruct sx, sy, sz; try congruence; intros H1 H2; f_equal.
  - assert (G1 : Spec.fin_cmp ex mx ey my = Gt)
      by (destruct (Spec.fin_cmp ex mx ey my); simpl in H1; congruence).
    assert (G2 : Spec.fin_cmp ey my ez mz = Gt)
      by (destruct (Spec.fin_cmp ey my ez mz); simpl in H2; congruence).
    now rewrite (fin_cmp_Gt_trans _ _ _ _ _ _ G1 G2).
  - apply (fin_cmp_Lt_trans ex mx ey my ez mz); congruence.
Qed.

Lemma ltb_trans (x y z : float) :
  (x <? y)%float = true -> (y <? z)%float = true -> (x <? z)%float = true.
Proof.
  rewrite !ltb_spec. unfold SFltb.
  destruct (SFcompare (Prim2SF x) (Prim2SF y)) as [[]|] eqn:E1; try discriminate.
  destruct (SFcompare (Prim2SF y) (Prim2SF z)) as [[]|] eqn:E2; try discriminate.
  now rewrite (SFcompare_Lt_trans _ _ _ E1 E2).
Qed.

Lemma ltb_irrefl (x : float) : (x <? x)%float = false.
Proof.
  rewrite ltb_spec. unfold SFltb.
  destruct (Prim2SF x) as [s|s| |s m e]; try reflexivity.
  - destruct s; reflexivity.
  - rewrite SFcompare_finite. unfold Spec.fin_cmp.
    rewrite Z.compare_refl, Pos.compare_refl. destruct s; reflexivity.
Qed.

(** Clamping with [max(lo, min(hi, x))] lands in [[lo, hi]] whatever [x]
    is, NaN and the infinities included. *)
Lemma clamp_bounds (lo hi x : float) :
  (lo <=? lo)%float = true -> (hi <=? hi)%float = true -> (lo <=? hi)%float = true ->
  (lo <=? py_max lo (py_min hi x))%float = true
  /\ (py_max lo (py_min hi x) <=? hi)%float = true.
Proof.
  intros Hlo Hhi Hlh. unfold py_max, py_min.
  destruct (x <? hi)%float eqn:E1; destruct (lo <? _)%float eqn:E2; auto using ltb_leb.
Qed.

End FloatOrder.

(* ================================================================= *)
(** ** The monad: how [bind], [try_except] and logging run *)

Section MonadFacts.

Lemma bind_returned {A B} (m : Py A) (k : A -> Py B) w w' a :
  m w = (w', Returned a) -> bind m k w = k a w'.
Proof. intros H. unfold bind. now rewrite H. Qed.

Lemma bind_run {A B} (m : Py A) (k : A -> Py B) w w' a r :
  m w = (w', Returned a) -> k a w' = r -> bind m k w = r.
Proof. intros H <-. now apply bind_returned. Qed.

(** The same, for goals that ask for the final state. *)
Lemma bind_run_ex {A B} (m : Py A) (k : A -> Py B) w w' a (P : World * outcome B -> Prop) :
  m w = (w', Returned a) -> P (k a w') -> P (bind m k w).
Proof. intros H HP. now rewrite (bind_returned _ _ _ _ _ H). Qed.

Lemma bind_raised {A B} (m : Py A) (k : A -> Py B) w w' e :
  m w = (w', Raised e) -> bind m k w = (w', Raised e).
Proof. intros H. unfold bind. now rewrite H. Qed.

(** A [bind] that returns went through a returning first step. *)
Lemma bind_inv_returned {A B} (m : Py A) (k : A -> Py B) w w2 b :
  bind m k w = (w2, Returned b) ->
  exists w1 a, m w = (w1, Returned a) /\ k a w1 = (w2, Returned b).
Proof.
  unfold bind. destruct (m w) as [w1 [a|e]]; intros H; [eauto | discriminate].
Qed.

(** [try ... except Exception] never lets an exception of the body out when
    the handler itself returns. *)
Lemma try_except_total {A} (body : Py A) (handler : exn -> Py A) w :
  (forall e w1, exists w2 a, handler e w1 = (w2, Returned a)) ->
  exists w2 a, try_except body handler w = (w2, Returned a).
Proof.
  intros Hh. unfold try_except. destruct (body w) as [w1 [a|e]]; eauto.
Qed.

Lemma only_logged_refl w : Spec.only_logged w w.
Proof. repeat split. exists []. now rewrite app_nil_r. Qed.

Lemma only_logged_trans w1 w2 w3 :
  Spec.only_logged w1 w2 -> Spec.only_logged w2 w3 -> Spec.only_logged w1 w3.
Proof.
  intros (A1 & A2 & A3 & r1 & A4) (B1 & B2 & B3 & r2 & B4). repeat split; try congruence.
  exists (r1 ++ r2). rewrite B4, A4. now rewrite app_assoc.
Qed.

Lemma log_only_logged l msg w :
  exists w', log l msg w = (w', Returned tt) /\ Spec.only_logged w w'.
Proof. eexists. split; [reflexivity|]. repeat split. now exists [(l, msg)]. Qed.

End MonadFacts.

(* ================================================================= *)
(** ** Confidence score *)

Section Confidence.

Import Main.

(** The three factors read the model's metrics, the request and the
    prediction; they log nothing and change nothing. *)
Lemma base_confidence_pure w :
  fst (base_confidence w) = w
  /\ forall w0, engagement_model w0 = engagement_model w ->
                snd (base_confidence w0) = snd (base_confidence w).
Proof.
  split.
  - unfold base_confidence, bind, EngagementModel.self.
    destruct (metrics (engagement_model w) !! "val") as [val|]; [|reflexivity].
    destruct (val !! "average") as [average|]; [|reflexivity].
    now destruct (average !! "r2").
  - intros w0 H. unfold base_confidence, bind, EngagementModel.self. rewrite H.
    destruct (metrics (engagement_model w) !! "val") as [val|]; [|reflexivity].
    destruct (val !! "average") as [average|]; [|reflexivity].
    now destruct (average !! "r2").
Qed.

Lemma data_quality_pure post w :
  fst (data_quality post w) = w
  /\ forall w0, snd (data_quality post w0) = snd (data_quality post w).
Proof.
  unfold data_quality, bind, int_operand, lift, ret, raise.
  destruct (followers_count post) as [followers|]; [|split; reflexivity].
  destruct (0 <? followers).
  - destruct (following_count post) as [following|]; [|split; reflexivity].
    destruct (0 <? following).
    + destruct (int_truediv followers following) as [ratio|]; [|split; reflexivity].
      destruct (100 <? ratio)%float; [|destruct (ratio <? 0.01)%float];
        (destruct (account_age post); split; reflexivity).
    + destruct (account_age post); split; reflexivity.
  - destruct (account_age post); split; reflexivity.
Qed.

Lemma prediction_value_pure name prediction w :
  fst (prediction_value name prediction w) = w
  /\ forall w0, snd (prediction_value name prediction w0)
                = snd (prediction_value name prediction w).
Proof.
  unfold prediction_value.
  destruct (List.find _ prediction) as [[n []]|]; split; reflexivity.
Qed.

Lemma prediction_confidence_pure prediction w :
  fst (prediction_confidence prediction w) = w
  /\ forall w0, snd (prediction_confidence prediction w0)
                = snd (prediction_confidence prediction w).
Proof.
  unfold prediction_confidence, bind.
  destruct (prediction_value_pure "likes" prediction w) as [L1 L2].
  destruct (prediction_value_pure "shares" prediction w) as [S1 S2].
  destruct (prediction_value_pure "comments" prediction w) as [C1 C2].
  split.
  - destruct (prediction_value "likes" prediction w) as [w1 [l|]] eqn:El;
      simpl in L1; subst w1; [|reflexivity].
    destruct (prediction_value "shares" prediction w) as [w1 [s|]] eqn:Es;
      simpl in S1; subst w1; [|reflexivity].
    destruct (prediction_value "comments" prediction w) as [w1 [c|]] eqn:Ec;
      simpl in C1; subst w1; reflexivity.
  - intros w0.
    destruct (prediction_value_pure "likes" prediction w0) as [L1' _].
    destruct (prediction_value_pure "shares" prediction w0) as [S1' _].
    destruct (prediction_value_pure "comments" prediction w0) as [C1' _].
    specialize (L2 w0). specialize (S2 w0). specialize (C2 w0).
    destruct (prediction_value "likes" prediction w0) as [w1 [l0|]];
      destruct (prediction_value "likes" prediction w) as [w2 [l|]];
      simpl in *; subst; try discriminate; [|assumption].
    injection L2 as ->.
    destruct (prediction_value "shares" prediction w0) as [w1 [s0|]];
      destruct (prediction_value "shares" prediction w) as [w2 [s|]];
      simpl in *; subst; try discriminate; [|assumption].
    injection S2 as ->.
    destruct (prediction_value "comments" prediction w0) as [w1 [c0|]];
      destruct (prediction_value "comments" prediction w) as [w2 [c|]];
      simpl in *; subst; try discriminate; [|assumption].
    now injection C2 as ->.
Qed.

(** When the [try] block completes, its value is the clamped product of
    the three factors. *)
Lemma confidence_body_clamped post prediction w w' c :
  confidence_body post prediction w = (w', Returned c) ->
  exists b q p,
    snd (base_confidence w) = Returned b
    /\ snd (data_quality post w) = Returned q
    /\ snd (prediction_confidence prediction w) = Returned p
    /\ c = py_max 0.5 (py_min 0.95 (b * q * p)%float).
Proof.
  unfold confidence_body. intros H.
  apply bind_inv_returned in H as (w1 & [] & Hlog & H).
  apply bind_inv_returned in H as (w2 & b & Hb & H).
  apply bind_inv_returned in H as (w3 & q & Hq & H).
  apply bind_inv_returned in H as (w4 & p & Hp & H).
  apply bind_inv_returned in H as (w5 & [] & _ & H).
  exists b, q, p.
  destruct (base_confidence_pure w) as [_ B].
  destruct (data_quality_pure post w) as [_ Q].
  destruct (prediction_confidence_pure prediction w) as [_ P].
  rewrite <- (B w1), <- (Q w2), <- (P w3), Hb, Hq, Hp;
    [| unfold log in Hlog; injection Hlog as <-; reflexivity].
  unfold ret in H. repeat split. congruence.
Qed.

(** C2. For every request, model state and prediction row, the serving
    adapter's confidence computation returns (it never raises), and the
    score it returns lies in [[0.5, 0.95]]: on the normal path it is the
    clamped product of base confidence, data-quality multiplier and
    prediction-stability multiplier, and when the computation raises it is
    the fallback 0.7. *)
Theorem confidence_score_in_range (post : PostData)
    (prediction : list (string * Frame.cell)) (w : World) :
  exists w' c,
    confidence_score post prediction w = (w', Returned c)
    /\ (0.5 <=? c)%float = true
    /\ (c <=? 0.95)%float = true
    /\ match snd (confidence_body post prediction w) with
       | Returned c0 =>
           c = c0
           /\ exists b q p,
               snd (base_confidence w) = Returned b
               /\ snd (data_quality post w) = Returned q
               /\ snd (prediction_confidence prediction w) = Returned p
               /\ c = py_max 0.5 (py_min 0.95 (b * q * p)%float)
       | Raised _ => c = 0.7%float
       end.
Proof.
  unfold confidence_score, try_except.
  destruct (confidence_body post prediction w) as [w1 [c|e]] eqn:E; simpl.
  - exists w1, c.
    destruct (confidence_body_clamped _ _ _ _ _ E) as (b & q & p & Hb & Hq & Hp & ->).
    destruct (clamp_bounds 0.5 0.95 (b * q * p)%float) as [H1 H2]; try reflexivity.
    repeat split; eauto 10.
  - eexists _, _. split; [reflexivity|]. repeat split; reflexivity.
Qed.

End Confidence.

(* ================================================================= *)
(** ** Frames: labels, lookup and assignment *)

Section FrameFacts.

Import Frame.

Lemma mem_In x l : mem x l = true <-> In x l.
Proof.
  unfold mem. rewrite existsb_exists. split.
  - intros (y & Hy & E). apply String.eqb_eq in E. now subst.
  - intros H. exists x. split; [assumption | apply String.eqb_refl].
Qed.

Lemma mem_false x l : mem x l = false <-> ~ In x l.
Proof.
  rewrite <- mem_In. destruct (mem x l); split; congruence.
Qed.

Lemma lookup_col_None name cs :
  lookup_col name cs = None <-> ~ In name (map fst cs).
Proof.
  induction cs as [|[n v] cs IH]; simpl.
  - tauto.
  - destruct (String.eqb_spec n name).
    + split; [discriminate | intros H; exfalso; apply H; now left].
    + rewrite IH. tauto.
Qed.

Lemma has_col_lookup name df :
  has_col name df = true <-> exists v, get_col name df = Some v.
Proof.
  unfold has_col, get_col, columns. rewrite mem_In. split.
  - intros H. destruct (lookup_col name (cols df)) eqn:E; [eauto|].
    now apply lookup_col_None in E.
  - intros [v E]. destruct (in_dec string_dec name (map fst (cols df))) as [|N]; [assumption|].
    apply lookup_col_None in N. congruence.
Qed.

Lemma lookup_col_app name cs cs' :
  lookup_col name (cs ++ cs') =
  match lookup_col name cs with Some v => Some v | None => lookup_col name cs' end.
Proof.
  induction cs as [|[n v] cs IH]; simpl; [reflexivity|].
  now destruct (String.eqb n name).
Qed.

Lemma lookup_col_replace name m v cs :
  lookup_col name (map (fun c => if String.eqb (fst c) m then (m, v) else c) cs) =
  match lookup_col name cs with
  | Some x => Some (if String.eqb name m then v else x)
  | None => None
  end.
Proof.
  induction cs as [|[n x] cs IH]; simpl; [reflexivity|].
  destruct (String.eqb_spec n m) as [->|Hnm]; simpl.
  - destruct (String.eqb_spec m name) as [->|Hm].
    + now rewrite String.eqb_refl.
    + exact IH.
  - destruct (String.eqb_spec n name) as [->|Hn].
    + destruct (String.eqb_spec name m); congruence.
    + exact IH.
Qed.

(** Reading a label after an assignment. *)
Lemma get_set_col name m v df :
  get_col name (set_col m v df) = if String.eqb name m then Some v else get_col name df.
Proof.
  unfold get_col, set_col. destruct (has_col m df) eqn:E; simpl.
  - rewrite lookup_col_replace. destruct (String.eqb_spec name m) as [->|].
    + apply has_col_lookup in E as [x E]. unfold get_col in E. now rewrite E.
    + now destruct (lookup_col name (cols df)).
  - rewrite lookup_col_app. simpl. rewrite (String.eqb_sym m name).
    destruct (String.eqb_spec name m) as [->|].
    + apply mem_false, lookup_col_None in E. unfold columns in E. now rewrite E.
    + now destruct (lookup_col name (cols df)).
Qed.

Lemma columns_replace m v cs :
  map fst (map (fun c : string * list cell => if String.eqb (fst c) m then (m, v) else c) cs)
  = map fst cs.
Proof.
  induction cs as [|[n x] cs IH]; simpl; [reflexivity|]. rewrite IH.
  destruct (String.eqb_spec n m); simpl; congruence.
Qed.

(** Assignment keeps the labels distinct, and keeps the index. *)
Lemma set_col_NoDup m v df :
  List.NoDup (columns df) -> List.NoDup (columns (set_col m v df)).
Proof.
  unfold set_col, columns. intros H. destruct (has_col m df) eqn:E; simpl.
  - now rewrite columns_replace.
  - rewrite map_app. simpl. apply mem_false in E.
    apply NoDup_ListNoDup. apply NoDup_app. repeat split.
    + now apply NoDup_ListNoDup.
    + intros x Hx Hx'. apply list_elem_of_In in Hx, Hx'. destruct Hx' as [<-|[]].
      now apply E.
    + apply NoDup_singleton.
  Qed.

Lemma set_col_nrows m v df : nrows (set_col m v df) = nrows df.
Proof. unfold set_col. now destruct (has_col m df). Qed.

(** Zero-filling a list of labels, one assignment after the other. *)
Lemma zero_fill_spec (ms : list string) (df : t) :
  let df' := fold_left (fun d f => set_scalar f (CInt 0) d) ms df in
  (List.NoDup (columns df) -> List.NoDup (columns df'))
  /\ nrows df' = nrows df
  /\ forall name, get_col name df' =
       if mem name ms then Some (repeat (CInt 0) (nrows df)) else get_col name df.
Proof.
  revert df. induction ms as [|m ms IH]; intros df; simpl.
  - auto.
  - destruct (IH (set_scalar m (CInt 0) df)) as (H1 & H2 & H3).
    unfold set_scalar in *. rewrite set_col_nrows in *. repeat split.
    + intros H. apply H1. now apply set_col_NoDup.
    + assumption.
    + intros name. rewrite H3, get_set_col. unfold mem at 2. simpl. fold (mem name ms).
      destruct (mem name ms); [now rewrite orb_true_r|]. now rewrite orb_false_r.
Qed.

(** With distinct labels, a label selects exactly its column. *)
Lemma filter_label_absent name (cs : list (string * list cell)) :
  ~ In name (map fst cs) ->
  List.filter (fun c => String.eqb (fst c) name) cs = [].
Proof.
  induction cs as [|[n x] cs IH]; simpl; [reflexivity|]. intros H.
  destruct (String.eqb_spec n name); [tauto|]. apply IH. tauto.
Qed.

Lemma filter_label_NoDup name v cs :
  List.NoDup (map fst cs) -> lookup_col name cs = Some v ->
  List.filter (fun c : string * list cell => String.eqb (fst c) name) cs = [(name, v)].
Proof.
  induction cs as [|[n x] cs IH]; simpl; [discriminate|].
  intros H E. inversion H as [|? ? Hn Hcs]; subst.
  destruct (String.eqb_spec n name) as [->|Hne].
  - injection E as <-. f_equal. now apply filter_label_absent.
  - now apply IH.
Qed.

(** Selecting labels that are all present, from a frame with distinct
    labels: the result carries exactly the requested labels, in the
    requested order, each with the column it had. *)
Lemma select_spec (names : list string) (df : t) (value : string -> list cell) :
  List.NoDup (columns df) ->
  (forall n, In n names -> get_col n df = Some (value n)) ->
  select names df = Returned (mk (nrows df) (map (fun n => (n, value n)) names)).
Proof.
  intros Hnd Hall. unfold select.
  assert (F : List.filter (fun n => negb (has_col n df)) names = []).
  { clear Hnd. induction names as [|n names IH]; simpl; [reflexivity|].
    assert (Hn : has_col n df = true) by (apply has_col_lookup; eexists; apply Hall; now left).
    rewrite Hn. simpl. apply IH. intros m Hm. apply Hall. now right. }
  rewrite F. f_equal. f_equal. clear F.
  induction names as [|n names IH]; simpl; [reflexivity|].
  rewrite (filter_label_NoDup n (value n)); [| exact Hnd | apply Hall; now left].
  simpl. f_equal. apply IH. intros m Hm. apply Hall. now right.
Qed.

(** The raw-feature fallback keeps the labels, so distinct labels stay
    distinct. *)
Lemma fillna0_columns df : columns (fillna0 df) = columns df.
Proof. unfold columns, fillna0. simpl. rewrite map_map. reflexivity. Qed.

Lemma lookup_col_map_values (g : list cell -> list cell) name cs :
  lookup_col name (map (fun c => (fst c, g (snd c))) cs)
  = option_map g (lookup_col name cs).
Proof.
  induction cs as [|[n v] cs IH]; simpl; [reflexivity|].
  now destruct (String.eqb n name).
Qed.

(** After [fillna(0)] no value is missing, a missing value has become 0,
    and every other value is as before. *)
Lemma fillna0_cells name df v :
  get_col name df = Some v ->
  exists v',
    get_col name (fillna0 df) = Some v'
    /\ Forall2 (fun x y => Spec.missing y = false
                           /\ if Spec.missing x then y = CInt 0 \/ y = CFloat 0%float
                              else y = x) v v'.
Proof.
  intros H. unfold get_col, fillna0 in *. cbn [cols].
  rewrite lookup_col_map_values, H. eexists. split; [reflexivity|].
  clear H. induction v as [|x v IH]; constructor; [|exact IH].
  destruct x as [|z|f|s]; simpl; auto.
  destruct (is_nan f) eqn:E; simpl; [auto | now rewrite E].
Qed.

End FrameFacts.

(* ================================================================= *)
(** ** Train/serve parity of the feature columns *)

Section Parity.

Import Frame.

Lemma lookup_col_named (value : string -> list cell) (names : list string) (n : string) :
  lookup_col n (map (fun m => (m, value m)) names) =
  if mem n names then Some (value n) else None.
Proof.
  induction names as [|m names IH]; simpl; [reflexivity|].
  rewrite (String.eqb_sym n m). destruct (String.eqb_spec m n) as [->|]; [reflexivity|].
  exact IH.
Qed.

(** The reconciliation block, run on a model with a non-empty list of
    fitted names, returns the selection of those names from the
    zero-filled frame. *)
Lemma reconcile_columns_runs (features : t) (names : list string) (w : World) :
  feature_names (engagement_model w) = Some names -> names <> [] ->
  List.NoDup (columns features) ->
  exists w',
    Main.reconcile_columns features w
    = (w', Returned (mk (nrows features) (map (fun n => (n, Spec.reconciled_value features n)) names)))
    /\ Spec.only_logged w w'.
Proof.
  intros Hfn Hne Hnd. unfold Main.reconcile_columns.
  rewrite (bind_returned _ _ w w (engagement_model w)) by reflexivity.
  rewrite Hfn. destruct names as [|n0 names0]; [congruence|].
  set (names := n0 :: names0) in *.
  set (missing := List.filter (fun f => negb (has_col f features)) names).
  set (extra := List.filter (fun f => negb (mem f names)) (columns features)).
  set (filled := fold_left (fun d f => set_scalar f (CInt 0) d) missing features).
  destruct (zero_fill_spec missing features) as (Z1 & Z2 & Z3). fold filled in Z1, Z2, Z3.
  assert (Hsel : select names filled
                 = Returned (mk (nrows features)
                               (map (fun n => (n, Spec.reconciled_value features n)) names))).
  { rewrite <- Z2. apply select_spec; [auto|].
    intros n Hn. rewrite Z3. unfold Spec.reconciled_value.
    destruct (has_col n features) eqn:Hc.
    - assert (Hm : mem n missing = false).
      { apply mem_false. unfold missing. rewrite filter_In. rewrite Hc. simpl.
        intros [_ ?]; discriminate. }
      rewrite Hm. apply has_col_lookup in Hc as [v ->]. reflexivity.
    - assert (Hm : mem n missing = true).
      { apply mem_In. unfold missing. rewrite filter_In. now rewrite Hc. }
      rewrite Hm. destruct (get_col n features) eqn:G; [|reflexivity].
      assert (has_col n features = true) by (apply has_col_lookup; eauto). congruence. }
  destruct (log_only_logged INFO ("Model feature names: " ++ String.concat ", " names)%string w)
    as (w1 & E1 & L1).
  assert (Hfill : exists w2,
    (match missing with
     | [] => ret features
     | _ :: _ =>
         log WARNING ("Missing features: " ++ String.concat ", " missing)%string;;;
         ret (fold_left (fun d f => set_scalar f (CInt 0) d) missing features)
     end) w1 = (w2, Returned filled) /\ Spec.only_logged w1 w2).
  { unfold filled. destruct missing.
    - exists w1. split; [reflexivity | apply only_logged_refl].
    - match goal with |- context [log WARNING ?msg] =>
        destruct (log_only_logged WARNING msg w1) as (w2 & E2 & L2) end.
      exists w2. split; [| exact L2]. eapply bind_run; [exact E2 | reflexivity]. }
  destruct Hfill as (w2 & E2 & L2).
  assert (Hextra : exists w3,
    (match extra with
     | [] => ret tt
     | _ :: _ => log WARNING ("Extra features that will be dropped: "
                               ++ String.concat ", " extra)%string
     end) w2 = (w3, Returned tt) /\ Spec.only_logged w2 w3).
  { destruct extra.
    - exists w2. split; [reflexivity | apply only_logged_refl].
    - apply log_only_logged. }
  destruct Hextra as (w3 & E3 & L3).
  exists w3. split; [| eauto using only_logged_trans].
  eapply bind_run; [exact E1 |].
  eapply bind_run; [exact E2 |].
  eapply bind_run; [exact E3 |].
  unfold lift. now rewrite Hsel.
Qed.

(** C1. Column reconciliation at serving time. For a model whose fitted
    feature list [names] is non-empty and a computed feature frame with
    distinct labels, the block returns (no [KeyError]) a frame whose labels
    are exactly [names], in that order; a fitted name that the computed
    features lack is a column of zeros, a fitted name they have keeps its
    computed column, and every computed feature outside [names] is gone. *)
Theorem reconcile_columns_parity (features : t) (names : list string) (w : World) :
  feature_names (engagement_model w) = Some names -> names <> [] ->
  List.NoDup (columns features) ->
  exists w' out,
    Main.reconcile_columns features w = (w', Returned out)
    /\ columns out = names
    /\ nrows out = nrows features
    /\ (forall n, In n names -> has_col n features = false ->
          get_col n out = Some (repeat (CInt 0) (nrows features)))
    /\ (forall n v, In n names -> get_col n features = Some v -> get_col n out = Some v)
    /\ (forall n, ~ In n names -> get_col n out = None)
    /\ Spec.only_logged w w'.
Proof.
  intros Hfn Hne Hnd.
  destruct (reconcile_columns_runs features names w Hfn Hne Hnd) as (w' & Hrun & Hlog).
  exists w', (mk (nrows features) (map (fun n => (n, Spec.reconciled_value features n)) names)).
  split; [exact Hrun|]. unfold columns, get_col. simpl.
  split; [| split; [reflexivity|]].
  { rewrite map_map. simpl. apply map_id. }
  repeat split.
  - intros n Hn Hc. rewrite lookup_col_named.
    apply mem_In in Hn. rewrite Hn. unfold Spec.reconciled_value.
    destruct (get_col n features) eqn:G; [|reflexivity].
    assert (has_col n features = true) by (apply has_col_lookup; eauto). congruence.
  - intros n v Hn G. rewrite lookup_col_named. apply mem_In in Hn. rewrite Hn.
    unfold Spec.reconciled_value, get_col. now rewrite G.
  - intros n Hn. rewrite lookup_col_named. apply mem_false in Hn. now rewrite Hn.
  - apply Hlog.
  - apply Hlog.
  - apply Hlog.
  - apply Hlog.
Qed.

End Parity.

(* ================================================================= *)
(** ** Text: [split], [join] and [strip] *)

Section Text.

Lemma split_nonempty sep s : split sep s <> [].
Proof.
  destruct s as [|c r]; simpl; [discriminate|].
  destruct (c =? sep)%N; [discriminate|]. destruct (split sep r); discriminate.
Qed.

(** The segments are one more than the separators. *)
Lemma split_length sep s :
  length (split sep s) = S (length (List.filter (fun c => (c =? sep)%N) s)).
Proof.
  induction s as [|c r IH]; simpl; [reflexivity|].
  destruct (c =? sep)%N; simpl; [now rewrite IH|].
  destruct (split sep r) eqn:E; [now apply split_nonempty in E|]. exact IH.
Qed.

(** Joining the segments with the separator gives the text back. *)
Lemma join_split sep s : join sep (split sep s) = s.
Proof.
  induction s as [|c r IH]; simpl; [reflexivity|].
  destruct (N.eqb_spec c sep) as [->|].
  - simpl. destruct (split sep r) eqn:E; [now apply split_nonempty in E|].
    now rewrite IH.
  - destruct (split sep r) as [|seg segs] eqn:E; [now apply split_nonempty in E|].
    simpl in *. destruct segs; simpl in *; now rewrite <- IH.
Qed.

(** No segment contains the separator. *)
Lemma split_no_sep sep s : Forall (fun seg => ~ In sep seg) (split sep s).
Proof.
  induction s as [|c r IH]; simpl.
  - constructor; [tauto | constructor].
  - destruct (N.eqb_spec c sep) as [->|Hc].
    + constructor; [tauto | exact IH].
    + destruct (split sep r) as [|seg segs]; [repeat constructor; simpl; intuition|].
      inversion IH; subst. constructor; [simpl; intuition | assumption].
Qed.

(** [lstrip] removes a prefix of white space, and what remains does not
    start with white space. *)
Lemma lstrip_spec s :
  exists ws, s = ws ++ lstrip s /\ forallb is_space ws = true
             /\ match lstrip s with [] => True | c :: _ => is_space c = false end.
Proof.
  induction s as [|c r (ws & E & F & H)]; simpl.
  - exists []. auto.
  - destruct (is_space c) eqn:Ec.
    + exists (c :: ws). simpl. rewrite Ec, F. split; [now f_equal | auto].
    + exists []. auto.
Qed.

(** [strip] removes white space at both ends and nothing else: the text is
    the stripped text between two runs of white space, and the stripped
    text neither starts nor ends with white space. *)
Lemma strip_spec s :
  exists ws1 ws2,
    s = ws1 ++ strip s ++ ws2
    /\ forallb is_space ws1 = true /\ forallb is_space ws2 = true
    /\ match strip s with [] => True | c :: _ => is_space c = false end
    /\ match rev (strip s) with [] => True | c :: _ => is_space c = false end.
Proof.
  unfold strip, rstrip.
  destruct (lstrip_spec s) as (ws1 & E1 & F1 & H1).
  destruct (lstrip_spec (rev (lstrip s))) as (ws2 & E2 & F2 & H2).
  exists ws1, (rev ws2). rewrite rev_involutive.
  assert (E3 : lstrip s = rev (lstrip (rev (lstrip s))) ++ rev ws2).
  { rewrite <- rev_app_distr, <- E2. now rewrite rev_involutive. }
  repeat split.
  - now rewrite <- E3.
  - exact F1.
  - rewrite forallb_forall in *. intros x Hx. apply F2. now apply in_rev.
  - destruct (rev (lstrip (rev (lstrip s)))) as [|c t] eqn:R; [exact I|].
    rewrite E3 in H1. exact H1.
  - exact H2.
Qed.

End Text.

(* ================================================================= *)
(** ** Hashtag features *)

Section Hashtags.

Import Frame DataProcessor.

Lemma apply_to_present name out f df v :
  get_col name df = Some v -> apply_to name out f df = set_col out (map f v) df.
Proof. intros H. unfold apply_to. now rewrite H. Qed.

(** Every segment has a trimmed form, the one [strip] computes. *)
Lemma strip_trimmed (seg : pystr) : Spec.trimmed seg (strip seg).
Proof. exact (strip_spec seg). Qed.

Lemma trimmed_lengths (segments : list pystr) :
  Forall2 (fun seg n => exists t, Spec.trimmed seg t /\ n = len t)
          segments (map (fun seg => len (strip seg)) segments).
Proof.
  induction segments as [|seg segments IH]; simpl; constructor; [|exact IH].
  exists (strip seg). split; [apply strip_trimmed | reflexivity].
Qed.

(** C8. Hashtag extraction. A missing value and the empty string give
    count 0 and average length 0. A non-empty string is cut at its commas:
    the segments joined by commas are the string again, none contains a
    comma, their number (one more than the number of commas) is
    [hashtag_count], and [avg_hashtag_length] is the binary64 mean of the
    lengths of the trimmed segments, where the trimmed form of a segment
    is the segment without the white space at its two ends: the segment is
    white space, then the trimmed form, then white space, and the trimmed
    form neither starts nor ends with white space. On a frame, the two
    features are these functions applied to each record of the [hashtags]
    column. ["innovation,tech"] gives count 2 and average length 7.0;
    [" ai , deep learning "] gives count 2 and average length 7.5, the
    mean of 2 and 13. *)
Theorem hashtag_features_spec :
  (hashtag_count CNone = 0 /\ avg_hashtag_length CNone = 0%float)
  /\ (hashtag_count (CStr []) = 0 /\ avg_hashtag_length (CStr []) = 0%float)
  /\ (forall s, s <> [] ->
        let segments := split comma s in
        join comma segments = s
        /\ Forall (fun seg => ~ In comma seg) segments
        /\ hashtag_count (CStr s) = len segments
        /\ hashtag_count (CStr s) = 1 + len (List.filter (fun c => (c =? comma)%N) s)
        /\ avg_hashtag_length (CStr s)
           = np_mean (map (fun seg => float_of_Z (len (strip seg))) segments)
        /\ exists lengths,
             Forall2 (fun seg n => exists t, Spec.trimmed seg t /\ n = len t)
                     segments lengths
             /\ avg_hashtag_length (CStr s) = np_mean (map float_of_Z lengths))
  /\ (forall df tags w,
        get_col "hashtags" df = Some tags ->
        exists df',
          _extract_hashtag_features df w = (w, Returned df')
          /\ get_col "hashtag_count" df' = Some (map (fun x => CInt (hashtag_count x)) tags)
          /\ get_col "avg_hashtag_length" df'
             = Some (map (fun x => CFloat (avg_hashtag_length x)) tags))
  /\ (hashtag_count (CStr (str "innovation,tech")) = 2
      /\ avg_hashtag_length (CStr (str "innovation,tech")) = 7%float)
  /\ (hashtag_count (CStr (str " ai , deep learning ")) = 2
      /\ avg_hashtag_length (CStr (str " ai , deep learning ")) = 7.5%float
      /\ map strip (split comma (str " ai , deep learning "))
         = [str "ai"; str "deep learning"]).
Proof.
  split; [split; reflexivity|]. split; [split; reflexivity|].
  split; [|split; [|split]].
  - intros s Hs segments. destruct s as [|c r]; [congruence|].
    unfold hashtag_count, avg_hashtag_length. fold segments.
    split; [apply join_split|]. split; [apply split_no_sep|].
    split; [reflexivity|].
    split; [unfold segments, len; rewrite split_length; lia|].
    split; [reflexivity|].
    exists (map (fun seg => len (strip seg)) segments).
    split; [apply trimmed_lengths|]. now rewrite map_map.
  - intros df tags w Htags. unfold _extract_hashtag_features.
    assert (Hc : has_col "hashtags" df = true) by (apply has_col_lookup; eauto).
    rewrite Hc. cbn [negb]. cbv iota.
    rewrite (apply_to_present "hashtags" "hashtag_count" _ df tags Htags).
    erewrite (apply_to_present "hashtags" "avg_hashtag_length");
      [| rewrite get_set_col; simpl String.eqb; exact Htags].
    eexists. split; [reflexivity|]. rewrite !get_set_col. simpl String.eqb. auto.
  - split; vm_compute; reflexivity.
  - repeat split; vm_compute; reflexivity.
Qed.

End Hashtags.

(* ================================================================= *)
(** ** The Uninitialized model *)

Section Untrained.

Import EngagementModel.

Lemma slice_to_nil {A} n : slice_to n (@nil A) = [].
Proof. unfold slice_to. destruct (n <? 0); apply firstn_nil. Qed.

(** C3 (as the code has it). On a model whose regressor is absent,
    [predict] and [save] raise [ValueError] "Model not trained. Call
    train() first." at once, leaving the world untouched (nothing is
    written). [get_feature_importance] has no such check: it returns the
    stored importance mapping, cut to [top_n] entries, and for the
    Uninitialized model that mapping is empty. *)
Theorem untrained_model_operations (w : World) :
  model (engagement_model w) = None ->
  (forall X, predict X w = (w, Raised (ValueError "Model not trained. Call train() first.")))
  /\ (forall filename stamp iso,
        save filename stamp iso w
        = (w, Raised (ValueError "Model not trained. Call train() first.")))
  /\ (forall top_n,
        get_feature_importance top_n w
        = (w, Returned match top_n with
                       | Some n => slice_to n (feature_importance (engagement_model w))
                       | None => feature_importance (engagement_model w)
                       end))
  /\ (feature_importance (engagement_model w) = [] ->
      forall top_n, get_feature_importance top_n w = (w, Returned [])).
Proof.
  intros Hm. repeat split.
  - intros X. unfold predict, bind, self. now rewrite Hm.
  - intros filename stamp iso. unfold save, bind, self. now rewrite Hm.
  - intros [n|]; reflexivity.
  - intros Hfi [n|]; unfold get_feature_importance, bind, self, ret; rewrite Hfi;
      [now rewrite slice_to_nil | reflexivity].
Qed.

(** The Uninitialized model of a fresh process is a witness. *)
Lemma untrained_model_operations_witness :
  (forall X, predict X Spec.fresh_world
     = (Spec.fresh_world, Raised (ValueError "Model not trained. Call train() first.")))
  /\ (forall top_n, get_feature_importance top_n Spec.fresh_world = (Spec.fresh_world, Returned [])).
Proof.
  destruct (untrained_model_operations Spec.fresh_world eq_refl) as (H1 & _ & _ & H4).
  split; [exact H1 | exact (H4 eq_refl)].
Defined.

(** C3, the claim as stated fails: on the Uninitialized model
    [get_feature_importance] returns (an empty mapping), it does not
    raise. *)
Lemma get_feature_importance_untrained_returns :
  model (engagement_model Spec.fresh_world) = None
  /\ get_feature_importance (Some 10) Spec.fresh_world = (Spec.fresh_world, Returned [])
  /\ is_raised (snd (get_feature_importance (Some 10) Spec.fresh_world)) = false.
Proof. repeat split. Qed.

End Untrained.

(* ================================================================= *)
(** ** Transforming before fitting *)

Section Unfitted.

(** C4 (as the code has it). On a pipeline that was never fitted,
    [transform] does not raise and does not pass its input through: for
    every input it logs the warning "Preprocessor not fitted. Returning
    empty feature set." and returns the empty frame. The serving adapter
    does not rely on that result: it tests the pipeline itself and, when
    it is unfitted, logs a warning and uses the raw features with missing
    values set to 0; and whatever the pipeline does, the adapter's
    transformation step returns and never raises. *)
Theorem transform_before_fit (df : Frame.t) (w : World) :
  preprocessor (feature_engineering w) = None ->
  (exists w',
     FeatureEngineering.transform df w = (w', Returned Frame.empty)
     /\ logs w' = logs w ++ [(INFO, "Transforming data with feature engineering pipeline");
                             (WARNING, "Preprocessor not fitted. Returning empty feature set.")]
     /\ Spec.only_logged w w')
  /\ (exists w',
        Main.transform_features df w = (w', Returned (Frame.fillna0 df))
        /\ logs w' = logs w ++ [(WARNING, "Feature engineering pipeline not fitted. Using raw features.")]
        /\ Spec.only_logged w w').
Proof.
  intros H. split.
  - unfold FeatureEngineering.transform, bind, FeatureEngineering.self. simpl.
    rewrite H. simpl. eexists. split; [reflexivity|]. simpl.
    split; [now rewrite <- app_assoc|]. repeat split.
    eexists. simpl. now rewrite <- app_assoc.
  - unfold Main.transform_features, bind, FeatureEngineering.self. rewrite H. simpl.
    eexists. split; [reflexivity|]. simpl. split; [reflexivity|]. repeat split.
    eexists. reflexivity.
Qed.

Lemma transform_before_fit_witness :
  (exists w',
     FeatureEngineering.transform Spec.raw_features Spec.fresh_world = (w', Returned Frame.empty)
     /\ logs w' = logs Spec.fresh_world
                  ++ [(INFO, "Transforming data with feature engineering pipeline");
                      (WARNING, "Preprocessor not fitted. Returning empty feature set.")]
     /\ Spec.only_logged Spec.fresh_world w')
  /\ (exists w',
        Main.transform_features Spec.raw_features Spec.fresh_world
        = (w', Returned (Frame.fillna0 Spec.raw_features))
        /\ logs w' = logs Spec.fresh_world
                     ++ [(WARNING, "Feature engineering pipeline not fitted. Using raw features.")]
        /\ Spec.only_logged Spec.fresh_world w').
Proof. exact (transform_before_fit Spec.raw_features Spec.fresh_world eq_refl). Defined.

(** X2. The adapter's transformation step never raises. With an unfitted
    pipeline its result is the fallback; with a fitted one it is the frame
    [transform] returns, and the fallback when [transform] raises. The
    fallback is the raw frame with its missing values set to 0: same rows
    and labels, no value missing ([None] or NaN), 0 where a value was
    missing, every other value as it was. *)
Theorem transform_features_total (df : Frame.t) (w : World) :
  (exists w' features,
     Main.transform_features df w = (w', Returned features)
     /\ features
        = match preprocessor (feature_engineering w) with
          | None => Frame.fillna0 df
          | Some _ =>
              match snd (FeatureEngineering.transform df w) with
              | Returned transformed => transformed
              | Raised _ => Frame.fillna0 df
              end
          end)
  /\ Frame.nrows (Frame.fillna0 df) = Frame.nrows df
  /\ Frame.columns (Frame.fillna0 df) = Frame.columns df
  /\ (forall name v,
        Frame.get_col name df = Some v ->
        exists v',
          Frame.get_col name (Frame.fillna0 df) = Some v'
          /\ Forall2 (fun x y =>
                        Spec.missing y = false
                        /\ if Spec.missing x
                           then y = Frame.CInt 0 \/ y = Frame.CFloat 0%float
                           else y = x) v v').
Proof.
  split; [|split; [reflexivity|split; [apply fillna0_columns|intros name v; apply fillna0_cells]]].
  unfold Main.transform_features, bind, FeatureEngineering.self.
  destruct (preprocessor (feature_engineering w)).
  - unfold try_except, log, ret.
    destruct (FeatureEngineering.transform df w) as [w1 [d|e]]; cbn [snd];
      eexists _, _; split; reflexivity.
  - eexists _, _. split; reflexivity.
Qed.

(** A frame with a [None] and a NaN, through the fallback of an unfitted
    pipeline. *)
Example transform_features_fallback :
  snd (Main.transform_features
         (Frame.mk 2 [("account_age", [Frame.CNone; Frame.CInt 30]);
                      ("avg_word_length", [Frame.CFloat nan; Frame.CFloat 4.5%float])])
         Spec.fresh_world)
  = Returned (Frame.mk 2 [("account_age", [Frame.CInt 0; Frame.CInt 30]);
                          ("avg_word_length", [Frame.CFloat 0%float; Frame.CFloat 4.5%float])]).
Proof. vm_compute. reflexivity. Qed.

(** C4, the claim as stated fails: [transform] before [fit], on a frame
    with one row and three columns, returns (the empty frame); it is not an
    error. *)
Lemma transform_unfitted_returns_empty :
  preprocessor (feature_engineering Spec.fresh_world) = None
  /\ snd (FeatureEngineering.transform Spec.raw_features Spec.fresh_world)
     = Returned Frame.empty
  /\ is_raised (snd (FeatureEngineering.transform Spec.raw_features Spec.fresh_world)) = false.
Proof. repeat split. Qed.

End Unfitted.

(* ================================================================= *)
(** ** Loading the feature pipeline *)

Section PipelineLoad.

Import FeatureEngineering.

(** The [try] block of [load] has one way to complete: returning [True]. *)
Lemma load_body_returns_true filepath w w' b :
  load_body filepath w = (w', Returned b) -> b = true.
Proof.
  unfold load_body, bind, joblib_load.
  destruct (files w !! filepath) as [[[r|m|d|fe|]|]|]; simpl; try discriminate.
  - destruct d as [[p|] [t|] [n|] [c|] [x|]]; simpl; try discriminate.
    unfold ret. congruence.
  - unfold ret. congruence.
Qed.

(** A file that is absent or unreadable makes the [try] block raise before
    any attribute is assigned. *)
Lemma load_body_no_pickle filepath w :
  files w !! filepath = None \/ files w !! filepath = Some Unreadable ->
  exists e, load_body filepath w = (w, Raised e).
Proof.
  unfold load_body, bind, joblib_load. intros [-> | ->]; eexists; reflexivity.
Qed.

(** C10. [FeatureEngineering.load] never raises. It returns [True] exactly
    when its [try] block completed and [False] whenever the block raised,
    whatever the exception was, so the result does not tell a missing file
    from an unreadable one or from an object of the wrong shape. After
    [False] for a missing or unreadable file the pipeline is as before: an
    unfitted pipeline stays unfitted. After [True] for a stored dictionary
    the five attributes are those of the dictionary. The model and the
    files are never touched. *)
Theorem feature_engineering_load_never_raises (filepath : string) (w : World) :
  exists w' b,
    load filepath w = (w', Returned b)
    /\ b = negb (is_raised (snd (load_body filepath w)))
    /\ (files w !! filepath = None \/ files w !! filepath = Some Unreadable ->
        b = false /\ feature_engineering w' = feature_engineering w)
    /\ (files w !! filepath = Some (Pickle ObjOther) -> b = false)
    /\ (forall p t n c x,
          files w !! filepath
          = Some (Pickle (ObjFeDict {| d_preprocessor := Some p; d_tfidf_vectorizer := Some t;
                                       d_numerical_features := Some n;
                                       d_categorical_features := Some c;
                                       d_text_feature := Some x |})) ->
          b = true
          /\ feature_engineering w'
             = {| preprocessor := p; tfidf_vectorizer := t; numerical_features := n;
                  categorical_features := c; text_feature := x |}).
Proof.
  unfold load, try_except.
  destruct (load_body filepath w) as [w1 [b|e]] eqn:E.
  - exists w1, b. pose proof (load_body_returns_true _ _ _ _ E) as ->.
    split; [reflexivity|]. split; [reflexivity|].
    split; [|split].
    + intros H. destruct (load_body_no_pickle filepath w H) as [e E']. congruence.
    + intros H. revert E. unfold load_body, bind, joblib_load. rewrite H. simpl. discriminate.
    + intros p t n c x H. revert E. unfold load_body, bind, joblib_load. rewrite H. simpl.
      unfold ret. intros [= <-]. split; reflexivity.
  - eexists _, false. split; [reflexivity|]. split; [reflexivity|].
    split; [|split].
    + intros H. destruct (load_body_no_pickle filepath w H) as [e' E']. simpl.
      split; [reflexivity | congruence].
    + reflexivity.
    + intros p t n c x H. revert E. unfold load_body, bind, joblib_load. rewrite H. simpl.
      discriminate.
Qed.

(** On a fresh process with an empty model directory, [load] returns
    [False] and the pipeline is still unfitted. *)
Example load_missing_file :
  load "models/feature_engineering_20240101_120000.joblib" Spec.fresh_world
  = ({| engagement_model := engagement_model Spec.fresh_world;
        feature_engineering := FeatureEngineering.init;
        files := ∅;
        logs := [(ERROR, "Error loading feature engineering pipeline")] |},
     Returned false).
Proof. reflexivity. Qed.

End PipelineLoad.

(* ================================================================= *)
(** ** Loading the model *)

Section ModelLoad.

Import EngagementModel.

Lemma path_exists_run path w :
  path_exists path w = (w, Returned (bool_decide (is_Some (files w !! path)))).
Proof. reflexivity. Qed.

(** The XGBoost branch replaces the estimator by [Spec.restored_model] of
    it and changes nothing else but the log. *)
Lemma enable_categorical_support_run w m :
  model (engagement_model w) = Some m ->
  exists w',
    enable_categorical_support w = (w', Returned tt)
    /\ engagement_model w'
       = {| model_type := model_type (engagement_model w);
            model_dir := model_dir (engagement_model w);
            model := Some (Spec.restored_model (model_type (engagement_model w)) m);
            feature_names := feature_names (engagement_model w);
            target_names := target_names (engagement_model w);
            metrics := metrics (engagement_model w);
            feature_importance := feature_importance (engagement_model w) |}
    /\ feature_engineering w' = feature_engineering w
    /\ files w' = files w.
Proof.
  intros Hm. unfold enable_categorical_support, bind, self. rewrite Hm.
  unfold Spec.restored_model.
  destruct m as [r| | | |]; try (eexists; repeat split; simpl;
    destruct (engagement_model w); simpl in *; congruence).
  destruct (String.eqb _ _ && _); simpl.
  - eexists. repeat split.
  - eexists. repeat split. destruct (engagement_model w); simpl in *; congruence.
Qed.

(** C9 (as the code has it). [EngagementModel.load], by the state of its
    two files:
    - the weights file or the metadata file is absent: [load] raises
      [FileNotFoundError] and the world, hence every attribute of the
      model, is exactly as before;
    - both are present, the weights file holding an object [m] and the
      metadata file a dictionary with its keys: [load] returns and the
      model's regressor, model type, feature names, target names, metrics
      and importance mapping are those stored (the regressor with
      categorical support switched on where that applies); the pipeline
      and the files are unchanged;
    - both are present and the weights file cannot be unpickled: [load]
      raises with the world unchanged;
    - both are present, the weights file holds an object [m], and the
      metadata file cannot be unpickled or is not a dictionary with every
      key: [load] raises, but only after the regressor was replaced by the
      stored one, and before the importance mapping is: the restore is
      partial. *)
Theorem engagement_model_load_cases (filename : string) (w : World) :
  let em := engagement_model w in
  let model_path := path_join (model_dir em) (filename ++ ".joblib")%string in
  let metadata_path := path_join (model_dir em) (filename ++ "_metadata.joblib")%string in
  (files w !! model_path = None \/ files w !! metadata_path = None ->
   exists msg, load filename w = (w, Raised (FileNotFoundError msg)))
  /\ (forall m mt fn tn mx fi ts,
        files w !! model_path = Some (Pickle m) ->
        files w !! metadata_path
        = Some (Pickle (ObjMetadata {| md_model_type := Some mt; md_feature_names := Some fn;
                                       md_target_names := Some tn; md_metrics := Some mx;
                                       md_feature_importance := Some fi;
                                       md_timestamp := ts |})) ->
        exists w',
          load filename w = (w', Returned tt)
          /\ engagement_model w'
             = {| model_type := mt; model_dir := model_dir em;
                  model := Some (Spec.restored_model (model_type em) m);
                  feature_names := fn; target_names := tn;
                  metrics := mx; feature_importance := fi |}
          /\ feature_engineering w' = feature_engineering w
          /\ files w' = files w)
  /\ (forall f,
        files w !! model_path = Some Unreadable ->
        files w !! metadata_path = Some f ->
        exists e, load filename w = (w, Raised e))
  /\ (forall m f,
        files w !! model_path = Some (Pickle m) ->
        files w !! metadata_path = Some f ->
        Spec.complete_metadata f = false ->
        exists w' e,
          load filename w = (w', Raised e)
          /\ model (engagement_model w') = Some (Spec.restored_model (model_type em) m)
          /\ feature_importance (engagement_model w') = feature_importance em
          /\ files w' = files w).
Proof.
  intros em model_path metadata_path. subst model_path metadata_path em.
  split; [|split; [|split]].
  - intros H. unfold load.
    eapply bind_run_ex; [reflexivity|]. cbv beta zeta.
    eapply bind_run_ex; [apply path_exists_run|].
    destruct (files w !! path_join _ (filename ++ ".joblib")%string) as [f|] eqn:E1.
    + rewrite bool_decide_eq_true_2 by eauto. cbn [negb]. cbv iota.
      eapply bind_run_ex; [apply path_exists_run|].
      destruct H as [H|H]; [discriminate|]. rewrite H.
      rewrite bool_decide_eq_false_2 by (intros [? ?]; discriminate). simpl.
      eexists. reflexivity.
    + rewrite bool_decide_eq_false_2 by (intros [? ?]; discriminate). simpl.
      eexists. reflexivity.
  - intros m mt fn tn mx fi ts H1 H2. unfold load.
    eapply bind_run_ex; [reflexivity|]. cbv beta zeta.
    eapply bind_run_ex; [apply path_exists_run|]. rewrite H1.
    rewrite bool_decide_eq_true_2 by eauto. cbn [negb]. cbv iota.
    eapply bind_run_ex; [apply path_exists_run|]. rewrite H2.
    rewrite bool_decide_eq_true_2 by eauto. cbn [negb]. cbv iota.
    eapply bind_run_ex; [unfold joblib_load; rewrite H1; reflexivity|].
    eapply bind_run_ex; [reflexivity|].
    cbv beta.
    match goal with |- context [bind enable_categorical_support _ ?w0] =>
      destruct (enable_categorical_support_run w0 m eq_refl) as (w1 & R1 & R2 & R3 & R4) end.
    eapply bind_run_ex; [exact R1|].
    eapply bind_run_ex; [unfold joblib_load; rewrite R4; simpl; rewrite H2; reflexivity|].
    simpl. unfold bind, self, subscript, ret. simpl. rewrite R2. simpl.
    eexists. split; [reflexivity|]. simpl. repeat split; assumption.
  - intros f H1 H2. unfold load.
    eapply bind_run_ex; [reflexivity|]. cbv beta zeta.
    eapply bind_run_ex; [apply path_exists_run|]. rewrite H1.
    rewrite bool_decide_eq_true_2 by eauto. cbn [negb]. cbv iota.
    eapply bind_run_ex; [apply path_exists_run|]. rewrite H2.
    rewrite bool_decide_eq_true_2 by eauto. cbn [negb]. cbv iota.
    unfold bind at 1, joblib_load at 1. rewrite H1. eexists. reflexivity.
  - intros m f H1 H2 Hf. unfold load.
    eapply bind_run_ex; [reflexivity|]. cbv beta zeta.
    eapply bind_run_ex; [apply path_exists_run|]. rewrite H1.
    rewrite bool_decide_eq_true_2 by eauto. cbn [negb]. cbv iota.
    eapply bind_run_ex; [apply path_exists_run|]. rewrite H2.
    rewrite bool_decide_eq_true_2 by eauto. cbn [negb]. cbv iota.
    eapply bind_run_ex; [unfold joblib_load; rewrite H1; reflexivity|].
    eapply bind_run_ex; [reflexivity|].
    cbv beta.
    match goal with |- context [bind enable_categorical_support _ ?w0] =>
      destruct (enable_categorical_support_run w0 m eq_refl) as (w1 & R1 & R2 & R3 & R4) end.
    eapply bind_run_ex; [exact R1|].
    assert (H2' : files w1 !! path_join (model_dir (engagement_model w))
                               (filename ++ "_metadata.joblib")%string = Some f).
    { rewrite R4. exact H2. }
    unfold bind at 1, joblib_load at 1. rewrite H2'.
    destruct f as [o|]; [|eexists _, _; split; [reflexivity|]; rewrite R2; repeat split; exact R4].
    destruct o as [r|md|d|fe|];
      try (eexists _, _; split; [reflexivity|]; rewrite R2; repeat split; exact R4).
    destruct md as [[mt|] [fn|] [tn|] [mx|] [fi|] ts]; try discriminate Hf;
      simpl; unfold bind, self, subscript, ret, raise; simpl;
      (eexists _, _; split; [reflexivity|]; simpl; rewrite ?R2; simpl;
       repeat split; first [reflexivity | exact R4]).
Qed.

(** C9, the claim as stated fails: with both files present, [load] can
    still raise, and then the model object is neither as before nor
    restored. After a metadata file that cannot be unpickled the regressor
    is the stored one while the feature names are still unset; after a
    metadata dictionary that stops at the feature names, the regressor,
    the model type and the feature names are the stored ones and the rest
    is not. *)
Lemma engagement_model_load_partial_restore :
  (is_Some (files Spec.corrupt_metadata_world !! "models/m.joblib")
   /\ is_Some (files Spec.corrupt_metadata_world !! "models/m_metadata.joblib")
   /\ model (engagement_model Spec.corrupt_metadata_world) = None
   /\ load "m" Spec.corrupt_metadata_world
      = ({| engagement_model := {|
              model_type := "xgboost"; model_dir := "models";
              model := Some (ObjRegressor Spec.zero_regressor);
              feature_names := None;
              target_names := ["likes"; "shares"; "comments"];
              metrics := ∅; feature_importance := [] |};
            feature_engineering := FeatureEngineering.init;
            files := files Spec.corrupt_metadata_world;
            logs := [] |},
         Raised (UnpicklingError "models/m_metadata.joblib")))
  /\ (is_Some (files Spec.short_metadata_world !! "models/m.joblib")
      /\ is_Some (files Spec.short_metadata_world !! "models/m_metadata.joblib")
      /\ load "m" Spec.short_metadata_world
         = ({| engagement_model := {|
                 model_type := "lightgbm"; model_dir := "models";
                 model := Some (ObjRegressor Spec.zero_regressor);
                 feature_names := Some ["text_length"];
                 target_names := ["likes"; "shares"; "comments"];
                 metrics := ∅; feature_importance := [] |};
               feature_engineering := FeatureEngineering.init;
               files := files Spec.short_metadata_world;
               logs := [] |},
            Raised (KeyError "target_names"))).
Proof.
  repeat split; try (vm_compute; eauto; fail); vm_compute; reflexivity.
Qed.

End ModelLoad.

(* ================================================================= *)
(** ** Engagement level *)

Section Level.

Import EngagementModel.

(** C7, where the code departs from the claim: a prediction row whose three
    targets sum to 0 gets no label. [pd.cut] with the edges
    [[0, 50, 200, inf]] leaves the lowest edge out, so the sum 0 (and
    every negative sum) falls in no interval; the cell is a missing value,
    not ["low"]. *)
Theorem engagement_level_missing_at_zero :
  row_sum [Frame.CFloat 0; Frame.CFloat 0; Frame.CFloat 0] = 0%float
  /\ cut 0%float = None
  /\ cut (-3)%float = None
  /\ snd (predict Spec.raw_features Spec.zero_world)
     = Returned (Frame.mk 1 [("likes", [Frame.CFloat 0]);
                             ("shares", [Frame.CFloat 0]);
                             ("comments", [Frame.CFloat 0]);
                             ("engagement_level", [Frame.CNone])]).
Proof. repeat split; vm_compute; reflexivity. Qed.

(** The edges themselves: 50 is still low, 200 still medium. *)
Example cut_examples :
  cut 0.5%float = Some low /\ cut 50%float = Some low
  /\ cut 50.5%float = Some medium /\ cut 200%float = Some medium
  /\ cut 200.5%float = Some high /\ cut infinity = Some high
  /\ cut nan = None /\ cut neg_infinity = None.
Proof. repeat split; vm_compute; reflexivity. Qed.

Lemma SFeqb_refl (y : spec_float) : y <> S754_nan -> SFeqb y y = true.
Proof.
  unfold SFeqb. destruct y as [s|s| |s m e]; intros H; try congruence.
  - reflexivity.
  - now destruct s.
  - rewrite SFcompare_finite. unfold Spec.fin_cmp.
    rewrite Z.compare_refl, Pos.compare_refl. now destruct s.
Qed.

Lemma ltb_not_nan (x y : float) : (x <? y)%float = true -> is_nan y = false.
Proof.
  unfold is_nan. rewrite FloatAxioms.ltb_spec, FloatAxioms.eqb_spec. intros H.
  rewrite SFeqb_refl; [reflexivity|]. intros E. rewrite E in H.
  unfold SFltb in H. now destruct (Prim2SF x).
Qed.

Lemma ltb_infinity (x : float) : (infinity <? x)%float = false.
Proof.
  rewrite ltb_spec. unfold SFltb. change (Prim2SF infinity) with (S754_infinity false).
  destruct (Prim2SF x) as [s|s| |s m e]; try reflexivity. now destruct s.
Qed.

(** Every positive sum is labelled, by the thresholds 50 and 200. *)
Lemma cut_positive (t : float) :
  (0 <? t)%float = true ->
  cut t = Some (if (200 <? t)%float then high
                else if (50 <? t)%float then medium else low).
Proof.
  intros H. unfold cut. rewrite (ltb_not_nan _ _ H).
  unfold searchsorted_left, bins. simpl List.filter. rewrite H, ltb_infinity.
  destruct (200 <? t)%float eqn:E200.
  - assert (E50 : (50 <? t)%float = true) by (eapply ltb_trans; [|exact E200]; reflexivity).
    rewrite E50. reflexivity.
  - destruct (50 <? t)%float; reflexivity.
Qed.

Lemma cut_positive_witness :
  cut 120.5%float
  = Some (if (200 <? 120.5)%float then high
          else if (50 <? 120.5)%float then medium else low).
Proof. apply (cut_positive 120.5%float). reflexivity. Defined.

End Level.

(* ================================================================= *)
(** ** Post-time recommendation without the time features *)

Section NoTimeFeatures.

Import EngagementModel.

(** C6. Whenever the feature-name list in force (the argument, or the
    model's fitted names when the argument is omitted) lacks
    ['hour_of_day'] or ['day_of_week'], [recommend_post_time] returns
    [None]: it does not raise, it logs exactly one record, the warning
    "Cannot recommend post time: hour_of_day or day_of_week not in
    features", and it changes nothing else. *)
Theorem recommend_post_time_without_time_features
    (X : Frame.ndarray) (feature_cols : option (list string)) (now : datetime)
    (w : World) (cols : list string) :
  match feature_cols with
  | Some c => Some c
  | None => feature_names (engagement_model w)
  end = Some cols ->
  ~ In "hour_of_day" cols \/ ~ In "day_of_week" cols ->
  exists w',
    recommend_post_time X feature_cols now w = (w', Returned None)
    /\ logs w' = logs w ++ [(WARNING,
         "Cannot recommend post time: hour_of_day or day_of_week not in features")]
    /\ engagement_model w' = engagement_model w
    /\ feature_engineering w' = feature_engineering w
    /\ files w' = files w.
Proof.
  intros Hcols Habsent. unfold recommend_post_time.
  eapply bind_run_ex; [reflexivity|]. cbv beta. rewrite Hcols.
  assert (Hguard : negb (mem "hour_of_day" cols) || negb (mem "day_of_week" cols) = true).
  { destruct Habsent as [H|H]; apply mem_false in H; rewrite H; simpl;
      [reflexivity | apply orb_true_r]. }
  rewrite Hguard. eexists. split; [reflexivity|]. repeat split.
Qed.

Lemma recommend_post_time_without_time_features_witness :
  exists w',
    recommend_post_time (Frame.mk_array 2 [[120%float; 0.5%float]])
      (Some ["followers_count"; "day_of_week"])
      {| ordinal := 738000; hour := 9; minute := 30; second := 0; microsecond := 0 |}
      Spec.zero_world = (w', Returned None)
    /\ logs w' = logs Spec.zero_world ++ [(WARNING,
         "Cannot recommend post time: hour_of_day or day_of_week not in features")]
    /\ engagement_model w' = engagement_model Spec.zero_world
    /\ feature_engineering w' = feature_engineering Spec.zero_world
    /\ files w' = files Spec.zero_world.
Proof.
  apply (recommend_post_time_without_time_features
           (Frame.mk_array 2 [[120%float; 0.5%float]])
           (Some ["followers_count"; "day_of_week"])
           {| ordinal := 738000; hour := 9; minute := 30; second := 0; microsecond := 0 |}
           Spec.zero_world
           ["followers_count"; "day_of_week"] eq_refl).
  left. simpl. intuition discriminate.
Defined.

End NoTimeFeatures.

(* ================================================================= *)
(** ** Post-time recommendation: the grid search *)

Section GridSearch.

Import EngagementModel.

Lemma for_each_app {S A} (l1 l2 : list A) (body : S -> A -> outcome S) (s : S) :
  for_each (l1 ++ l2) body s = and_then (for_each l1 body s) (for_each l2 body).
Proof.
  revert s. induction l1 as [|a l1 IH]; intros s; simpl; [reflexivity|].
  destruct (body s a); simpl; [apply IH | reflexivity].
Qed.

Lemma for_each_map {S A B} (f : A -> B) (l : list A) (body : S -> B -> outcome S) (s : S) :
  for_each (map f l) body s = for_each l (fun s a => body s (f a)) s.
Proof.
  revert s. induction l as [|a l IH]; intros s; simpl; [reflexivity|].
  destruct (body s (f a)); simpl; [apply IH | reflexivity].
Qed.

(** Two nested loops visit the pairs of the product in order. *)
Lemma for_each_nested {S A B} (la : list A) (lb : list B)
    (body : S -> A -> B -> outcome S) (s : S) :
  for_each la (fun s a => for_each lb (fun s b => body s a b) s) s
  = for_each (flat_map (fun a => map (pair a) lb) la)
             (fun s ab => body s (fst ab) (snd ab)) s.
Proof.
  revert s. induction la as [|a la IH]; intros s; simpl; [reflexivity|].
  rewrite for_each_app, for_each_map. simpl.
  destruct (for_each lb _ s); simpl; [apply IH | reflexivity].
Qed.

(** A loop invariant indexed by the elements visited so far. *)
Lemma for_each_invariant {S A} (I : list A -> S -> Prop) (body : S -> A -> outcome S)
    (l : list A) :
  (forall seen a s s', I seen s -> body s a = Returned s' -> I (seen ++ [a]) s') ->
  forall seen s s', I seen s -> for_each l body s = Returned s' -> I (seen ++ l) s'.
Proof.
  intros Hstep. induction l as [|a l IH]; intros seen s s' HI Hrun; simpl in Hrun.
  - injection Hrun as <-. now rewrite app_nil_r.
  - destruct (body s a) as [s1|e] eqn:E; simpl in Hrun; [|discriminate].
    replace (seen ++ a :: l) with ((seen ++ [a]) ++ l) by now rewrite <- app_assoc.
    eapply IH; [|exact Hrun]. eapply Hstep; eauto.
Qed.

Lemma In_range (n : nat) (x : Z) : In x (range n) <-> 0 <= x < Z.of_nat n.
Proof.
  unfold range. rewrite in_map_iff. split.
  - intros (k & <- & Hk). apply in_seq in Hk. lia.
  - intros H. exists (Z.to_nat x). split; [lia|]. apply in_seq. lia.
Qed.

(** The grid is [{0..6} x {0..23}], 168 combinations. *)
Lemma In_grid (day hour : Z) :
  In (day, hour) Spec.grid <-> (0 <= day <= 6 /\ 0 <= hour <= 23).
Proof.
  unfold Spec.grid. rewrite in_flat_map. split.
  - intros (d & Hd & Hin). apply in_map_iff in Hin as (h & [= <- <-] & Hh).
    apply In_range in Hd, Hh. lia.
  - intros [Hd Hh]. exists day. split; [apply In_range; lia|].
    apply in_map_iff. exists hour. split; [reflexivity | apply In_range; lia].
Qed.

Example grid_size : length Spec.grid = 168%nat.
Proof. reflexivity. Qed.

(** Writing the two time columns forgets what they held before. *)
Lemma overwrite_overwrite hi di h d h0 d0 rows :
  Spec.overwrite hi di h d (Spec.overwrite hi di h0 d0 rows) = Spec.overwrite hi di h d rows.
Proof.
  unfold Spec.overwrite. rewrite map_map. apply map_ext. intros r.
  destruct (Nat.eq_dec hi di) as [->|Hne].
  - now rewrite !list_insert_insert_eq.
  - rewrite (list_insert_insert_ne (<[hi:=h0]> r) hi di h d0) by assumption.
    now rewrite !list_insert_insert_eq.
Qed.

(** The total for a combination, computed on an array: it depends on the
    array through its width and its overwritten rows only. *)
Lemma grid_total_unfold m hi di X day hour :
  Spec.grid_total m hi di X day hour =
  if (hi <? Frame.ncols X)%nat then
    if (di <? Frame.ncols X)%nat then
      and_then (model_predict m
                  (map (map Frame.CFloat)
                       (Spec.overwrite hi di (float_of_Z hour) (float_of_Z day) (Frame.rows X))))
               total_of
    else Raised (IndexError "index is out of bounds for axis 1")
  else Raised (IndexError "index is out of bounds for axis 1").
Proof.
  unfold Spec.grid_total, Frame.set_column, Frame.array_values, Spec.overwrite.
  destruct (hi <? Frame.ncols X)%nat; simpl; [|reflexivity].
  destruct (di <? Frame.ncols X)%nat; simpl; [|reflexivity].
  now rewrite !map_map.
Qed.

Lemma grid_total_ext m hi di Xa Xb day hour :
  Frame.ncols Xa = Frame.ncols Xb ->
  (forall h d, Spec.overwrite hi di h d (Frame.rows Xa) = Spec.overwrite hi di h d (Frame.rows Xb)) ->
  Spec.grid_total m hi di Xa day hour = Spec.grid_total m hi di Xb day hour.
Proof.
  intros Hn Hr. rewrite !grid_total_unfold, Hn, Hr. reflexivity.
Qed.

(** One iteration, when it completes: the working copy has the two columns
    written, and the best so far is updated exactly when the new total is
    strictly greater. *)
Lemma grid_step_returned m hi di st day hour st' :
  grid_step m hi di st day hour = Returned st' ->
  exists t,
    Spec.grid_total m hi di (X_copy st) day hour = Returned t
    /\ Frame.ncols (X_copy st') = Frame.ncols (X_copy st)
    /\ Frame.rows (X_copy st')
       = Spec.overwrite hi di (float_of_Z hour) (float_of_Z day) (Frame.rows (X_copy st))
    /\ (if (best_engagement st <? t)%float
        then best_engagement st' = t /\ best_hour st' = Some hour /\ best_day st' = Some day
        else best_engagement st' = best_engagement st
             /\ best_hour st' = best_hour st /\ best_day st' = best_day st).
Proof.
  unfold grid_step, Spec.grid_total, Frame.set_column.
  destruct (hi <? Frame.ncols (X_copy st))%nat; simpl; [|discriminate].
  destruct (di <? Frame.ncols (X_copy st))%nat; simpl; [|discriminate].
  destruct (model_predict m _) as [p|e]; simpl; [|discriminate].
  destruct (total_of p) as [t|e]; simpl; [|discriminate].
  intros H. exists t. split; [reflexivity|].
  destruct (best_engagement st <? t)%float; injection H as <-; simpl;
    unfold Spec.overwrite; rewrite map_map; auto.
Qed.

(** The invariant is kept by every iteration that completes. *)
Lemma grid_step_invariant m hi di X seen st day hour st' :
  Spec.search_inv m hi di X seen st ->
  grid_step m hi di st day hour = Returned st' ->
  Spec.search_inv m hi di X (seen ++ [(day, hour)]) st'.
Proof.
  intros (Hn & Hr & Hseen & Hbest) Hstep.
  apply grid_step_returned in Hstep as (t & Ht & Hn' & Hr' & Hupd).
  rewrite (grid_total_ext m hi di (X_copy st) X day hour Hn Hr) in Ht.
  unfold Spec.search_inv. split; [congruence|]. split.
  { intros h d. rewrite Hr', overwrite_overwrite. apply Hr. }
  destruct (best_engagement st <? t)%float eqn:Elt.
  - destruct Hupd as (-> & -> & ->). split.
    + intros d h Hin. apply in_app_or in Hin as [Hin|[[= <- <-]|[]]].
      * destruct (Hseen d h Hin) as (t' & Ht' & Hle). exists t'. split; [exact Ht'|].
        destruct (t <? t')%float eqn:E; [|reflexivity].
        rewrite (ltb_trans _ _ _ Elt E) in Hle. discriminate.
      * exists t. split; [exact Ht | apply ltb_irrefl].
    + intros d h [= <-] [= <-]. split; [apply in_or_app; right; now left | exact Ht].
  - destruct Hupd as (-> & -> & ->). split.
    + intros d h Hin. apply in_app_or in Hin as [Hin|[[= <- <-]|[]]].
      * apply Hseen, Hin.
      * exists t. split; [exact Ht | exact Elt].
    + intros d h Hd Hh. destruct (Hbest d h Hd Hh) as [Hin Htot].
      split; [apply in_or_app; now left | exact Htot].
Qed.

(** The search, when it completes, has examined the whole grid. *)
Lemma grid_search_invariant m hi di X st :
  grid_search m hi di X = Returned st -> Spec.search_inv m hi di X Spec.grid st.
Proof.
  unfold grid_search. rewrite for_each_nested. intros Hrun.
  change Spec.grid with ([] ++ Spec.grid).
  eapply (for_each_invariant (Spec.search_inv m hi di X)); [| |exact Hrun].
  - intros seen [d h] s s' HI Hstep. simpl in Hstep. eapply grid_step_invariant; eauto.
  - unfold Spec.search_inv. simpl. repeat split; try tauto; discriminate.
Qed.

End GridSearch.

(* ================================================================= *)
(** ** Post-time recommendation: what a recommendation satisfies *)

Section Recommendation.

Import EngagementModel.

(** A reading [c] of the clock that is not later than [now] is not later
    in its date, and on the same date not later in its hour. *)
Lemma datetime_not_later (c now : datetime) :
  datetime_ltb now c = false ->
  ordinal c < ordinal now \/ (ordinal c = ordinal now /\ hour c <= hour now).
Proof.
  unfold datetime_ltb.
  destruct (Z.compare_spec (ordinal now) (ordinal c)); try discriminate; [|lia].
  destruct (Z.compare_spec (hour now) (hour c)); try discriminate; lia.
Qed.

Lemma datetime_ltb_by_date (a b : datetime) :
  ordinal a < ordinal b -> datetime_ltb a b = true.
Proof.
  intros H. unfold datetime_ltb. now destruct (Z.compare_spec (ordinal a) (ordinal b)); try lia.
Qed.

Lemma datetime_ltb_by_hour (a b : datetime) :
  ordinal a = ordinal b -> hour a < hour b -> datetime_ltb a b = true.
Proof.
  intros H1 H2. unfold datetime_ltb.
  destruct (Z.compare_spec (ordinal a) (ordinal b)); try lia.
  now destruct (Z.compare_spec (hour a) (hour b)); try lia.
Qed.

(** C5. Whenever [recommend_post_time] returns a recommendation [dt]:
    the two time features are among the feature names; the chosen day is
    in [{0..6}] and the chosen hour in [{0..23}]; the search has predicted
    a total for each of the 168 combinations (all other features of the
    input held fixed) and no combination has a total strictly greater than
    the chosen one; [dt] falls on the chosen weekday at the chosen hour,
    minute, second and microsecond 0; [dt] is strictly later than the
    clock reading [now] the method takes, hence than any earlier reading
    such as the time of the call; and [dt] is at most 7 days ahead,
    exactly 7 when the chosen weekday is today's and the chosen hour is
    not after the current hour. Nothing is logged or changed. *)
Theorem recommend_post_time_in_grid_and_future
    (X : Frame.ndarray) (feature_cols : option (list string)) (now : datetime)
    (w w' : World) (dt : datetime) :
  recommend_post_time X feature_cols now w = (w', Returned (Some dt)) ->
  exists cols hour_idx day_idx best_day best_hour total,
    match feature_cols with
    | Some c => Some c
    | None => feature_names (engagement_model w)
    end = Some cols
    /\ index_of "hour_of_day" cols = Returned hour_idx
    /\ index_of "day_of_week" cols = Returned day_idx
    /\ (0 <= best_day <= 6 /\ 0 <= best_hour <= 23)
    /\ Spec.grid_total (model (engagement_model w)) hour_idx day_idx X best_day best_hour
       = Returned total
    /\ (forall day hour, 0 <= day <= 6 -> 0 <= hour <= 23 ->
          exists t,
            Spec.grid_total (model (engagement_model w)) hour_idx day_idx X day hour
            = Returned t
            /\ (total <? t)%float = false)
    /\ (weekday dt = best_day /\ hour dt = best_hour
        /\ minute dt = 0 /\ second dt = 0 /\ microsecond dt = 0)
    /\ datetime_ltb now dt = true
    /\ (forall call_time, datetime_ltb now call_time = false ->
          datetime_ltb call_time dt = true)
    /\ 0 <= ordinal dt - ordinal now <= 7
    /\ (ordinal dt - ordinal now = 7 <-> weekday now = best_day /\ best_hour <= hour now)
    /\ w' = w.
Proof.
  intros Hrun. unfold recommend_post_time in Hrun.
  apply bind_inv_returned in Hrun as (w1 & em & Hself & Hrun).
  unfold self in Hself. injection Hself as <- <-.
  destruct (match feature_cols with Some c => Some c | None => _ end) as [cols|] eqn:Ecols;
    [| unfold bind, log, ret in Hrun; simpl in Hrun; discriminate].
  destruct (negb (mem "hour_of_day" cols) || negb (mem "day_of_week" cols)) eqn:Eguard;
    [unfold bind, log, ret in Hrun; simpl in Hrun; discriminate |].
  destruct (index_of "hour_of_day" cols) as [hi|] eqn:Ehi;
    [| unfold bind, log, ret in Hrun; simpl in Hrun; discriminate].
  destruct (index_of "day_of_week" cols) as [di|] eqn:Edi;
    [| unfold bind, log, ret in Hrun; simpl in Hrun; discriminate].
  destruct (grid_search (model (engagement_model w)) hi di X) as [st|e] eqn:Egs;
    [| unfold bind, log, ret in Hrun; simpl in Hrun; discriminate].
  destruct (best_day st) as [d|] eqn:Ed; [| discriminate].
  destruct (best_hour st) as [h|] eqn:Eh; [| discriminate].
  cbv zeta in Hrun.
  destruct (max_ordinal <? _) eqn:Eov; [discriminate|].
  unfold ret in Hrun. injection Hrun as <- <-.
  apply grid_search_invariant in Egs as (_ & _ & Hseen & Hbest).
  destruct (Hbest d h Ed Eh) as [Hin Htot]. apply In_grid in Hin.
  exists cols, hi, di, d, h, (best_engagement st).
  split; [reflexivity|]. split; [exact Ehi|]. split; [exact Edi|].
  split; [exact Hin|]. split; [exact Htot|].
  split; [intros day hour Hd Hh; apply Hseen, In_grid; auto |].
  assert (Hwd : 0 <= weekday now <= 6) by (unfold weekday; Z.div_mod_to_equations; lia).
  set (k := (d - weekday now) mod 7) in *.
  assert (Hk : 0 <= k <= 6 /\ (k = 0 <-> weekday now = d)
               /\ (ordinal now + k + 6) mod 7 = d).
  { unfold k, weekday in *. Z.div_mod_to_equations. lia. }
  destruct Hk as (Hk1 & Hk2 & Hk3). simpl.
  destruct ((k =? 0) && (h <=? hour now)) eqn:Eroll.
  - apply andb_prop in Eroll as [E1 E2]. apply Z.eqb_eq in E1. apply Z.leb_le in E2.
    assert (Hday : weekday now = d) by now apply Hk2.
    repeat split; try lia.
    + unfold weekday in *. simpl. Z.div_mod_to_equations. lia.
    + apply datetime_ltb_by_date. simpl. lia.
    + intros c Hc. apply datetime_ltb_by_date. simpl.
      apply datetime_not_later in Hc. lia.
  - assert (Hnot : k <> 0 \/ hour now < h).
    { apply andb_false_iff in Eroll as [E|E]; [left; now apply Z.eqb_neq | right; now apply Z.leb_gt]. }
    repeat split; try lia.
    + unfold weekday. simpl. exact Hk3.
    + destruct (Z.eq_dec k 0) as [Hz|Hz].
      * apply datetime_ltb_by_hour; simpl; lia.
      * apply datetime_ltb_by_date. simpl. lia.
    + intros c Hc. apply datetime_not_later in Hc.
      destruct (Z.eq_dec k 0) as [Hz|Hz].
      * destruct Hc as [Hc|[Hc1 Hc2]].
        -- apply datetime_ltb_by_date. simpl. lia.
        -- apply datetime_ltb_by_hour; simpl; lia.
      * apply datetime_ltb_by_date. simpl. lia.
Qed.

End Recommendation.

(* ================================================================= *)
(** ** The theorems at concrete inputs *)

Section Witnesses.

Import EngagementModel.

(** C1 at a model fitted on [text_length], [hour_of_day], [day_of_week] and
    computed features [hour_of_day], [text_length], [media_type]. *)
Lemma reconcile_columns_parity_witness :
  exists w' out,
    Main.reconcile_columns Spec.raw_features Spec.zero_world = (w', Returned out)
    /\ Frame.columns out = ["text_length"; "hour_of_day"; "day_of_week"]
    /\ Frame.nrows out = Frame.nrows Spec.raw_features
    /\ (forall n, In n ["text_length"; "hour_of_day"; "day_of_week"] ->
          Frame.has_col n Spec.raw_features = false ->
          Frame.get_col n out = Some (repeat (Frame.CInt 0) (Frame.nrows Spec.raw_features)))
    /\ (forall n v, In n ["text_length"; "hour_of_day"; "day_of_week"] ->
          Frame.get_col n Spec.raw_features = Some v -> Frame.get_col n out = Some v)
    /\ (forall n, ~ In n ["text_length"; "hour_of_day"; "day_of_week"] ->
          Frame.get_col n out = None)
    /\ Spec.only_logged Spec.zero_world w'.
Proof.
  apply (reconcile_columns_parity Spec.raw_features
           ["text_length"; "hour_of_day"; "day_of_week"] Spec.zero_world).
  - reflexivity.
  - discriminate.
  - repeat (constructor; [simpl; intuition discriminate|]). constructor.
Defined.

Example reconcile_columns_example :
  snd (Main.reconcile_columns Spec.raw_features Spec.zero_world)
  = Returned (Frame.mk 1 [("text_length", [Frame.CInt 51]);
                          ("hour_of_day", [Frame.CInt 14]);
                          ("day_of_week", [Frame.CInt 0])]).
Proof. vm_compute. reflexivity. Qed.

(** Without fitted names the block is skipped and the features go
    through as they are. *)
Example reconcile_columns_skipped :
  Main.reconcile_columns Spec.raw_features Spec.fresh_world
  = (Spec.fresh_world, Returned Spec.raw_features).
Proof. reflexivity. Qed.

(** C2 at the three example requests, and at a model whose R2 is NaN. *)
Example confidence_score_examples :
  snd (Main.confidence_score Spec.edge_post Spec.example_prediction Spec.fresh_world)
  = Returned (0.7 * (1.0 * 0.9 * 0.9) * 1.0)%float
  /\ snd (Main.confidence_score Spec.ageless_post Spec.example_prediction Spec.fresh_world)
     = Returned 0.7%float
  /\ snd (Main.confidence_score Spec.video_post Spec.example_prediction Spec.fresh_world)
     = Returned (0.7 * (1.0 * 0.9) * 1.0)%float
  /\ snd (Main.confidence_score Spec.video_post Spec.example_prediction Spec.nan_metrics_world)
     = Returned (0.9 * (1.0 * 0.9) * 1.0)%float
  /\ snd (Main.confidence_score Spec.edge_post
            [("likes", Frame.CFloat 1); ("shares", Frame.CFloat 0); ("comments", Frame.CFloat 0)]
            Spec.fresh_world)
     = Returned 0.5%float.
Proof. repeat split; vm_compute; reflexivity. Qed.

(** C5 at [peak_world]: asked on a Wednesday at 18:45, the search picks
    Wednesday 18h, which has passed today, so the recommendation is the
    Wednesday one week later. *)
Example recommend_post_time_example :
  recommend_post_time Spec.example_input None Spec.example_now Spec.peak_world
  = (Spec.peak_world, Returned (Some Spec.example_recommendation)).
Proof. vm_compute. reflexivity. Qed.

Lemma recommend_post_time_in_grid_and_future_witness :
  exists cols hour_idx day_idx best_day best_hour total,
    feature_names (engagement_model Spec.peak_world) = Some cols
    /\ index_of "hour_of_day" cols = Returned hour_idx
    /\ index_of "day_of_week" cols = Returned day_idx
    /\ (0 <= best_day <= 6 /\ 0 <= best_hour <= 23)
    /\ Spec.grid_total (model (engagement_model Spec.peak_world)) hour_idx day_idx
         Spec.example_input best_day best_hour
       = Returned total
    /\ (forall day hour, 0 <= day <= 6 -> 0 <= hour <= 23 ->
          exists t,
            Spec.grid_total (model (engagement_model Spec.peak_world)) hour_idx day_idx
              Spec.example_input day hour
            = Returned t
            /\ (total <? t)%float = false)
    /\ (weekday Spec.example_recommendation = best_day
        /\ hour Spec.example_recommendation = best_hour
        /\ minute Spec.example_recommendation = 0
        /\ second Spec.example_recommendation = 0
        /\ microsecond Spec.example_recommendation = 0)
    /\ datetime_ltb Spec.example_now Spec.example_recommendation = true
    /\ (forall call_time, datetime_ltb Spec.example_now call_time = false ->
          datetime_ltb call_time Spec.example_recommendation = true)
    /\ 0 <= ordinal Spec.example_recommendation - ordinal Spec.example_now <= 7
    /\ (ordinal Spec.example_recommendation - ordinal Spec.example_now = 7
        <-> weekday Spec.example_now = best_day /\ best_hour <= hour Spec.example_now)
    /\ Spec.peak_world = Spec.peak_world.
Proof.
  apply (recommend_post_time_in_grid_and_future
           Spec.example_input None Spec.example_now Spec.peak_world Spec.peak_world
           Spec.example_recommendation).
  vm_compute. reflexivity.
Defined.

(** When no combination has a total above -1, the best day and hour stay
    unset and the date arithmetic raises: there is no recommendation and
    no graceful [None] either. *)
Example recommend_post_time_no_best_raises :
  snd (recommend_post_time Spec.example_input None Spec.example_now
         {| engagement_model := {|
              model_type := "xgboost"; model_dir := "models";
              model := Some (ObjRegressor {|
                enable_categorical := None;
                run_predict := fun data =>
                  Returned (PredArray (map (fun _ => [(-2)%float; 0%float; 0%float]) data)) |});
              feature_names := Some ["text_length"; "hour_of_day"; "day_of_week"];
              target_names := ["likes"; "shares"; "comments"];
              metrics := ∅; feature_importance := [] |};
            feature_engineering := FeatureEngineering.init;
            files := ∅; logs := [] |})
  = Raised (TypeError "unsupported operand type(s) for -: 'NoneType' and 'int'").
Proof. vm_compute. reflexivity. Qed.

(** C9: saving a trained model and loading it into a fresh model object of
    the same directory restores the regressor and the metadata. *)
Example save_then_load :
  let saved := fst (save (Some "xgboost_engagement_20240101_120000")
                      "20240101_120000" "2024-01-01T12:00:00" Spec.peak_world) in
  let fresh := {| engagement_model := EngagementModel.init "xgboost" "models";
                  feature_engineering := FeatureEngineering.init;
                  files := files saved; logs := [] |} in
  engagement_model (fst (load "xgboost_engagement_20240101_120000" fresh))
  = engagement_model Spec.peak_world
  /\ snd (load "xgboost_engagement_20240101_120000" fresh) = Returned tt
  /\ snd (load "xgboost_engagement_20240101_130000" fresh)
     = Raised (FileNotFoundError
                 "Model file not found: models/xgboost_engagement_20240101_130000.joblib")
  /\ engagement_model (fst (load "xgboost_engagement_20240101_130000" fresh))
     = EngagementModel.init "xgboost" "models".
Proof. vm_compute. repeat split. Qed.

End Witnesses.

(* ================================================================= *)
(** * Further properties of the code *)

(** ** Persistence round trips *)

Section RoundTrips.

Lemma string_app_assoc (a b c : string) : ((a ++ b) ++ c = a ++ (b ++ c))%string.
Proof.
  induction a as [|x a IH]; [reflexivity|].
  change (String x ((a ++ b) ++ c) = String x (a ++ (b ++ c)))%string. now rewrite IH.
Qed.



(** X3. [FeatureEngineering.save] followed by [load] of the same path, in
    any process that sees the saved file, returns [True] and leaves the
    loading pipeline with exactly the five attributes of the saved one. *)
Theorem feature_engineering_save_load (path : string) (w w2 : World) :
  files w2 !! path = files (fst (FeatureEngineering.save path w)) !! path ->
  exists w3,
    FeatureEngineering.load path w2 = (w3, Returned true)
    /\ feature_engineering w3 = feature_engineering w
    /\ engagement_model w3 = engagement_model w2
    /\ files w3 = files w2.
Proof.
  intros H. unfold FeatureEngineering.save, bind, FeatureEngineering.self in H.
  simpl in H. rewrite lookup_insert_eq in H.
  unfold FeatureEngineering.load, try_except, FeatureEngineering.load_body, bind, joblib_load.
  rewrite H. simpl. eexists. split; [reflexivity|]. simpl.
  destruct (feature_engineering w). repeat split.
Qed.

Lemma feature_engineering_save_load_witness :
  preprocessor (feature_engineering (Spec.fresh_process
            (files (fst (FeatureEngineering.save
                           "models/feature_engineering_20240101_120000.pkl"
                           Spec.fitted_world))))) = None
  /\ exists w3,
       FeatureEngineering.load "models/feature_engineering_20240101_120000.pkl"
         (Spec.fresh_process
            (files (fst (FeatureEngineering.save
                           "models/feature_engineering_20240101_120000.pkl"
                           Spec.fitted_world))))
       = (w3, Returned true)
       /\ feature_engineering w3 = feature_engineering Spec.fitted_world
       /\ engagement_model w3 = engagement_model (Spec.fresh_process
            (files (fst (FeatureEngineering.save
                           "models/feature_engineering_20240101_120000.pkl"
                           Spec.fitted_world))))
       /\ files w3 = files (Spec.fresh_process
            (files (fst (FeatureEngineering.save
                           "models/feature_engineering_20240101_120000.pkl"
                           Spec.fitted_world)))).
Proof.
  split; [reflexivity|].
  exact (feature_engineering_save_load "models/feature_engineering_20240101_120000.pkl"
           Spec.fitted_world
           (Spec.fresh_process
            (files (fst (FeatureEngineering.save
                           "models/feature_engineering_20240101_120000.pkl"
                           Spec.fitted_world))))
           eq_refl).
Defined.


(** [EngagementModel.load] when both files hold what [save] writes. *)
Lemma engagement_model_load_run filename w m mt fn tn mx fi ts :
  let em := engagement_model w in
  files w !! path_join (model_dir em) (filename ++ ".joblib")%string = Some (Pickle m) ->
  files w !! path_join (model_dir em) (filename ++ "_metadata.joblib")%string
  = Some (Pickle (ObjMetadata {| md_model_type := Some mt; md_feature_names := Some fn;
                                 md_target_names := Some tn; md_metrics := Some mx;
                                 md_feature_importance := Some fi;
                                 md_timestamp := ts |})) ->
  exists w',
    EngagementModel.load filename w = (w', Returned tt)
    /\ engagement_model w'
       = {| model_type := mt; model_dir := model_dir em;
            model := Some (Spec.restored_model (model_type em) m);
            feature_names := fn; target_names := tn;
            metrics := mx; feature_importance := fi |}
    /\ feature_engineering w' = feature_engineering w
    /\ files w' = files w.
Proof.
  intros em H1 H2. subst em. unfold EngagementModel.load.
  eapply bind_run_ex; [reflexivity|]. cbv beta zeta.
  eapply bind_run_ex; [apply path_exists_run|]. rewrite H1.
  rewrite bool_decide_eq_true_2 by eauto. cbn [negb]. cbv iota.
  eapply bind_run_ex; [apply path_exists_run|]. rewrite H2.
  rewrite bool_decide_eq_true_2 by eauto. cbn [negb]. cbv iota.
  eapply bind_run_ex; [unfold joblib_load; rewrite H1; reflexivity|].
  eapply bind_run_ex; [reflexivity|].
  cbv beta.
  match goal with |- context [bind EngagementModel.enable_categorical_support _ ?w0] =>
    destruct (enable_categorical_support_run w0 m eq_refl) as (w1 & R1 & R2 & R3 & R4) end.
  eapply bind_run_ex; [exact R1|].
  eapply bind_run_ex; [unfold joblib_load; rewrite R4; simpl; rewrite H2; reflexivity|].
  simpl. unfold bind, EngagementModel.self, subscript, ret. simpl. rewrite R2. simpl.
  eexists. split; [reflexivity|]. simpl. repeat split; assumption.
Qed.



(** X5. [get_feature_importance(top_n)] never raises and changes nothing;
    what it returns is a prefix of the stored mapping, in stored order:
    all of it without [top_n], its first [top_n] entries (all, when there
    are fewer) for [top_n >= 0], and all but its last [-top_n] entries for
    a negative [top_n]. *)
Theorem get_feature_importance_prefix (top_n : option Z) (w : World) :
  exists result rest,
    EngagementModel.get_feature_importance top_n w = (w, Returned result)
    /\ feature_importance (engagement_model w) = result ++ rest
    /\ match top_n with
       | None => rest = []
       | Some n =>
           len result
           = if n <? 0 then Z.max 0 (len (feature_importance (engagement_model w)) + n)
             else Z.min n (len (feature_importance (engagement_model w)))
       end.
Proof.
  unfold EngagementModel.get_feature_importance, bind, EngagementModel.self, ret.
  set (fi := feature_importance (engagement_model w)).
  destruct top_n as [n|].
  - unfold slice_to.
    destruct (n <? 0) eqn:E.
    + exists (firstn (Z.to_nat (len fi + n)) fi), (skipn (Z.to_nat (len fi + n)) fi).
      split; [reflexivity|]. split; [now rewrite firstn_skipn|].
      unfold len. rewrite length_firstn. apply Z.ltb_lt in E. lia.
    + exists (firstn (Z.to_nat n) fi), (skipn (Z.to_nat n) fi).
      split; [reflexivity|]. split; [now rewrite firstn_skipn|].
      unfold len. rewrite length_firstn. apply Z.ltb_ge in E. lia.
  - exists fi, []. split; [reflexivity|]. split; [now rewrite app_nil_r | reflexivity].
Qed.

End RoundTrips.

(* ================================================================= *)
(** ** Feature extraction: time of day, text, and the feature/target split *)

Section Extraction.

Import DataProcessor.

(** X6. The serving adapter's time-of-day indicator and the extractor's
    [time_category] are computed from the hour by two different bucket
    tables. On the hours of a day they name the same category except at
    5h, 17h, 21h, 22h and 23h. *)
Theorem time_category_train_serve (hour : Z) :
  0 <= hour <= 23 ->
  (Main.serving_time_category (Frame.CInt hour) = Returned (get_time_category hour)
   <-> ~ In hour [5; 17; 21; 22; 23]).
Proof.
  intros H.
  assert (Hc : hour = 0 \/ hour = 1 \/ hour = 2 \/ hour = 3 \/ hour = 4 \/ hour = 5
               \/ hour = 6 \/ hour = 7 \/ hour = 8 \/ hour = 9 \/ hour = 10 \/ hour = 11
               \/ hour = 12 \/ hour = 13 \/ hour = 14 \/ hour = 15 \/ hour = 16
               \/ hour = 17 \/ hour = 18 \/ hour = 19 \/ hour = 20 \/ hour = 21
               \/ hour = 22 \/ hour = 23) by lia.
  clear H.
  repeat (destruct Hc as [->|Hc]); try subst hour;
    (split; [intros E; try discriminate E; simpl; intuition discriminate
            | intros N; try reflexivity; exfalso; apply N; simpl; tauto]).
Qed.

Lemma time_category_train_serve_witness :
  Main.serving_time_category (Frame.CInt 17) = Returned (get_time_category 17)
  <-> ~ In 17 [5; 17; 21; 22; 23].
Proof. apply (time_category_train_serve 17). lia. Defined.

Lemma words_cons (c : N) (r : pystr) :
  words (c :: r)
  = if is_space c then words r
    else match r with
         | [] => [[c]]
         | c' :: _ =>
             if is_space c' then [c] :: words r
             else match words r with
                  | w :: ws => (c :: w) :: ws
                  | [] => [[c]]
                  end
         end.
Proof. reflexivity. Qed.

(** The words of a text, put together, are the text without its white
    space. *)
Lemma concat_words (x : pystr) :
  concat (words x) = List.filter (fun c => negb (is_space c)) x.
Proof.
  induction x as [|c r IH]; [reflexivity|]. rewrite words_cons.
  cbn [List.filter]. destruct (is_space c) eqn:Ec; cbn [negb]; [exact IH|].
  rewrite <- IH. destruct r as [|c' r']; [reflexivity|].
  remember (words (c' :: r')) as W. destruct (is_space c'); [reflexivity|].
  destruct W; reflexivity.
Qed.

(** Every word is non-empty and free of white space. *)
Lemma words_wellformed (x : pystr) :
  Forall (fun w => w <> [] /\ forallb (fun c => negb (is_space c)) w = true) (words x).
Proof.
  induction x as [|c r IH]; [constructor|]. rewrite words_cons.
  destruct (is_space c) eqn:Ec; [exact IH|].
  assert (Hc : [c] <> [] /\ forallb (fun c => negb (is_space c)) [c] = true).
  { split; [discriminate|]. simpl. now rewrite Ec. }
  destruct r as [|c' r']; [repeat constructor; apply Hc|].
  remember (words (c' :: r')) as W. destruct (is_space c').
  - constructor; [exact Hc | exact IH].
  - destruct W as [|w0 ws]; [repeat constructor; apply Hc|].
    inversion IH as [|? ? [Hw0 Hf] Hws]; subst. constructor; [|exact Hws].
    split; [discriminate|]. simpl. now rewrite Ec, Hf.
Qed.

Lemma filter_partition_length {A} (f : A -> bool) (l : list A) :
  (length l = length (List.filter f l) + length (List.filter (fun c => negb (f c)) l))%nat.
Proof.
  induction l as [|a l IH]; [reflexivity|]. simpl. destruct (f a); simpl; lia.
Qed.

Lemma filter_all_length {A} (f : A -> bool) (l : list A) :
  length (List.filter f l) = length l <-> forallb f l = true.
Proof.
  induction l as [|a l IH]; simpl; [tauto|].
  pose proof (filter_length_le f l). destruct (f a); simpl.
  - rewrite <- IH. lia.
  - split; [lia | discriminate].
Qed.

(** Two different characters, and white space: counted apart, they do not
    exceed the length of the text. *)
Lemma count_disjoint (a b : N) (x : pystr) :
  a <> b -> is_space a = false -> is_space b = false ->
  count_char a x + count_char b x + len (List.filter is_space x) <= len x.
Proof.
  intros Hab Ha Hb. unfold count_char, len.
  assert (H : (length (List.filter (fun c => (c =? a)%N) x)
               + length (List.filter (fun c => (c =? b)%N) x)
               + length (List.filter is_space x) <= length x)%nat); [|lia].
  induction x as [|c r IH]; [simpl; lia|]. cbn [List.filter].
  destruct (N.eqb_spec c a) as [Ea|Hca]; destruct (N.eqb_spec c b) as [Eb|Hcb].
  - congruence.
  - subst c. rewrite Ha. simpl. lia.
  - subst c. rewrite Hb. simpl. lia.
  - destruct (is_space c); simpl; lia.
Qed.

(** Leading white space carries no word. *)
Lemma words_skip_space (ws rest : pystr) :
  forallb is_space ws = true -> words (ws ++ rest) = words rest.
Proof.
  induction ws as [|c ws IH]; [reflexivity|]. cbn [forallb app].
  intros H. apply andb_true_iff in H as [Hc Hws].
  rewrite words_cons, Hc. exact (IH Hws).
Qed.

(** A run of characters that are not white space, followed by white space
    or by the end of the text, is one word. *)
Lemma words_run (w rest : pystr) :
  w <> [] ->
  forallb (fun c => negb (is_space c)) w = true ->
  match rest with [] => True | c :: _ => is_space c = true end ->
  words (w ++ rest) = w :: words rest.
Proof.
  intros Hne Hw Hrest. induction w as [|c w IH]; [congruence|].
  cbn [forallb] in Hw. apply andb_true_iff in Hw as [Hc Hw].
  apply negb_true_iff in Hc.
  change ((c :: w) ++ rest) with (c :: (w ++ rest)). rewrite words_cons, Hc.
  destruct w as [|c2 w].
  - cbn [app]. destruct rest as [|c' r]; [reflexivity|]. now rewrite Hrest.
  - change ((c2 :: w) ++ rest) with (c2 :: (w ++ rest)) in *.
    cbn [forallb] in Hw. pose proof Hw as Hw2.
    apply andb_true_iff in Hw2 as [Hc2 _]. apply negb_true_iff in Hc2.
    rewrite Hc2. rewrite IH; [reflexivity | discriminate | exact Hw].
Qed.

(** X7. Text features of any text: the length is the number of
    characters in its words plus its white-space characters; the words
    are the maximal runs of characters that are not white space: they are
    non-empty and free of white space, white space at the start carries
    no word, and a white-space-free run that is followed by white space or
    by the end of the text is one word, whatever its length; there are no
    words exactly when every character is white space (the empty text
    included), and then the average word length is 0 rather than the mean
    of an empty list; and the exclamation marks, question marks and
    white-space characters together never exceed the length. *)
Theorem text_features_spec (x : pystr) :
  text_length x = len (concat (words x)) + len (List.filter is_space x)
  /\ word_count x = len (words x)
  /\ Forall (fun w => w <> [] /\ forallb (fun c => negb (is_space c)) w = true) (words x)
  /\ (forall ws rest,
        x = ws ++ rest -> forallb is_space ws = true ->
        words x = words rest /\ word_count x = word_count rest)
  /\ (forall w rest,
        x = w ++ rest -> w <> [] ->
        forallb (fun c => negb (is_space c)) w = true ->
        match rest with [] => True | c :: _ => is_space c = true end ->
        words x = w :: words rest /\ word_count x = 1 + word_count rest)
  /\ 0 <= word_count x <= text_length x
  /\ (word_count x = 0 <-> forallb is_space x = true)
  /\ (word_count x = 0 -> avg_word_length x = 0%float)
  /\ (0 < word_count x ->
      avg_word_length x = np_mean (map (fun word => float_of_Z (len word)) (words x)))
  /\ exclamation_count x + question_count x + len (List.filter is_space x) <= text_length x.
Proof.
  assert (Hlen : len x = len (concat (words x)) + len (List.filter is_space x)).
  { rewrite concat_words. unfold len. rewrite (filter_partition_length is_space x). lia. }
  assert (Hwords : len (words x) <= len (concat (words x))).
  { pose proof (words_wellformed x) as Hw. unfold len.
    assert (H : (length (words x) <= length (concat (words x)))%nat); [|lia].
    generalize dependent (words x). intros l _ Hw.
    induction Hw as [|w ws [Hne _] _ IH]; [simpl; lia|].
    cbn [concat length]. rewrite length_app. destruct w; [congruence|].
    cbn [length]. lia. }
  assert (Hzero : word_count x = 0 <-> forallb is_space x = true).
  { unfold word_count. rewrite <- filter_all_length. split.
    - intros H. assert (E : words x = []) by (destruct (words x); [reflexivity | unfold len in H; simpl in H; lia]).
      rewrite E in Hlen. unfold len in Hlen. simpl in Hlen. lia.
    - intros H. unfold len in *. lia. }
  unfold text_length, word_count, avg_word_length, exclamation_count, question_count.
  split; [exact Hlen|]. split; [reflexivity|]. split; [apply words_wellformed|].
  split.
  { intros ws rest -> Hws. rewrite (words_skip_space ws rest Hws). split; reflexivity. }
  split.
  { intros w rest -> Hne Hw Hrest. rewrite (words_run w rest Hne Hw Hrest).
    split; [reflexivity|]. unfold len. cbn [length]. lia. }
  split; [unfold len in *; lia|]. split; [exact Hzero|].
  split; [intros H; rewrite H; reflexivity|].
  split.
  - intros H. apply Z.ltb_lt in H. now rewrite H.
  - apply count_disjoint; [discriminate | reflexivity | reflexivity].
Qed.

(** ["  hello  big worlds! "]: three words of 5, 3 and 7 characters. *)
Example text_features_example :
  words (str "  hello  big worlds! ") = [str "hello"; str "big"; str "worlds!"]
  /\ word_count (str "  hello  big worlds! ") = 3
  /\ avg_word_length (str "  hello  big worlds! ") = 5%float
  /\ text_length (str "  hello  big worlds! ") = 21
  /\ exclamation_count (str "  hello  big worlds! ") = 1.
Proof. repeat split; vm_compute; reflexivity. Qed.

End Extraction.

(* ================================================================= *)
(** ** Splitting into features and targets *)

Section Split.

Import Frame DataProcessor.

Lemma filter_nil_forall {A} (f : A -> bool) (l : list A) :
  List.filter f l = [] <-> forall a, In a l -> f a = false.
Proof.
  induction l as [|a l IH]; simpl; [tauto|]. destruct (f a) eqn:E.
  - split; [discriminate|]. intros H. specialize (H a (or_introl eq_refl)). congruence.
  - rewrite IH. split; [intros H b [<-|Hb]; auto | intros H b Hb; apply H; now right].
Qed.

(** Selecting labels of the frame itself returns them, each with its
    column. *)
Lemma select_present (names : list string) (df : t) :
  List.NoDup (columns df) ->
  (forall n, In n names -> has_col n df = true) ->
  select names df
  = Returned (mk (nrows df) (map (fun n => (n, Spec.reconciled_value df n)) names)).
Proof.
  intros Hnd Hall. apply select_spec; [exact Hnd|].
  intros n Hn. unfold Spec.reconciled_value.
  destruct (proj1 (has_col_lookup n df) (Hall n Hn)) as [v ->]. reflexivity.
Qed.

Lemma columns_named (names : list string) (value : string -> list cell) (n : nat) :
  columns (mk n (map (fun c => (c, value c)) names)) = names.
Proof. unfold columns. simpl. rewrite map_map. apply map_id. Qed.

(** X8. [split_data] on a frame that lacks a target column logs the error
    and raises [ValueError] without calling the splitter; the log record
    and the exception carry the same text, "Missing target columns: "
    followed by the list of the missing targets, in the order likes,
    shares, comments, each in quotes. On a frame with distinct labels
    that has the three targets, the splitter is called with a feature
    frame [X] and a target frame [y], and [split_data] returns what the
    splitter returns: [y] has exactly the columns [likes], [shares],
    [comments]; [X] has, in the frame's order, exactly the columns that
    are neither a target nor [post_id], [timestamp], [post_text],
    [hashtags]; every column keeps its values. *)
Theorem split_data_spec
    (train_test_split : Frame.t -> Frame.t -> outcome (Frame.t * Frame.t * Frame.t * Frame.t))
    (df : Frame.t) (w : World) :
  List.NoDup (columns df) ->
  ((exists t, In t target_cols /\ has_col t df = false) ->
   exists missing_targets,
     missing_targets <> []
     /\ (forall t, In t missing_targets <-> In t target_cols /\ has_col t df = false)
     /\ missing_targets = List.filter (fun t => negb (has_col t df)) target_cols
     /\ split_data train_test_split df w
        = ({| engagement_model := engagement_model w;
              feature_engineering := feature_engineering w;
              files := files w;
              logs := logs w ++ [(ERROR, ("Missing target columns: ["
                                         ++ String.concat ", "
                                              (map (fun t => "'" ++ t ++ "'") missing_targets)
                                         ++ "]")%string)] |},
           Raised (ValueError ("Missing target columns: ["
                               ++ String.concat ", "
                                    (map (fun t => "'" ++ t ++ "'") missing_targets)
                               ++ "]")%string)))
  /\ ((forall t, In t target_cols -> has_col t df = true) ->
      exists X y,
        snd (split_data train_test_split df w) = train_test_split X y
        /\ columns y = target_cols
        /\ columns X = List.filter (fun c => negb (mem c non_feature_cols)) (columns df)
        /\ (forall c, In c (columns X) <-> In c (columns df) /\ ~ In c non_feature_cols)
        /\ (forall c v, get_col c df = Some v ->
              (In c target_cols -> get_col c y = Some v)
              /\ (~ In c non_feature_cols -> get_col c X = Some v))
        /\ nrows X = nrows df /\ nrows y = nrows df).
Proof.
  intros Hnd. split.
  - intros (t & Ht & Hc). unfold split_data.
    destruct (List.filter (fun col => negb (has_col col df)) target_cols) as [|m ms] eqn:E.
    + exfalso. rewrite filter_nil_forall in E. specialize (E t Ht). rewrite Hc in E.
      discriminate.
    + exists (m :: ms). split; [discriminate|]. split; [|split; reflexivity].
      intros t0. rewrite <- E, filter_In, negb_true_iff. reflexivity.
  - intros Hall. unfold split_data.
    assert (E : List.filter (fun col => negb (has_col col df)) target_cols = []).
    { apply filter_nil_forall. intros t Ht. now rewrite (Hall t Ht). }
    rewrite E.
    set (feature_cols := List.filter (fun c => negb (mem c non_feature_cols)) (columns df)).
    assert (HX : select feature_cols df
                 = Returned (mk (nrows df)
                               (map (fun n => (n, Spec.reconciled_value df n)) feature_cols))).
    { apply select_present; [exact Hnd|]. intros n Hn. apply filter_In in Hn as [Hn _].
      now apply mem_In. }
    assert (Hy : select target_cols df
                 = Returned (mk (nrows df)
                               (map (fun n => (n, Spec.reconciled_value df n)) target_cols))).
    { apply select_present; assumption. }
    exists (mk (nrows df) (map (fun n => (n, Spec.reconciled_value df n)) feature_cols)),
           (mk (nrows df) (map (fun n => (n, Spec.reconciled_value df n)) target_cols)).
    split.
    { unfold bind, lift. rewrite HX, Hy.
      unfold log, ret. destruct (train_test_split _ _) as [p|e]; reflexivity. }
    split; [apply columns_named|]. split; [apply columns_named|].
    split.
    { intros c. rewrite columns_named. unfold feature_cols. rewrite filter_In.
      rewrite negb_true_iff, mem_false. tauto. }
    split; [|split; reflexivity].
    intros c v Hv. unfold get_col. cbn [cols]. rewrite !lookup_col_named. split.
    + intros Hc. apply (proj2 (mem_In c target_cols)) in Hc. rewrite Hc. unfold Spec.reconciled_value.
      now rewrite Hv.
    + intros Hc. assert (Hm : mem c feature_cols = true).
      { apply mem_In. unfold feature_cols. rewrite filter_In. split.
        - apply mem_In, has_col_lookup. eauto.
        - apply negb_true_iff, mem_false. exact Hc. }
      rewrite Hm. unfold Spec.reconciled_value. now rewrite Hv.
Qed.

Lemma split_data_spec_witness :
  ((exists t, In t target_cols /\ has_col t Spec.training_frame = false) ->
   exists missing_targets,
     missing_targets <> []
     /\ (forall t, In t missing_targets
                   <-> In t target_cols /\ has_col t Spec.training_frame = false)
     /\ missing_targets
        = List.filter (fun t => negb (has_col t Spec.training_frame)) target_cols
     /\ split_data Spec.head_tail_split Spec.training_frame Spec.fresh_world
        = ({| engagement_model := engagement_model Spec.fresh_world;
              feature_engineering := feature_engineering Spec.fresh_world;
              files := files Spec.fresh_world;
              logs := logs Spec.fresh_world
                      ++ [(ERROR, ("Missing target columns: ["
                                   ++ String.concat ", "
                                        (map (fun t => "'" ++ t ++ "'") missing_targets)
                                   ++ "]")%string)] |},
           Raised (ValueError ("Missing target columns: ["
                               ++ String.concat ", "
                                    (map (fun t => "'" ++ t ++ "'") missing_targets)
                               ++ "]")%string)))
  /\ ((forall t, In t target_cols -> has_col t Spec.training_frame = true) ->
      exists X y,
        snd (split_data Spec.head_tail_split Spec.training_frame Spec.fresh_world)
        = Spec.head_tail_split X y
        /\ columns y = target_cols
        /\ columns X
           = List.filter (fun c => negb (mem c non_feature_cols)) (columns Spec.training_frame)
        /\ (forall c, In c (columns X)
                      <-> In c (columns Spec.training_frame) /\ ~ In c non_feature_cols)
        /\ (forall c v, get_col c Spec.training_frame = Some v ->
              (In c target_cols -> get_col c y = Some v)
              /\ (~ In c non_feature_cols -> get_col c X = Some v))
        /\ nrows X = nrows Spec.training_frame /\ nrows y = nrows Spec.training_frame).
Proof.
  apply (split_data_spec Spec.head_tail_split Spec.training_frame Spec.fresh_world).
  repeat (constructor; [simpl; intuition discriminate|]). constructor.
Defined.

(** The split of [Spec.training_frame]: features [hour_of_day] and
    [follower_count], targets in the order likes, shares, comments. *)
Example split_data_example :
  snd (split_data Spec.head_tail_split Spec.training_frame Spec.fresh_world)
  = Returned
      (mk 1 [("hour_of_day", [CInt 9]); ("follower_count", [CInt 120])],
       mk 1 [("hour_of_day", [CInt 20]); ("follower_count", [CInt 5000])],
       mk 1 [("likes", [CInt 10]); ("shares", [CInt 1]); ("comments", [CInt 0])],
       mk 1 [("likes", [CInt 250]); ("shares", [CInt 30]); ("comments", [CInt 12])]).
Proof. vm_compute. reflexivity. Qed.

(** A frame that has [shares] but neither [likes] nor [comments]: the
    message names those two, in target order. *)
Example split_data_missing_two :
  split_data Spec.head_tail_split
    (mk 1 [("shares", [CInt 3]); ("hour_of_day", [CInt 9])]) Spec.fresh_world
  = ({| engagement_model := engagement_model Spec.fresh_world;
        feature_engineering := feature_engineering Spec.fresh_world;
        files := files Spec.fresh_world;
        logs := [(ERROR, "Missing target columns: ['likes', 'comments']")] |},
     Raised (ValueError "Missing target columns: ['likes', 'comments']")).
Proof. vm_compute. reflexivity. Qed.

(** On the raw features of one post, which carry no targets, [split_data]
    raises. *)
Example split_data_missing_targets :
  snd (split_data Spec.head_tail_split Spec.raw_features Spec.fresh_world)
  = Raised (ValueError "Missing target columns: ['likes', 'shares', 'comments']").
Proof. vm_compute. reflexivity. Qed.

End Split.

(* ================================================================= *)
(** ** The labels of transformed features *)

Section TransformLabels.

Import Frame.

Lemma imap_labels {A B} (g : nat -> A -> B) (l : list A) :
  map fst (imap (fun j n => (n, g j n)) l) = l.
Proof.
  revert g. induction l as [|a l IH]; intros g; simpl; [reflexivity|].
  f_equal. exact (IH (fun j => g (S j))).
Qed.

Lemma of_rows_columns (names : list string) (m : list (list float)) (d : t) :
  of_rows names m = Returned d -> columns d = names /\ nrows d = length m.
Proof.
  unfold of_rows. destruct (forallb _ m); [|discriminate].
  intros [= <-]. unfold columns. simpl. split; [|reflexivity].
  exact (imap_labels (fun j _ => map (fun r => CFloat (nth j r nan)) m) names).
Qed.

(** X9. When [transform] of a fitted pipeline returns a frame, the labels
    of the frame are the names [get_feature_names] reports, in order,
    except when a text vectorizer is fitted and the input has no text
    column: then the frame carries the preprocessor's names only, without
    the [tfidf_] names that [get_feature_names] still lists. *)
Theorem transform_columns (df out : Frame.t) (w : World) :
  preprocessor (feature_engineering w) <> None ->
  snd (FeatureEngineering.transform df w) = Returned out ->
  let fe := feature_engineering w in
  columns out
  = match tfidf_vectorizer fe with
    | Some tv =>
        if has_col (text_feature fe) df
        then FeatureEngineering.get_feature_names fe
        else FeatureEngineering._get_feature_names fe
    | None => FeatureEngineering.get_feature_names fe
    end.
Proof.
  intros Hfit Hrun fe. unfold FeatureEngineering.get_feature_names.
  unfold FeatureEngineering.transform, FeatureEngineering.self, bind, log, lift, ret in Hrun.
  cbn [feature_engineering] in Hrun. fold fe in Hrun.
  destruct (preprocessor fe) as [ct|] eqn:Ect; [|exfalso; apply Hfit; exact Ect].
  destruct (ct_transform ct df) as [tf|e]; [|discriminate].
  destruct (of_rows (FeatureEngineering._get_feature_names fe) tf) as [d|e] eqn:Ed;
    [|discriminate].
  apply of_rows_columns in Ed as [Ed _].
  destruct (tfidf_vectorizer fe) as [tv|] eqn:Etv.
  - unfold has_col. destruct (get_col (text_feature fe) df) as [text|] eqn:Etext.
    + assert (Hc : mem (text_feature fe) (columns df) = true).
      { apply has_col_lookup. eauto. }
      rewrite Hc.
      destruct (tfidf_transform tv _) as [tx|e]; [|discriminate].
      destruct (of_rows _ tx) as [td|e] eqn:Etd; [|discriminate].
      apply of_rows_columns in Etd as [Etd _].
      simpl in Hrun. injection Hrun as <-.
      unfold columns, concat_columns. cbn [cols]. rewrite map_app.
      unfold columns in Ed, Etd. now rewrite Ed, Etd.
    + assert (Hc : mem (text_feature fe) (columns df) = false).
      { destruct (mem (text_feature fe) (columns df)) eqn:Hm; [|reflexivity].
        apply has_col_lookup in Hm as [v Hv]. unfold get_col in *. congruence. }
      rewrite Hc. simpl in Hrun. injection Hrun as <-. exact Ed.
  - assert (Hout : d = out).
    { destruct (get_col (text_feature fe) df); simpl in Hrun; congruence. }
    subst out. now rewrite app_nil_r.
Qed.

Lemma transform_columns_witness :
  preprocessor (feature_engineering Spec.fitted_world) <> None
  /\ snd (FeatureEngineering.transform Spec.text_frame Spec.fitted_world)
     = Returned Spec.text_frame_transformed
  /\ columns Spec.text_frame_transformed
     = FeatureEngineering.get_feature_names Spec.fitted_pipeline.
Proof.
  refine ((fun (H1 : preprocessor (feature_engineering Spec.fitted_world) <> None)
               (H2 : snd (FeatureEngineering.transform Spec.text_frame Spec.fitted_world)
                     = Returned Spec.text_frame_transformed) =>
             conj H1 (conj H2 (transform_columns Spec.text_frame Spec.text_frame_transformed
                                 Spec.fitted_world H1 H2))) _ _).
  - discriminate.
  - vm_compute. reflexivity.
Defined.

(** Without the text column the [tfidf_] names are missing from the
    result, while [get_feature_names] lists them. *)
Example transform_without_text :
  option_map columns
    (match snd (FeatureEngineering.transform
                  (mk 1 [("text_length", [CInt 11]); ("hour_of_day", [CInt 14]);
                         ("media_type", [CNone])])
                  Spec.fitted_world) with
     | Returned d => Some d
     | Raised _ => None
     end)
  = Some ["text_length"; "hour_of_day"; "media_type_image"; "media_type_video"]
  /\ FeatureEngineering.get_feature_names Spec.fitted_pipeline
     = ["text_length"; "hour_of_day"; "media_type_image"; "media_type_video";
        "tfidf_ai"; "tfidf_tech"].
Proof. split; vm_compute; reflexivity. Qed.

End TransformLabels.

(* ================================================================= *)
(** ** The recommendation block of the serving adapter *)

Section RecommendationBlock.

Ltac split_matches :=
  repeat match goal with
         | |- context [match ?x with _ => _ end] => destruct x eqn:?
         | |- context [if ?x then _ else _] => destruct x eqn:?
         end.

(** The recommender writes log records and nothing else. *)
Lemma recommend_post_time_only_logged X fc now w :
  Spec.only_logged w (fst (EngagementModel.recommend_post_time X fc now w)).
Proof.
  unfold EngagementModel.recommend_post_time, EngagementModel.self, bind, log, ret, raise.
  cbv beta iota.
  split_matches; cbn [fst]; try apply only_logged_refl;
    (split; [reflexivity | split; [reflexivity | split; [reflexivity | eexists; reflexivity]]]).
Qed.

(** What the recommender returns depends on the model object only, not on
    the log or the files. *)
Lemma recommend_post_time_stable X fc now w1 w2 :
  engagement_model w1 = engagement_model w2 ->
  snd (EngagementModel.recommend_post_time X fc now w1)
  = snd (EngagementModel.recommend_post_time X fc now w2).
Proof.
  intros E.
  unfold EngagementModel.recommend_post_time, EngagementModel.self, bind, log, ret, raise.
  cbv beta iota. rewrite E.
  split_matches; reflexivity.
Qed.

(** X10. The block of [predict_engagement] that asks for a recommended
    post time never raises and writes log records only. Its value is the
    ISO text of the datetime the recommender returns for the model's own
    feature names, and [None] whenever the recommender returns [None] or
    raises (a search that found no best slot, a date out of range). *)
Theorem recommended_post_time_total
    (isoformat : EngagementModel.datetime -> string)
    (features_array : Frame.ndarray) (now : EngagementModel.datetime) (w : World) :
  exists w' r,
    Main.recommended_post_time isoformat features_array now w = (w', Returned r)
    /\ Spec.only_logged w w'
    /\ r = match snd (EngagementModel.recommend_post_time features_array
                        (feature_names (engagement_model w)) now w) with
           | Returned (Some t) => Some (isoformat t)
           | _ => None
           end.
Proof.
  unfold Main.recommended_post_time, try_except.
  unfold bind at 1. 
  destruct (log_only_logged INFO "Features array type and shape" w) as (w1 & E1 & L1).
  rewrite E1. unfold bind at 1. unfold EngagementModel.self at 1. cbv beta iota.
  unfold bind at 1.
  destruct (log_only_logged INFO "Feature names" w1) as (w2 & E2 & L2).
  rewrite E2. unfold bind at 1.
  assert (L12 : Spec.only_logged w w2) by eauto using only_logged_trans.
  assert (Em1 : engagement_model w1 = engagement_model w) by apply L1.
  assert (Em2 : engagement_model w2 = engagement_model w) by apply L12.
  rewrite Em1.
  pose proof (recommend_post_time_only_logged features_array
                (feature_names (engagement_model w)) now w2) as L3.
  rewrite <- (recommend_post_time_stable features_array
                (feature_names (engagement_model w)) now w2 w Em2).
  destruct (EngagementModel.recommend_post_time features_array
              (feature_names (engagement_model w)) now w2) as [w3 [[t|]|e]];
    cbn [fst snd] in *.
  - eexists _, _. split; [reflexivity|]. split; [eauto using only_logged_trans | reflexivity].
  - eexists _, _. split; [reflexivity|]. split; [eauto using only_logged_trans | reflexivity].
  - destruct (log_only_logged WARNING "Error recommending post time" w3) as (w4 & E4 & L4).
    unfold bind. rewrite E4. eexists _, _. split; [reflexivity|].
    split; [eauto using only_logged_trans | reflexivity].
Qed.

(** With an estimator whose totals never exceed -1 the recommender raises
    on its date arithmetic; the block answers [None]. *)
Example recommended_post_time_no_best :
  snd (Main.recommended_post_time (fun _ => "2024-01-10T18:00:00")
         Spec.example_input Spec.example_now
         {| engagement_model := {|
              model_type := "xgboost"; model_dir := "models";
              model := Some (ObjRegressor {|
                enable_categorical := None;
                run_predict := fun data =>
                  Returned (PredArray (map (fun _ => [(-2)%float; 0%float; 0%float]) data)) |});
              feature_names := Some ["text_length"; "hour_of_day"; "day_of_week"];
              target_names := ["likes"; "shares"; "comments"];
              metrics := ∅; feature_importance := [] |};
            feature_engineering := FeatureEngineering.init;
            files := ∅; logs := [] |})
  = Returned None.
Proof. vm_compute. reflexivity. Qed.

End RecommendationBlock.

(* ================================================================= *)
(** ** The frame [predict] builds from a 2-D array of predictions *)

Section PredictFrame.

Import Frame.

Lemma map_nth_seq_id {A} (l : list A) (d : A) :
  map (fun i => nth i l d) (seq 0 (length l)) = l.
Proof.
  induction l as [|a l IH]; simpl; [reflexivity|].
  f_equal. rewrite <- seq_shift, map_map. exact IH.
Qed.

Lemma imap_nth_row {A B C} (F : B -> C) (names : list A) (r : list B) (d : B) :
  length r = length names ->
  imap (fun j _ => F (nth j r d)) names = map F r.
Proof.
  revert r. induction names as [|n names IH]; intros [|b r] H; simpl in *;
    try discriminate; [reflexivity|].
  f_equal. apply (IH r). congruence.
Qed.

(** The rows of a frame built from a matrix are the rows of the matrix. *)
Lemma values_of_rows (names : list string) (m : list (list float)) :
  forallb (fun r => (length r =? length names)%nat) m = true ->
  values (mk (length m) (imap (fun j n => (n, map (fun r => CFloat (nth j r nan)) m)) names))
  = map (map CFloat) m.
Proof.
  intros H. unfold values, row. cbn [nrows cols].
  transitivity (map (map CFloat) (map (fun i => nth i m []) (seq 0 (length m))));
    [|now rewrite map_nth_seq_id].
  rewrite map_map.
  apply map_ext_in. intros i Hi. apply in_seq in Hi.
  rewrite forallb_forall in H.
  assert (Hr : length (nth i m []) = length names).
  { apply Nat.eqb_eq, H, nth_In. lia. }
  rewrite <- (imap_nth_row CFloat names (nth i m []) nan Hr).
  change (map ?f (imap ?g names)) with (f <$> imap g names).
  rewrite fmap_imap. apply imap_ext. intros j n _. simpl.
  rewrite (nth_indep _ CNone (CFloat (nth j [] nan))) by (rewrite length_map; lia).
  now rewrite (map_nth (fun r => CFloat (nth j r nan))).
Qed.

Lemma row_sum_floats (r : list float) :
  EngagementModel.row_sum (map CFloat r)
  = np_sum (map (fun f => if is_nan f then 0%float else f) r).
Proof.
  unfold EngagementModel.row_sum. f_equal.
  induction r as [|f r IH]; simpl; [reflexivity|]. now rewrite IH.
Qed.

Lemma levels_of_samples (samples : list (list float)) :
  map (fun t => EngagementModel.level_cell (EngagementModel.cut t))
      (map EngagementModel.row_sum (map (map CFloat) samples))
  = map Spec.sample_level samples.
Proof.
  rewrite !map_map. apply map_ext. intros s. unfold Spec.sample_level.
  now rewrite row_sum_floats.
Qed.

(** X11. [predict] on a trained model whose estimator answers with a 2-D
    array: when every sample has one entry per target name, the result
    has one row per sample, a column per target holding that entry of
    every sample, and a last column [engagement_level] holding, for each
    sample, the label of the sum of its entries (NaN entries counted as
    zero); the model and the log are untouched. When some sample has
    another length, [predict] raises [ValueError]. *)
Theorem predict_array (X : Frame.t) (w : World) (r : Regressor)
    (samples : list (list float)) :
  model (engagement_model w) = Some (ObjRegressor r) ->
  run_predict r (values X) = Returned (PredArray samples) ->
  ~ In "engagement_level" (target_names (engagement_model w)) ->
  let targets := target_names (engagement_model w) in
  EngagementModel.predict X w
  = (w, if forallb (fun s => (length s =? length targets)%nat) samples
        then Returned
               (mk (length samples)
                   (imap (fun j n => (n, map (fun s => CFloat (nth j s nan)) samples)) targets
                    ++ [("engagement_level", map Spec.sample_level samples)]))
        else Raised (ValueError "Shape of passed values does not match the columns")).
Proof.
  intros Hm Hp Hl targets.
  unfold EngagementModel.predict, EngagementModel.self, bind, lift, ret.
  cbv beta iota. rewrite Hm. cbn [EngagementModel.model_predict]. rewrite Hp.
  cbv beta iota. unfold of_rows. fold targets.
  destruct (forallb _ samples) eqn:Hshape; [|reflexivity].
  cbv beta iota. rewrite (values_of_rows targets samples Hshape).
  f_equal. f_equal. unfold set_col.
  assert (Hc : has_col "engagement_level"
                 (mk (length samples)
                    (imap (fun j n => (n, map (fun s => CFloat (nth j s nan)) samples)) targets))
               = false).
  { unfold has_col, columns. cbn [cols].
    rewrite (imap_labels (fun j _ => map (fun s => CFloat (nth j s nan)) samples) targets).
    now apply mem_false. }
  rewrite Hc. cbn [nrows cols]. now rewrite levels_of_samples.
Qed.

Lemma predict_array_witness :
  EngagementModel.predict Spec.two_posts Spec.peak_world
  = (Spec.peak_world,
     Returned (mk 2 [("likes", [CFloat 90%float; CFloat 40%float]);
                     ("shares", [CFloat 5%float; CFloat 5%float]);
                     ("comments", [CFloat 2.5%float; CFloat 2.5%float]);
                     ("engagement_level", [CStr (str "medium"); CStr (str "low")])])).
Proof.
  apply (predict_array Spec.two_posts Spec.peak_world Spec.peak_regressor
           [[90%float; 5%float; 2.5%float]; [40%float; 5%float; 2.5%float]]).
  - reflexivity.
  - vm_compute. reflexivity.
  - simpl. intuition discriminate.
Defined.

(** A sample whose entries sum to zero gets no level: the cell is
    missing. *)
Example predict_array_zero :
  snd (EngagementModel.predict Spec.raw_features Spec.zero_world)
  = Returned (mk 1 [("likes", [CFloat 0%float]); ("shares", [CFloat 0%float]);
                    ("comments", [CFloat 0%float]); ("engagement_level", [CNone])]).
Proof. vm_compute. reflexivity. Qed.

End PredictFrame.

(* ================================================================= *)
(** ** The indicator columns of the serving adapter *)

Section ServingFeatures.

Import Frame.

Lemma fin_cmp_antisym e1 m1 e2 m2 :
  Spec.fin_cmp e2 m2 e1 m1 = CompOpp (Spec.fin_cmp e1 m1 e2 m2).
Proof.
  unfold Spec.fin_cmp. rewrite (Z.compare_antisym e1 e2), (Pos.compare_antisym m1 m2).
  destruct (e1 ?= e2)%Z; reflexivity.
Qed.

Lemma SFcompare_Lt_Gt (x y : spec_float) :
  SFcompare x y = Some Lt -> SFcompare y x = Some Gt.
Proof.
  destruct x as [sx|sx| |sx mx ex], y as [sy|sy| |sy my ey];
    rewrite ?SFcompare_finite; try (simpl; discriminate);
    try (destruct sx; simpl; congruence);
    try (destruct sy; simpl; congruence);
    try (destruct sx, sy; simpl; congruence).
  rewrite (fin_cmp_antisym ex mx ey my).
  destruct sx, sy, (Spec.fin_cmp ex mx ey my); simpl; congruence.
Qed.

(** [x < y] excludes [y <= x]. *)
Lemma ltb_not_leb (x y : float) : (x <? y)%float = true -> (y <=? x)%float = false.
Proof.
  rewrite FloatAxioms.ltb_spec, FloatAxioms.leb_spec. unfold SFltb, SFleb.
  destruct (SFcompare (Prim2SF x) (Prim2SF y)) as [[]|] eqn:E; try discriminate.
  now rewrite (SFcompare_Lt_Gt _ _ E).
Qed.

Lemma get_set_scalar name m c df :
  get_col name (set_scalar m c df)
  = if String.eqb name m then Some (repeat c (nrows df)) else get_col name df.
Proof. unfold set_scalar. apply get_set_col. Qed.

Lemma set_scalar_nrows m c df : nrows (set_scalar m c df) = nrows df.
Proof. unfold set_scalar. apply set_col_nrows. Qed.

(** Filling the labels that are missing: existing columns stay, missing
    ones become columns of zeros. *)
Lemma fill_missing_spec (fs : list string) (df : t) :
  let df' := fold_left (fun d f => if has_col f d then d else set_scalar f (CInt 0) d) fs df in
  nrows df' = nrows df
  /\ forall name, get_col name df' =
       match get_col name df with
       | Some v => Some v
       | None => if mem name fs then Some (repeat (CInt 0) (nrows df)) else None
       end.
Proof.
  revert df. induction fs as [|f fs IH]; intros df; cbn [fold_left].
  - split; [reflexivity|]. intros name. now destruct (get_col name df).
  - destruct (IH (if has_col f df then df else set_scalar f (CInt 0) df)) as (H1 & H2).
    assert (Hn : nrows (if has_col f df then df else set_scalar f (CInt 0) df) = nrows df).
    { destruct (has_col f df); [reflexivity | apply set_scalar_nrows]. }
    split; [now rewrite H1|].
    intros name. rewrite H2, Hn. unfold mem at 2. cbn [existsb]. fold (mem name fs).
    destruct (has_col f df) eqn:Ef.
    + destruct (get_col name df) eqn:En; [reflexivity|].
      destruct (String.eqb_spec name f) as [->|]; [|reflexivity].
      apply has_col_lookup in Ef as [v Ev]. unfold get_col in *. congruence.
    + rewrite get_set_scalar. destruct (String.eqb_spec name f) as [->|].
      * apply mem_false, lookup_col_None in Ef. unfold get_col, columns in *.
        now rewrite Ef.
      * now destruct (get_col name df).
Qed.

(** The category chosen for the hour is one of the four. *)
Lemma serving_time_category_range (hour : cell) (c : string) :
  Main.serving_time_category hour = Returned c -> In c Main.time_categories.
Proof.
  unfold Main.serving_time_category, and_then.
  destruct (Main.between 0 hour 6) as [[]|]; [intros [= <-]; simpl; tauto | | discriminate].
  destruct (Main.between 6 hour 12) as [[]|]; [intros [= <-]; simpl; tauto | | discriminate].
  destruct (Main.between 12 hour 18) as [[]|]; [| | discriminate];
    intros [= <-]; simpl; tauto.
Qed.

(** The media block either raises or sets the indicator of the chosen
    media type. *)
Lemma media_block (df : t) :
  let o := match get_col "media_type" df with
           | Some v =>
               media_type <~ Main.iloc0 v;;
               match media_type with
               | CStr s =>
                   match List.find (fun m => bool_decide (s = str m)) Main.media_types with
                   | Some m => Returned (set_scalar ("media_type_" ++ m)%string
                                                    (CInt 1) (Spec.zeroed_media df))
                   | None => Returned (Spec.zeroed_media df)
                   end
               | _ => Returned (Spec.zeroed_media df)
               end
           | None => Returned (Spec.zeroed_media df)
           end in
  (exists e, o = Raised e)
  \/ o = Returned (Spec.with_media (Spec.chosen_media df) (Spec.zeroed_media df)).
Proof.
  unfold Spec.chosen_media, Spec.first_text.
  destruct (get_col "media_type" df) as [[|[| | |s] v]|]; simpl; eauto.
  repeat (destruct (bool_decide _); simpl; eauto).
Qed.

Lemma first_cell_block (col : string) (default : cell) (df : t) :
  let o := match get_col col df with
           | Some v => Main.iloc0 v
           | None => Returned default
           end in
  (exists e, o = Raised e) \/ o = Returned (Spec.first_cell col default df).
Proof.
  unfold Spec.first_cell. destruct (get_col col df) as [[|c v]|]; simpl; eauto.
Qed.

Lemma Returned_inj {A} (a b : A) : @Returned A a = Returned b -> a = b.
Proof. congruence. Qed.

(** A run of the block that returns has this shape. *)
Lemma add_serving_features_run (df out : t) :
  Main.add_serving_features df = Returned out ->
  exists (c : string) (wd we : bool),
    Main.serving_time_category (Spec.first_cell "hour_of_day" (CInt 0) df) = Returned c
    /\ (wd && we = false)
    /\ (forall z, Spec.first_cell "day_of_week" CNone df = CInt z ->
          wd = (z <? 5) /\ we = (5 <=? z))
    /\ out = fold_left (fun d f => if has_col f d then d else set_scalar f (CInt 0) d)
               Main.required_features
               (Spec.serving_frame df (Spec.chosen_media df) c wd we).
Proof.
  intros H. unfold Main.add_serving_features in H.
  change (fold_left _ Main.media_types df) with (Spec.zeroed_media df) in H.
  assert (Em : get_col "media_type" (Spec.zeroed_media df) = get_col "media_type" df).
  { unfold Spec.zeroed_media. rewrite !get_set_scalar. reflexivity. }
  rewrite Em in H.
  destruct (media_block df) as [[e E]|E]; cbv zeta in E; rewrite E in H; [discriminate|].
  clear E. cbn [and_then] in H.
  set (df1 := Spec.with_media (Spec.chosen_media df) (Spec.zeroed_media df)) in *.
  change (fold_left _ Main.time_categories df1) with (Spec.zeroed_time df1) in H.
  assert (Eh : forall c, get_col "hour_of_day" (Spec.zeroed_time df1) = get_col "hour_of_day" df
                       /\ get_col "day_of_week"
                            (set_scalar ("time_category_" ++ c)%string (CInt 1) (Spec.zeroed_time df1))
                          = get_col "day_of_week" df
                       /\ forall x, get_col "day_of_week"
                            (set_scalar "is_weekend_0" x
                              (set_scalar ("time_category_" ++ c)%string (CInt 1)
                                 (Spec.zeroed_time df1)))
                          = get_col "day_of_week" df).
  { intros c. unfold df1, Spec.with_media, Spec.zeroed_time, Spec.zeroed_media.
    destruct (Spec.chosen_media df); repeat split; intros; rewrite !get_set_scalar; reflexivity. }
  destruct (Eh "") as (Eh1 & _). rewrite Eh1 in H.
  destruct (first_cell_block "hour_of_day" (CInt 0) df) as [[e E]|E]; cbv zeta in E;
    rewrite E in H; [discriminate|]. clear E. cbn [and_then] in H.
  destruct (Main.serving_time_category _) as [c|e] eqn:Ec; [|discriminate].
  cbn [and_then] in H. destruct (Eh c) as (_ & Eh2 & Eh3). rewrite Eh2 in H.
  destruct (match get_col "day_of_week" df with
            | Some v => d <~ Main.iloc0 v;; Main.cell_lt d 5
            | None => Returned false
            end) as [wd|e] eqn:Ewd; [|discriminate].
  cbn [and_then] in H. rewrite Eh3 in H.
  destruct (match get_col "day_of_week" df with
            | Some v => d <~ Main.iloc0 v;; Main.cell_ge d 5
            | None => Returned false
            end) as [we|e] eqn:Ewe; [|discriminate].
  cbn [and_then] in H. apply Returned_inj in H. subst out.
  exists c, wd, we. split; [reflexivity|]. split; [|split; [|reflexivity]].
  - destruct (get_col "day_of_week" df) as [[|d v]|];
      cbn [and_then Main.iloc0] in Ewd, Ewe; try discriminate;
      [|injection Ewd as <-; reflexivity].
    destruct d as [|z|f|s]; cbn [Main.cell_lt Main.cell_ge] in Ewd, Ewe; try discriminate;
      injection Ewd as <-; injection Ewe as <-.
    + reflexivity.
    + destruct (Z.ltb_spec z 5), (Z.leb_spec 5 z); try reflexivity; lia.
    + destruct (f <? float_of_Z 5)%float eqn:E; [|reflexivity].
      now rewrite (ltb_not_leb _ _ E).
  - intros z Hz. unfold Spec.first_cell in Hz.
    destruct (get_col "day_of_week" df) as [[|d v]|]; try discriminate. subst d.
    cbn [and_then Main.iloc0 Main.cell_lt Main.cell_ge] in Ewd, Ewe. split; congruence.
Qed.

Lemma chosen_media_range (df : t) (m : string) :
  Spec.chosen_media df = Some m -> In m Main.media_types.
Proof.
  unfold Spec.chosen_media. destruct (Spec.first_text "media_type" df); [|discriminate].
  intros H. apply find_some in H. tauto.
Qed.

Lemma chosen_media_spec (df : t) (m : string) :
  In m Main.media_types ->
  Spec.chosen_media df = Some m <-> Spec.first_text "media_type" df = Some (str m).
Proof.
  intros Hm. unfold Spec.chosen_media.
  destruct (Spec.first_text "media_type" df) as [s|]; [|split; discriminate].
  cbn [find Main.media_types]. simpl in Hm.
  destruct Hm as [<-|[<-|[<-|[]]]]; repeat case_bool_decide; subst;
    (split; intros E;
     [ first [discriminate E | reflexivity | exfalso; injection E as E; discriminate E]
     | first [reflexivity
             | exfalso; injection E as E; vm_compute in E; discriminate E
             | exfalso; injection E as E; subst; congruence ] ]).
Qed.


Lemma serving_frame_nrows df m c wd we : nrows (Spec.serving_frame df m c wd we) = nrows df.
Proof.
  unfold Spec.serving_frame, Spec.zeroed_time, Spec.zeroed_media, Spec.with_media.
  destruct m; now rewrite !set_scalar_nrows.
Qed.

(** Reading a label of the frame after the indicator assignments: the
    last assignment to the label decides. *)
Lemma serving_frame_get name df m c wd we :
  get_col name (Spec.serving_frame df m c wd we)
  = if String.eqb name "is_weekend_1" then Some (repeat (CInt (if we then 1 else 0)) (nrows df))
    else if String.eqb name "is_weekend_0"
    then Some (repeat (CInt (if wd then 1 else 0)) (nrows df))
    else if String.eqb name ("time_category_" ++ c) then Some (repeat (CInt 1) (nrows df))
    else if mem name ["time_category_night"; "time_category_evening";
                      "time_category_afternoon"; "time_category_morning"]
    then Some (repeat (CInt 0) (nrows df))
    else if match m with Some m => String.eqb name ("media_type_" ++ m) | None => false end
    then Some (repeat (CInt 1) (nrows df))
    else if mem name ["media_type_video"; "media_type_text"; "media_type_image"]
    then Some (repeat (CInt 0) (nrows df))
    else get_col name df.
Proof.
  unfold Spec.serving_frame, Spec.zeroed_time, Spec.zeroed_media, Spec.with_media.
  destruct m as [m|]; rewrite !get_set_scalar, !set_scalar_nrows;
    unfold mem; cbn [existsb];
    repeat match goal with |- context [String.eqb name ?n] => destruct (String.eqb name n) end;
    reflexivity.
Qed.

(** X12. When the indicator block of [predict_engagement] returns, the
    frame keeps its rows and:
    - each [media_type_*] column is 1 exactly when the first row of
      [media_type] is that text, else 0;
    - exactly one [time_category_*] column is 1, the one of the category
      the hour chain picks for the first row of [hour_of_day] (hour 0 when
      the column is absent), the other three are 0;
    - [is_weekend_0] and [is_weekend_1] are 0/1 columns that are never both
      1, and for an integer day [z] they are [z < 5] and the training
      pipeline's [is_weekend z];
    - every required feature is a column;
    - every other column of the input is unchanged. *)
Theorem add_serving_features_spec (df out : t) :
  Main.add_serving_features df = Returned out ->
  nrows out = nrows df
  /\ (forall m, In m Main.media_types ->
        Spec.indicator out ("media_type_" ++ m)
          (if bool_decide (Spec.first_text "media_type" df = Some (str m)) then 1 else 0))
  /\ (exists c,
        Main.serving_time_category (Spec.first_cell "hour_of_day" (CInt 0) df) = Returned c
        /\ In c Main.time_categories
        /\ forall c', In c' Main.time_categories ->
             Spec.indicator out ("time_category_" ++ c') (if String.eqb c' c then 1 else 0))
  /\ (exists wd we : bool,
        Spec.indicator out "is_weekend_0" (if wd then 1 else 0)
        /\ Spec.indicator out "is_weekend_1" (if we then 1 else 0)
        /\ wd && we = false
        /\ forall z, Spec.first_cell "day_of_week" CNone df = CInt z ->
             wd = (z <? 5) /\ (if we then 1 else 0) = DataProcessor.is_weekend z)
  /\ (forall f, In f Main.required_features -> has_col f out = true)
  /\ (forall name v, get_col name df = Some v -> ~ In name Spec.indicator_names ->
        get_col name out = Some v).
Proof.
  intros H. apply add_serving_features_run in H as (c & wd & we & Hc & Hww & Hday & H).
  pose proof (serving_time_category_range _ _ Hc) as Hcin.
  destruct (fill_missing_spec Main.required_features
              (Spec.serving_frame df (Spec.chosen_media df) c wd we)) as (Hn & Hget).
  rewrite <- H in Hn, Hget. clear H. rewrite serving_frame_nrows in Hn, Hget.
  assert (Hind : forall col v,
             get_col col (Spec.serving_frame df (Spec.chosen_media df) c wd we)
             = Some (repeat (CInt v) (nrows df)) ->
             Spec.indicator out col v).
  { intros col v E. unfold Spec.indicator. rewrite Hget, E, Hn. reflexivity. }
  split; [exact Hn|].
  split; [|split; [|split; [|split]]].
  - intros m Hm. apply Hind. rewrite serving_frame_get.
    pose proof (chosen_media_spec df m Hm) as Hiff. clear Hind Hget Hn.
    destruct (Spec.chosen_media df) as [m0|] eqn:Em.
    + apply chosen_media_range in Em. simpl in Hm, Em.
      destruct Hm as [<-|[<-|[<-|[]]]]; destruct Em as [<-|[<-|[<-|[]]]];
        (case_bool_decide as Hb; [apply Hiff in Hb | rewrite <- Hiff in Hb]);
        first [discriminate Hb | exfalso; apply Hb; reflexivity | idtac];
        reflexivity.
    + simpl in Hm.
      destruct Hm as [<-|[<-|[<-|[]]]];
        (case_bool_decide as Hb; [apply Hiff in Hb; discriminate Hb|]);
        reflexivity.
  - exists c. split; [exact Hc|]. split; [exact Hcin|].
    intros c' Hc'. apply Hind. rewrite serving_frame_get.
    simpl in Hcin, Hc'.
    destruct Hcin as [<-|[<-|[<-|[<-|[]]]]]; destruct Hc' as [<-|[<-|[<-|[<-|[]]]]];
      reflexivity.
  - exists wd, we. split; [|split; [|split; [exact Hww|]]].
    + apply Hind. rewrite serving_frame_get. reflexivity.
    + apply Hind. rewrite serving_frame_get. reflexivity.
    + intros z Hz. destruct (Hday z Hz) as [-> ->]. split; reflexivity.
  - intros f Hf. apply has_col_lookup. specialize (Hget f).
    apply (proj2 (mem_In f Main.required_features)) in Hf. rewrite Hf in Hget.
    destruct (get_col f (Spec.serving_frame df (Spec.chosen_media df) c wd we)); eauto.
  - intros name v Hv Hname. rewrite Hget, serving_frame_get.
    assert (Hne : forall n, In n Spec.indicator_names -> String.eqb name n = false).
    { intros n Hin. apply String.eqb_neq. congruence. }
    unfold mem. cbn [existsb].
    simpl in Hcin. destruct Hcin as [<-|[<-|[<-|[<-|[]]]]];
      (destruct (Spec.chosen_media df) as [m|] eqn:Em;
       [apply chosen_media_range in Em; simpl in Em; destruct Em as [<-|[<-|[<-|[]]]]|]);
      repeat match goal with
             | |- context [String.eqb ?x ?n] =>
                 is_var x; rewrite (Hne n) by (vm_compute; auto 12)
             end; cbn [orb]; rewrite Hv; reflexivity.
Qed.

Lemma add_serving_features_spec_witness :
  nrows Spec.served_post = nrows Spec.processed_post
  /\ (forall m, In m Main.media_types ->
        Spec.indicator Spec.served_post ("media_type_" ++ m)
          (if bool_decide (Spec.first_text "media_type" Spec.processed_post = Some (str m))
           then 1 else 0))
  /\ (exists c,
        Main.serving_time_category
          (Spec.first_cell "hour_of_day" (CInt 0) Spec.processed_post) = Returned c
        /\ In c Main.time_categories
        /\ forall c', In c' Main.time_categories ->
             Spec.indicator Spec.served_post ("time_category_" ++ c')
               (if String.eqb c' c then 1 else 0))
  /\ (exists wd we : bool,
        Spec.indicator Spec.served_post "is_weekend_0" (if wd then 1 else 0)
        /\ Spec.indicator Spec.served_post "is_weekend_1" (if we then 1 else 0)
        /\ wd && we = false
        /\ forall z, Spec.first_cell "day_of_week" CNone Spec.processed_post = CInt z ->
             wd = (z <? 5) /\ (if we then 1 else 0) = DataProcessor.is_weekend z)
  /\ (forall f, In f Main.required_features -> has_col f Spec.served_post = true)
  /\ (forall name v, get_col name Spec.processed_post = Some v ->
        ~ In name Spec.indicator_names ->
        get_col name Spec.served_post = Some v).
Proof.
  apply (add_serving_features_spec Spec.processed_post Spec.served_post).
  vm_compute. reflexivity.
Defined.

(** The indicators of [Spec.processed_post], a video posted on a Sunday at
    20h. *)
Example add_serving_features_example :
  map (fun col => (col, get_col col Spec.served_post))
      ["media_type_image"; "media_type_video"; "time_category_evening";
       "time_category_night"; "is_weekend_0"; "is_weekend_1"; "followers_count"]
  = [("media_type_image", Some [CInt 0]); ("media_type_video", Some [CInt 1]);
     ("time_category_evening", Some [CInt 1]); ("time_category_night", Some [CInt 0]);
     ("is_weekend_0", Some [CInt 0]); ("is_weekend_1", Some [CInt 1]);
     ("followers_count", Some [CInt 0])].
Proof. vm_compute. reflexivity. Qed.

End ServingFeatures.

(* ================================================================= *)
(** ** Loading the latest saved model at start-up *)

Section Loader.

Import Main.


Lemma string_app_cons c (a b : string) : (String c a ++ b)%string = String c (a ++ b)%string.
Proof. reflexivity. Qed.

Lemma string_length_app (a b : string) :
  String.length (a ++ b)%string = (String.length a + String.length b)%nat.
Proof.
  induction a as [|c a IH]; [reflexivity|]. rewrite string_app_cons. simpl. now rewrite IH.
Qed.

Lemma eqb_length (x y : string) :
  String.length x <> String.length y -> String.eqb x y = false.
Proof. intros H. apply String.eqb_neq. congruence. Qed.

Lemma endswith_refl (t : string) : endswith t t = true.
Proof. destruct t; simpl; rewrite ?Ascii.eqb_refl, ?String.eqb_refl; reflexivity. Qed.

(** A name ends with what was appended last. *)
Lemma endswith_app (s t : string) : endswith (s ++ t) t = true.
Proof.
  induction s as [|c s IH]; [apply endswith_refl|].
  rewrite string_app_cons. cbn [endswith]. rewrite IH. apply orb_true_r.
Qed.

(** Whether a name ends with a suffix is decided by its last characters. *)
Lemma endswith_app_short (s t suffix : string) :
  (String.length suffix <= String.length t)%nat ->
  endswith (s ++ t) suffix = endswith t suffix.
Proof.
  intros H. induction s as [|c s IH]; [reflexivity|].
  rewrite string_app_cons. cbn [endswith]. rewrite IH.
  rewrite eqb_length; [reflexivity|].
  cbn [String.length]. rewrite string_length_app. lia.
Qed.

Lemma before_dot_app (s t : string) :
  before_dot s = s -> before_dot (s ++ t) = (s ++ before_dot t)%string.
Proof.
  induction s as [|c s IH]; [reflexivity|].
  rewrite !string_app_cons. cbn [before_dot].
  destruct (Ascii.eqb c "."); [discriminate|].
  intros [= H]. now rewrite (IH H).
Qed.

Lemma ascii_compare_refl (c : ascii) : Ascii.compare c c = Eq.
Proof. unfold Ascii.compare. apply N.compare_refl. Qed.

Lemma compare_app (s a b : string) :
  String.compare (s ++ a) (s ++ b) = String.compare a b.
Proof.
  induction s as [|c s IH]; [reflexivity|].
  rewrite !string_app_cons. cbn [String.compare]. now rewrite ascii_compare_refl.
Qed.

Lemma leb_app (s a b : string) : String.leb (s ++ a) (s ++ b) = String.leb a b.
Proof. unfold String.leb. now rewrite compare_app. Qed.

Lemma leb_trans (a b c : string) :
  String.leb a b = true -> String.leb b c = true -> String.leb a c = true.
Proof.
  intros H1 H2. apply Is_true_true. apply Is_true_true in H1, H2.
  exact (transitivity (R:=String.le) H1 H2).
Qed.

(** The first name after [sort(reverse=True)] is a greatest name of the
    list. *)
Lemma insert_reverse_head (x : string) (l : list string) :
  exists f r, insert_reverse x l = f :: r
              /\ (f = x \/ exists r0, l = f :: r0)
              /\ String.leb x f = true.
Proof.
  destruct l as [|y l]; simpl.
  - exists x, []. repeat split; [now left|]. 
    destruct (String.leb_total x x); assumption.
  - destruct (String.leb y x) eqn:E.
    + exists x, (y :: l). repeat split; [now left|].
      destruct (String.leb_total x x); assumption.
    + exists y, (insert_reverse x l). repeat split; [right; eauto|].
      destruct (String.leb_total x y) as [H|H]; [assumption|congruence].
Qed.

Lemma sort_reverse_head (l : list string) :
  l <> [] ->
  exists f r, sort_reverse l = f :: r
              /\ In f l /\ forall g, In g l -> String.leb g f = true.
Proof.
  induction l as [|x l IH]; [congruence|]. intros _.
  unfold sort_reverse. cbn [fold_right]. fold (sort_reverse l).
  destruct l as [|y l'].
  - exists x, []. split; [reflexivity|]. split; [now left|].
    intros g [<-|[]]. destruct (String.leb_total x x); assumption.
  - destruct IH as (f0 & r0 & E0 & Hin0 & Hmax0); [congruence|].
    rewrite E0.
    destruct (insert_reverse_head x (f0 :: r0)) as (f & r & E & Hf & Hx).
    exists f, r. split; [exact E|].
    assert (Hf0 : String.leb f0 f = true).
    { destruct Hf as [->|[r1 [= <- _]]].
      - simpl in E. destruct (String.leb f0 x) eqn:E1; [reflexivity|].
        injection E as E _. subst f0. destruct (String.leb_total x x); congruence.
      - destruct (String.leb_total f0 f0); assumption. }
    split.
    + destruct Hf as [->|[r1 [= <- _]]]; [now left | now right].
    + intros g [<-|Hg]; [exact Hx|]. eapply leb_trans; [apply Hmax0, Hg | exact Hf0].
Qed.

(** Without the metadata file [load] raises and changes nothing. *)
Lemma load_metadata_missing (filename : string) (w : World) :
  files w !! path_join (model_dir (engagement_model w)) (filename ++ "_metadata.joblib")%string
  = None ->
  exists msg, EngagementModel.load filename w = (w, Raised (FileNotFoundError msg)).
Proof.
  intros H. unfold EngagementModel.load, EngagementModel.self, bind, path_exists, raise.
  cbv beta iota zeta.
  destruct (bool_decide (is_Some (files w !! _))); cbn [negb]; cbv beta iota.
  - rewrite H. rewrite bool_decide_eq_false_2 by (intros [x Hx]; discriminate).
    cbn [negb]. eauto.
  - eauto.
Qed.

(** X13. In a model directory where the greatest name that ends in
    [.joblib] and not in [_metadata.joblib] is
    [<stem>_feature_engineering.joblib] (the name [train_model.py] gives
    the pickled pipeline, next to [<stem>.joblib]), [get_model]'s loader
    takes that file for the latest model, asks for the identifier
    [<stem>_feature_engineering], finds no metadata file for it, and gives
    up: it logs the error and leaves the model, the pipeline and the files
    as they were, so the weights [<stem>.joblib] are never loaded. *)
Theorem load_pretrained_feature_engineering_first
    (model_dir stem : string) (listdir : list string) (w : World) :
  Objects.model_dir (engagement_model w) = model_dir ->
  before_dot stem = stem ->
  In (stem ++ "_feature_engineering.joblib")%string listdir ->
  (forall f, In f listdir -> Spec.is_model_file f = true ->
             String.leb f (stem ++ "_feature_engineering.joblib") = true) ->
  files w !! path_join model_dir (stem ++ "_feature_engineering_metadata.joblib")%string
  = None ->
  load_pretrained model_dir listdir w
  = ({| engagement_model := engagement_model w;
        feature_engineering := feature_engineering w;
        files := files w;
        logs := logs w ++ [(ERROR, "Error loading model or feature engineering pipeline")] |},
     Returned tt).
Proof.
  intros Hdir Hdot Hin Hmax Hmeta.
  set (B := (stem ++ "_feature_engineering.joblib")%string) in *.
  assert (HB : Spec.is_model_file B = true).
  { unfold Spec.is_model_file, B.
    change "_feature_engineering.joblib" with ("_feature_engineering" ++ ".joblib")%string.
    rewrite <- string_app_assoc, endswith_app.
    rewrite string_app_assoc, endswith_app_short by (simpl; lia). reflexivity. }
  unfold load_pretrained.
  fold Spec.is_model_file.
  change (fun f => endswith f ".joblib" && negb (endswith f "_metadata.joblib"))
    with Spec.is_model_file.
  destruct (sort_reverse_head (List.filter Spec.is_model_file listdir))
    as (f & r & E & Hf & Hg).
  { intros E. assert (H : In B (List.filter Spec.is_model_file listdir))
      by (apply filter_In; auto). rewrite E in H. destruct H. }
  rewrite E. apply filter_In in Hf as [Hf1 Hf2].
  assert (f = B) as ->.
  { apply String.leb_antisym; [apply Hmax; assumption | apply Hg, filter_In; auto]. }
  assert (Hid : before_dot B = (stem ++ "_feature_engineering")%string).
  { unfold B. now rewrite before_dot_app. }
  rewrite Hid.
  destruct (load_metadata_missing (stem ++ "_feature_engineering") w) as [msg Hload].
  { rewrite Hdir, string_app_assoc. exact Hmeta. }
  unfold try_except, bind. rewrite Hload. reflexivity.
Qed.

(** [FeatureEngineering.load] returns a boolean whatever the file holds,
    and touches neither the model nor the files. *)
Lemma feature_engineering_load_keeps_model (filepath : string) (w : World) :
  exists w' b,
    FeatureEngineering.load filepath w = (w', Returned b)
    /\ engagement_model w' = engagement_model w
    /\ files w' = files w.
Proof.
  unfold FeatureEngineering.load, try_except, FeatureEngineering.load_body, bind, joblib_load.
  destruct (files w !! filepath) as [[[r|m|d|fe|]|]|]; simpl;
    try (eexists _, _; split; [reflexivity|]; split; reflexivity).
  destruct d as [[p|] [t|] [n|] [c|] [x|]]; simpl;
    eexists _, _; (split; [reflexivity|]); split; reflexivity.
Qed.

(** X14. When the greatest model file of the directory is [<stem>.joblib]
    with no dot in the stem, and it and [<stem>_metadata.joblib] hold a
    pickled object and a complete metadata dictionary, [get_model]'s
    loader returns with the model restored from the two files, whatever
    the pipeline files hold. *)
Theorem load_pretrained_loads_greatest
    (model_dir stem : string) (listdir : list string) (w : World)
    (m : pyobj) (mt : string) (fn : option (list string)) (tn : list string)
    (mx : metrics_t) (fi : list (string * float)) (ts : option string) :
  Objects.model_dir (engagement_model w) = model_dir ->
  before_dot stem = stem ->
  In (stem ++ ".joblib")%string listdir ->
  Spec.is_model_file (stem ++ ".joblib") = true ->
  (forall f, In f listdir -> Spec.is_model_file f = true ->
             String.leb f (stem ++ ".joblib") = true) ->
  files w !! path_join model_dir (stem ++ ".joblib")%string = Some (Pickle m) ->
  files w !! path_join model_dir (stem ++ "_metadata.joblib")%string
  = Some (Pickle (ObjMetadata {| md_model_type := Some mt; md_feature_names := Some fn;
                                 md_target_names := Some tn; md_metrics := Some mx;
                                 md_feature_importance := Some fi;
                                 md_timestamp := ts |})) ->
  exists w',
    load_pretrained model_dir listdir w = (w', Returned tt)
    /\ engagement_model w'
       = {| model_type := mt; Objects.model_dir := model_dir;
            model := Some (Spec.restored_model (model_type (engagement_model w)) m);
            feature_names := fn; target_names := tn;
            metrics := mx; feature_importance := fi |}
    /\ files w' = files w.
Proof.
  intros Hdir Hdot Hin HB Hmax Hmodel Hmeta.
  set (B := (stem ++ ".joblib")%string) in *.
  unfold load_pretrained.
  change (fun f => endswith f ".joblib" && negb (endswith f "_metadata.joblib"))
    with Spec.is_model_file.
  destruct (sort_reverse_head (List.filter Spec.is_model_file listdir))
    as (f & r & E & Hf & Hg).
  { intros E. assert (H : In B (List.filter Spec.is_model_file listdir))
      by (apply filter_In; auto). rewrite E in H. destruct H. }
  rewrite E. apply filter_In in Hf as [Hf1 Hf2].
  assert (f = B) as ->.
  { apply String.leb_antisym; [apply Hmax; assumption | apply Hg, filter_In; auto]. }
  assert (Hid : before_dot B = stem).
  { unfold B. rewrite before_dot_app by assumption.
    cbn [before_dot Ascii.eqb Bool.eqb]. 
    clear. induction stem as [|c s IH]; [reflexivity|].
    rewrite string_app_cons. now rewrite IH. }
  rewrite Hid.
  destruct (engagement_model_load_run stem w m mt fn tn mx fi ts) as (w1 & R & Rm & Rfe & Rf).
  { rewrite Hdir. exact Hmodel. }
  { rewrite Hdir. exact Hmeta. }
  rewrite Hdir in Rm.
  unfold try_except. unfold bind at 1. rewrite R. unfold bind at 1.
  destruct (log_only_logged INFO ("Loaded pre-trained model: " ++ stem)%string w1)
    as (w2 & E2 & L2).
  rewrite E2. cbv beta iota.
  destruct (sort_reverse (List.filter (fun f => startswith f "feature_engineering_") listdir))
    as [|g gs].
  - destruct (log_only_logged WARNING "No feature engineering pipeline found." w2)
      as (w3 & E3 & L3).
    rewrite E3. exists w3. split; [reflexivity|].
    destruct L2 as (A2 & _ & C2 & _), L3 as (A3 & _ & C3 & _).
    split; congruence.
  - destruct (feature_engineering_load_keeps_model (path_join model_dir g) w2)
      as (w3 & b & E3 & A3 & C3).
    unfold bind. rewrite E3.
    destruct (log_only_logged INFO
                ("Loaded feature engineering pipeline: " ++ path_join model_dir g)%string w3)
      as (w4 & E4 & L4).
    rewrite E4. exists w4. split; [reflexivity|].
    destruct L2 as (A2 & _ & C2 & _), L4 as (A4 & _ & C4 & _).
    split; congruence.
Qed.

Lemma load_pretrained_feature_engineering_first_witness :
  load_pretrained "models" Spec.train_model_listing Spec.train_model_world
  = ({| engagement_model := engagement_model Spec.train_model_world;
        feature_engineering := feature_engineering Spec.train_model_world;
        files := files Spec.train_model_world;
        logs := logs Spec.train_model_world
                ++ [(ERROR, "Error loading model or feature engineering pipeline")] |},
     Returned tt).
Proof.
  apply (load_pretrained_feature_engineering_first "models" "xgboost_20240101_120000").
  - reflexivity.
  - reflexivity.
  - simpl. auto.
  - intros f [<-|[<-|[<-|[]]]] H; first [reflexivity | vm_compute in H; discriminate H].
  - vm_compute. reflexivity.
Defined.

Lemma load_pretrained_loads_greatest_witness :
  exists w',
    load_pretrained "models" Spec.pipeline_listing Spec.pipeline_world = (w', Returned tt)
    /\ engagement_model w'
       = {| model_type := "xgboost"; Objects.model_dir := "models";
            model := Some (Spec.restored_model "xgboost" (ObjRegressor Spec.zero_regressor));
            feature_names := Some ["text_length"; "hour_of_day"; "day_of_week"];
            target_names := ["likes"; "shares"; "comments"];
            metrics := ∅; feature_importance := [] |}
    /\ files w' = files Spec.pipeline_world.
Proof.
  apply (load_pretrained_loads_greatest "models" "xgboost_all_20240101_120000"
           Spec.pipeline_listing Spec.pipeline_world (ObjRegressor Spec.zero_regressor)
           "xgboost" (Some ["text_length"; "hour_of_day"; "day_of_week"])
           ["likes"; "shares"; "comments"] ∅ [] (Some "2024-01-01T12:00:00")).
  - reflexivity.
  - reflexivity.
  - simpl. auto.
  - reflexivity.
  - intros f [<-|[<-|[<-|[]]]] H; first [reflexivity | vm_compute in H; discriminate H].
  - vm_compute. reflexivity.
  - vm_compute. reflexivity.
Defined.

End Loader.

(* ================================================================= *)
(** ** [EngagementModel.load] on concrete model directories *)

Section LoadInstances.

Lemma engagement_model_load_cases_witness :
  (exists w',
     EngagementModel.load "xgboost_all_20240101_120000" Spec.pipeline_world
     = (w', Returned tt)
     /\ engagement_model w'
        = {| model_type := "xgboost"; model_dir := "models";
             model := Some (Spec.restored_model "xgboost" (ObjRegressor Spec.zero_regressor));
             feature_names := Some ["text_length"; "hour_of_day"; "day_of_week"];
             target_names := ["likes"; "shares"; "comments"];
             metrics := ∅; feature_importance := [] |}
     /\ feature_engineering w' = feature_engineering Spec.pipeline_world
     /\ files w' = files Spec.pipeline_world)
  /\ (exists w' e,
        EngagementModel.load "m" Spec.corrupt_metadata_world = (w', Raised e)
        /\ model (engagement_model w')
           = Some (Spec.restored_model "xgboost" (ObjRegressor Spec.zero_regressor))
        /\ feature_importance (engagement_model w') = []
        /\ files w' = files Spec.corrupt_metadata_world).
Proof.
  split.
  - refine (proj1 (proj2 (engagement_model_load_cases "xgboost_all_20240101_120000"
                            Spec.pipeline_world))
              (ObjRegressor Spec.zero_regressor) "xgboost"
              (Some ["text_length"; "hour_of_day"; "day_of_week"])
              ["likes"; "shares"; "comments"] ∅ [] (Some "2024-01-01T12:00:00") _ _);
      vm_compute; reflexivity.
  - refine (proj2 (proj2 (proj2 (engagement_model_load_cases "m"
                                   Spec.corrupt_metadata_world)))
              (ObjRegressor Spec.zero_regressor) Unreadable _ _ _);
      vm_compute; reflexivity.
Defined.

End LoadInstances.
